(** * etl_base_contratos: a shallow embedding of the contract ETL

    The development follows [etl_base_contratos.py]: an API client
    ([ClienteAPI]) that throttles and issues GET requests, and a fetcher
    ([BuscadorContrato]) that paginates, builds a table, flattens the
    nested columns and reformats the currency columns.

    Python objects are embedded as [pyval]; text is a [string] whose
    characters are code points below 256.  The calls that reach outside the
    process (clock, network, credential file, logging, sleeping) go through
    an explicit world [mundo] and a trace of [evento]s.  The library calls
    are modelled as of Python 3.8, requests 2.27 and pandas 1.x and 2.x. *)

From Stdlib Require Import ZArith List String Ascii Bool Lia.
From Stdlib Require Import PrimFloat FloatOps SpecFloat Uint63.
Import ListNotations.

Local Open Scope string_scope.
Local Open Scope list_scope.
Local Open Scope Z_scope.

(** ** Python values *)

Set Warnings "-register-all".

Inductive pyval : Type :=
| PyNone
| PyBool (b : bool)
| PyInt (n : Z)
| PyFloat (x : float)
| PyStr (s : string)
| PyList (l : list pyval)
| PyTuple (l : list pyval)
| PyDict (d : list (pyval * pyval)).

(** [bool(v)], the test behind [if not dados]. *)
Definition truthy (v : pyval) : bool :=
  match v with
  | PyNone => false
  | PyBool b => b
  | PyInt n => negb (n =? 0)
  | PyFloat x => negb (PrimFloat.eqb x 0%float)
  | PyStr s => negb (String.eqb s "")
  | PyList l | PyTuple l => match l with [] => false | _ => true end
  | PyDict d => match d with [] => false | _ => true end
  end.

(** The exceptions the program can meet. *)
Inductive excecao : Type :=
| ValueError
| TypeError
| AttributeError
| IndexError
| KeyError
| OverflowError
| LiteralMalformado.   (* the ValueError or SyntaxError of [ast.literal_eval] *)

(** Why the model gives no answer: the loop ran out of steps, or the call
    left the modelled fragment of a library. *)
Inductive motivo : Type :=
| SemCombustivel
| ForaDoModelo.

Inductive resultado (A : Type) : Type :=
| Retornou (a : A)
| Levantou (e : excecao)
| Indefinido (m : motivo).

Arguments Retornou {A} a.
Arguments Levantou {A} e.
Arguments Indefinido {A} m.

(** ** Text *)

(** [str.isspace] on one character (code points below 256). *)
Definition isspace (c : ascii) : bool :=
  let n := Z.of_nat (nat_of_ascii c) in
  ((9 <=? n) && (n <=? 13)) || ((28 <=? n) && (n <=? 32))
  || (n =? 133) || (n =? 160).

Fixpoint lstrip (s : string) : string :=
  match s with
  | EmptyString => EmptyString
  | String c r => if isspace c then lstrip r else s
  end.

Fixpoint rstrip (s : string) : string :=
  match s with
  | EmptyString => EmptyString
  | String c r =>
      match rstrip r with
      | EmptyString => if isspace c then EmptyString else String c EmptyString
      | r' => String c r'
      end
  end.

(** [s.strip()] *)
Definition strip (s : string) : string := rstrip (lstrip s).

(** [s.split(sep)] for a one-character separator. *)
Fixpoint split (sep : ascii) (s : string) : list string :=
  match s with
  | EmptyString => [EmptyString]
  | String c r =>
      if Ascii.eqb c sep then EmptyString :: split sep r
      else match split sep r with
           | h :: t => String c h :: t
           | [] => [String c EmptyString]
           end
  end.

(** [s.replace(a, b)] for one-character [a] and [b]. *)
Fixpoint replace (a b : ascii) (s : string) : string :=
  match s with
  | EmptyString => EmptyString
  | String c r => String (if Ascii.eqb c a then b else c) (replace a b r)
  end.

Definition LF : ascii := ascii_of_nat 10.
Definition CR : ascii := ascii_of_nat 13.

(** [file.readline()] on the text that remains to be read, the file being
    open in text mode with universal newlines: the first line with its
    terminator, every terminator read as a line feed. *)
Fixpoint readline (s : string) : string :=
  match s with
  | EmptyString => EmptyString
  | String c r =>
      if Ascii.eqb c LF || Ascii.eqb c CR then String LF EmptyString
      else String c (readline r)
  end.

(** ** Number formatting: [f'{x:,.2f}'] *)

Definition digito (n : Z) : ascii := ascii_of_nat (48 + Z.to_nat n).

(** The decimal digits of a natural number, most significant first. *)
Fixpoint digitos_aux (combustivel : nat) (n : Z) (acc : string) : string :=
  match combustivel with
  | O => acc
  | S k =>
      let acc' := String (digito (n mod 10)) acc in
      if n <? 10 then acc' else digitos_aux k (n / 10) acc'
  end.

Definition digitos (n : Z) : string :=
  digitos_aux (S (Z.to_nat (Z.log2 n))) n EmptyString.

(** The [,] option: a comma every three digits, counted from the right.
    [l] is the digit string reversed, [k] the digits since the last comma. *)
Fixpoint milhar_rev (l : list ascii) (k : nat) : list ascii :=
  match l with
  | [] => []
  | c :: r =>
      if Nat.eqb k 3 then ","%char :: c :: milhar_rev r 1
      else c :: milhar_rev r (S k)
  end.

Definition milhares (s : string) : string :=
  string_of_list_ascii (rev (milhar_rev (rev (list_ascii_of_string s)) 0)).

(** A non-negative number of hundredths as [d,ddd.dd]. *)
Definition dois_decimais (c : Z) : string :=
  (milhares (digitos (c / 100)) ++ "."
   ++ String (digito ((c mod 100) / 10)) (String (digito (c mod 10)) EmptyString))%string.

(** [m * 2^e * 100] rounded to the nearest integer, ties to even: the
    correctly rounded conversion that [float.__format__] performs. *)
Definition centavos (m : positive) (e : Z) : Z :=
  if 0 <=? e then 100 * Zpos m * 2 ^ e
  else
    let d := 2 ^ (- e) in
    let q := (100 * Zpos m) / d in
    let r := (100 * Zpos m) mod d in
    if 2 * r <? d then q
    else if d <? 2 * r then q + 1
    else if Z.even q then q else q + 1.

Definition sinal (s : bool) : string := if s then "-" else "".

(** [format(x, ',.2f')] for a float given by its IEEE 754 decomposition. *)
Definition formatar_float (x : spec_float) : string :=
  match x with
  | S754_nan => "nan"
  | S754_infinity s => (sinal s ++ "inf")%string
  | S754_zero s => (sinal s ++ "0.00")%string
  | S754_finite s m e => (sinal s ++ dois_decimais (centavos m e))%string
  end.

(** [float(n)] for an int: the nearest double, ties to even;
    [OverflowError] when it is out of range. *)
Definition float_de_int (n : Z) : resultado spec_float :=
  if n =? 0 then Retornou (S754_zero false)
  else
    let a := Z.abs n in
    let bits := Z.log2 a + 1 in
    if bits <=? 53 then Retornou (S754_finite (n <? 0) (Z.to_pos a) 0)
    else
      let sh := bits - 53 in
      let q := a / 2 ^ sh in
      let r := a mod 2 ^ sh in
      let q' := if 2 * r <? 2 ^ sh then q
                else if 2 ^ sh <? 2 * r then q + 1
                else if Z.even q then q else q + 1 in
      if 2 ^ 1024 <=? q' * 2 ^ sh then Levantou OverflowError
      else Retornou (S754_finite (n <? 0) (Z.to_pos q') sh).

(** [f'{x:,.2f}']: floats and ints (an int is converted to float first, a
    bool is an int); a str gives [ValueError], any other object
    [TypeError]. *)
Definition formatar_2f (x : pyval) : resultado string :=
  match x with
  | PyFloat f => Retornou (formatar_float (Prim2SF f))
  | PyInt n =>
      match float_de_int n with
      | Retornou f => Retornou (formatar_float f)
      | Levantou e => Levantou e
      | Indefinido m => Indefinido m
      end
  | PyBool b => Retornou (if b then "1.00" else "0.00")
  | PyStr _ => Levantou ValueError
  | PyNone | PyList _ | PyTuple _ | PyDict _ => Levantou TypeError
  end.

(** The lambda of [_formatar_valores_brasileiros]. *)
Definition formato_brasileiro (x : pyval) : resultado pyval :=
  match formatar_2f x with
  | Retornou s =>
      Retornou (PyStr (replace "X" "." (replace "." "," (replace "," "X" s))))
  | Levantou e => Levantou e
  | Indefinido m => Indefinido m
  end.


(** ** Tables *)

(** A [pandas.DataFrame] with string column labels and a default index: the
    columns in order, each with one cell per row.  A cell holds the Python
    object that [Series.apply] hands to its function: a float for a float64
    column, an int for an int64 column, the object itself otherwise (see
    [inferir]). *)
Record DataFrame : Type := {
  colunas : list (string * list pyval);
  n_linhas : nat
}.

Definition DataFrame_vazio : DataFrame := {| colunas := []; n_linhas := 0 |}.

Definition nomes (df : DataFrame) : list string := map fst (colunas df).

(** [nome in df.columns] *)
Definition tem_coluna (df : DataFrame) (nome : string) : bool :=
  existsb (String.eqb nome) (nomes df).

Fixpoint assoc {A} (k : string) (l : list (string * A)) : option A :=
  match l with
  | [] => None
  | (k', v) :: r => if String.eqb k k' then Some v else assoc k r
  end.

(** [df[nome]] *)
Definition coluna (df : DataFrame) (nome : string) : option (list pyval) :=
  assoc nome (colunas df).

(** The cell of column [nome] on row [i]. *)
Definition celula (df : DataFrame) (nome : string) (i : nat) : option pyval :=
  match coluna df nome with
  | Some vs => nth_error vs i
  | None => None
  end.

Fixpoint substituir {A} (k : string) (v : A) (l : list (string * A)) : list (string * A) :=
  match l with
  | [] => [(k, v)]
  | (k', v') :: r =>
      if String.eqb k k' then (k, v) :: r else (k', v') :: substituir k v r
  end.

(** [df[nome] = valores]: in place if the column exists, else appended. *)
Definition atribuir (df : DataFrame) (nome : string) (valores : list pyval) : DataFrame :=
  {| colunas := substituir nome valores (colunas df); n_linhas := n_linhas df |}.

Definition remover {A} (k : string) (l : list (string * A)) : list (string * A) :=
  filter (fun kv => negb (String.eqb k (fst kv))) l.

(** [df.drop(columns=nomes)]: [KeyError] if a label is not a column. *)
Definition drop (df : DataFrame) (rotulos : list string) : resultado DataFrame :=
  if forallb (tem_coluna df) rotulos then
    Retornou {| colunas := fold_left (fun l k => remover k l) rotulos (colunas df);
                n_linhas := n_linhas df |}
  else Levantou KeyError.

(** [float(k)] as a double. *)
Definition Z2float (k : Z) : float :=
  match float_de_int k with
  | Retornou x => SF2Prim x
  | _ => nan
  end.

Definition eh_int64 (k : Z) : bool := (- 2 ^ 63 <=? k) && (k <? 2 ^ 63).

Definition numero_ou_nulo (v : pyval) : bool :=
  match v with PyNone | PyFloat _ | PyInt _ => true | _ => false end.

Definition eh_float (v : pyval) : bool :=
  match v with PyFloat _ => true | _ => false end.

Definition eh_none (v : pyval) : bool :=
  match v with PyNone => true | _ => false end.

Definition eh_int (v : pyval) : bool :=
  match v with PyInt _ => true | _ => false end.

Definition int_enorme (v : pyval) : bool :=
  match v with PyInt k => 2 ^ 1023 <=? Z.abs k | _ => false end.

Definition int_fora_de_int64 (v : pyval) : bool :=
  match v with PyInt k => negb (eh_int64 k) | _ => false end.

Definition para_float (v : pyval) : pyval :=
  match v with
  | PyInt k => PyFloat (Z2float k)
  | PyNone => PyFloat nan
  | _ => v
  end.

(** The dtype pandas infers for a column of objects
    ([lib.maybe_convert_objects]), seen from the cells: a column of floats,
    ints and [None] with a float in it, or with both an int and a [None],
    becomes float64: each int becomes a float and each [None] becomes NaN;
    any other column keeps its objects.  Not modelled: a column with an
    int of magnitude [2^1023] or more, and a numeric column that mixes an
    int outside int64 with a float or [None]. *)
Definition inferir (l : list pyval) : resultado (list pyval) :=
  if existsb int_enorme l then Indefinido ForaDoModelo
  else if forallb numero_ou_nulo l
          && (existsb eh_float l || (existsb eh_none l && existsb eh_int l))
  then
    if existsb int_fora_de_int64 l then Indefinido ForaDoModelo
    else Retornou (map para_float l)
  else Retornou l.

(** A record as [pd.DataFrame] reads it: a dict with string keys. *)
Fixpoint chaves_texto (d : list (pyval * pyval)) : option (list (string * pyval)) :=
  match d with
  | [] => Some []
  | (PyStr k, v) :: r =>
      match chaves_texto r with
      | Some r' => Some ((k, v) :: r')
      | None => None
      end
  | _ => None
  end.

Definition como_registro (v : pyval) : option (list (string * pyval)) :=
  match v with
  | PyDict d => chaves_texto d
  | _ => None
  end.

Fixpoint como_registros (l : list pyval) : option (list (list (string * pyval))) :=
  match l with
  | [] => Some []
  | v :: r =>
      match como_registro v, como_registros r with
      | Some x, Some xs => Some (x :: xs)
      | _, _ => None
      end
  end.

Definition acrescentar (vistas : list string) (k : string) : list string :=
  if existsb (String.eqb k) vistas then vistas else vistas ++ [k].

(** The union of the keys, in order of first appearance. *)
Definition nomes_colunas (regs : list (list (string * pyval))) : list string :=
  fold_left (fun vistas r => fold_left acrescentar (map fst r) vistas) regs [].

(** A missing key gives NaN. *)
Definition valor_em (r : list (string * pyval)) (k : string) : pyval :=
  match assoc k r with
  | Some v => v
  | None => PyFloat nan
  end.

(** The columns of the records, each with its dtype inferred. *)
Fixpoint montar_colunas (regs : list (list (string * pyval))) (ks : list string)
    : resultado (list (string * list pyval)) :=
  match ks with
  | [] => Retornou []
  | k :: r =>
      match inferir (map (fun reg => valor_em reg k) regs) with
      | Retornou vs =>
          match montar_colunas regs r with
          | Retornou cs => Retornou ((k, vs) :: cs)
          | Levantou e => Levantou e
          | Indefinido m => Indefinido m
          end
      | Levantou e => Levantou e
      | Indefinido m => Indefinido m
      end
  end.

(** [pd.DataFrame(dados)] for a list of records.  Modelled for a list of
    dicts with string keys (what a JSON array of objects parses to). *)
Definition pd_DataFrame (dados : list pyval) : resultado DataFrame :=
  match como_registros dados with
  | Some regs =>
      match montar_colunas regs (nomes_colunas regs) with
      | Retornou cs => Retornou {| colunas := cs; n_linhas := List.length regs |}
      | Levantou e => Levantou e
      | Indefinido m => Indefinido m
      end
  | None => Indefinido ForaDoModelo
  end.

(** ** The world and the trace *)

Record requisicao : Type := {
  url : string;
  cabecalhos : list (string * string);
  parametros : list (string * pyval)
}.

(** What [requests.get] meets.  [FalhaRede]: the call raises a
    [RequestException] (connection error, timeout, too many redirects).
    [Resposta status corpo]: a response arrived; [corpo] is its body parsed
    as JSON, [None] when the body is not JSON ([response.json()] raises
    [JSONDecodeError]), as is the empty body of a response that carries
    none (204, 304).  Not modelled: a body whose decoding raises an
    exception that is not a [RequestException] ([RecursionError] on a
    deeply nested body, [ValueError] on an integer of more than 4300
    digits), which [get] does not catch. *)
Inductive resposta_http : Type :=
| FalhaRede
| Resposta (status : Z) (corpo : option pyval).

(** Why a caught exception was logged. *)
Inductive erro_http : Type :=
| ErroConexao
| ErroStatus (status : Z)
| ErroJSON.

Inductive nivel : Type := INFO | WARNING | ERROR.

(** The log records, one constructor per message of the source. *)
Inductive mensagem : Type :=
| DadosRecebidos (endpoint : string)
| ErroAcessoAPI (e : erro_http) (endpoint : string)
| ErroChaveAPI
| ErroAnaliseDicionario
| ColunaFormatada (coluna : string).

Inductive evento : Type :=
| Dormiu (segundos : float)
| Requisitou (r : requisicao)
| Registrou (n : nivel) (m : mensagem).

Record mundo : Type := {
  relogio : nat -> Z;                  (* hour given by the k-th [datetime.now()] *)
  servidor : requisicao -> resposta_http;
  arquivo_chave : option string        (* text of api_key.txt, [None] if it cannot be read *)
}.

(** The mutable state: the clock reads so far, the trace (oldest first),
    and the table object that the fetcher's [self.dataframe] refers to; the
    [df] the helper methods receive is this same object, updated in place. *)
Record estado : Type := {
  leituras : nat;
  eventos : list evento;
  dataframe : DataFrame
}.

Definition estado_inicial : estado :=
  {| leituras := 0; eventos := []; dataframe := DataFrame_vazio |}.

(** ** The monad of the program: state, exceptions, undefined *)

Definition M (A : Type) : Type := estado -> resultado A * estado.

Definition ret {A} (a : A) : M A := fun s => (Retornou a, s).

Definition bind {A B} (m : M A) (k : A -> M B) : M B :=
  fun s =>
    match m s with
    | (Retornou a, s') => k a s'
    | (Levantou e, s') => (Levantou e, s')
    | (Indefinido r, s') => (Indefinido r, s')
    end.

Definition raise {A} (e : excecao) : M A := fun s => (Levantou e, s).
Definition indefinido {A} (r : motivo) : M A := fun s => (Indefinido r, s).

Definition emitir (e : evento) : M unit :=
  fun s => (Retornou tt, {| leituras := leituras s; eventos := eventos s ++ [e];
                            dataframe := dataframe s |}).

Definition ler_hora (w : mundo) : M Z :=
  fun s => (Retornou (relogio w (leituras s)),
            {| leituras := S (leituras s); eventos := eventos s;
               dataframe := dataframe s |}).

Definition ler_df : M DataFrame := fun s => (Retornou (dataframe s), s).

Definition gravar_df (df : DataFrame) : M unit :=
  fun s => (Retornou tt, {| leituras := leituras s; eventos := eventos s;
                            dataframe := df |}).

Definition logging (n : nivel) (m : mensagem) : M unit := emitir (Registrou n m).

Notation "x <- m ;; k" := (bind m (fun x => k))
  (at level 61, m at next level, right associativity).
Notation "m ;;; k" := (bind m (fun _ => k))
  (at level 61, right associativity).

(** Lifting a pure result. *)
Definition lift {A} (r : resultado A) : M A := fun s => (r, s).

(** Monadic map, left to right. *)
Fixpoint mapM {A B} (f : A -> M B) (l : list A) : M (list B) :=
  match l with
  | [] => ret []
  | x :: xs => y <- f x ;; ys <- mapM f xs ;; ret (y :: ys)
  end.

(** [Series.apply(f)]: [f] on each cell in order, then the dtype of the
    results is inferred. *)
Definition Series_apply (f : pyval -> M pyval) (valores : list pyval) : M (list pyval) :=
  rs <- mapM f valores ;;
  lift (inferir rs).

(** ** ClienteAPI *)

Module ClienteAPI.

Record t : Type := {
  url_base : string;
  token_api : string;
  headers : list (string * string)
}.

(** [60 / max_requisicoes_por_minuto]: true division of two small ints. *)
Definition atraso (max_requisicoes_por_minuto : Z) : float :=
  (60 / of_uint63 (Uint63.of_Z max_requisicoes_por_minuto))%float.

Definition max_requisicoes (restrito : bool) (hora_atual : Z) : Z :=
  if restrito then 180
  else if (0 <=? hora_atual) && (hora_atual <? 6) then 700
  else 400.

Definition _aplicar_limite_taxa (w : mundo) (restrito : bool) : M unit :=
  hora_atual <- ler_hora w ;;
  emitir (Dormiu (atraso (max_requisicoes restrito hora_atual))).

(** [response.raise_for_status()] raises [HTTPError] on 4xx and 5xx. *)
Definition raise_for_status (status : Z) : bool :=
  (400 <=? status) && (status <? 600).

(** The [try] block of [get].  On the responses of the model every
    exception it raises is a [RequestException] (with requests 2.27 or
    later a body that is not JSON raises
    [requests.exceptions.JSONDecodeError], one of them), so the [except]
    clause catches it, logs and returns [None]. *)
Definition get (w : mundo) (self : t) (endpoint : string)
    (params : list (string * pyval)) (restrito : bool) : M pyval :=
  _aplicar_limite_taxa w restrito ;;;
  let r := {| url := (url_base self ++ endpoint)%string;
              cabecalhos := headers self;
              parametros := params |} in
  emitir (Requisitou r) ;;;
  match servidor w r with
  | FalhaRede =>
      logging ERROR (ErroAcessoAPI ErroConexao endpoint) ;;; ret PyNone
  | Resposta status corpo =>
      if raise_for_status status then
        logging ERROR (ErroAcessoAPI (ErroStatus status) endpoint) ;;; ret PyNone
      else
        logging INFO (DadosRecebidos endpoint) ;;;
        match corpo with
        | Some v => ret v
        | None => logging ERROR (ErroAcessoAPI ErroJSON endpoint) ;;; ret PyNone
        end
  end.

(** [file.readline().strip().split('=')[1]] inside [try]; every exception
    (the file cannot be opened or read, no second field) is logged and
    gives [None]. *)
Definition _carregar_chave_api (w : mundo) : M (option string) :=
  match arquivo_chave w with
  | None => logging ERROR ErroChaveAPI ;;; ret None
  | Some texto =>
      match nth_error (split "=" (strip (readline texto))) 1 with
      | Some chave => ret (Some chave)
      | None => logging ERROR ErroChaveAPI ;;; ret None
      end
  end.

Definition __init__ (w : mundo) (url_base : string) : M t :=
  token_api <- _carregar_chave_api w ;;
  match token_api with
  | None => raise ValueError
  | Some tok =>
      if String.eqb tok "" then raise ValueError
      else ret {| url_base := url_base;
                  token_api := tok;
                  headers := [("accept", "*/*"); ("chave-api-dados", tok)] |}
  end.

End ClienteAPI.

(** ** BuscadorContrato: fetching *)

(** What [list.extend(v)] appends: the items [v] iterates over. *)
Definition iterar (v : pyval) : resultado (list pyval) :=
  match v with
  | PyList l | PyTuple l => Retornou l
  | PyDict d => Retornou (map fst d)
  | PyStr s => Retornou (map (fun c => PyStr (String c EmptyString)) (list_ascii_of_string s))
  | PyNone | PyBool _ | PyInt _ | PyFloat _ => Levantou TypeError
  end.

Module BuscadorContrato.

Record t : Type := {
  cliente : ClienteAPI.t;
  codigo_orgao : string;
  pagina_inicial : Z
}.

Definition __init__ (cliente : ClienteAPI.t) (codigo_orgao : string)
    (pagina_inicial : Z) : M t :=
  gravar_df DataFrame_vazio ;;;
  ret {| cliente := cliente; codigo_orgao := codigo_orgao;
         pagina_inicial := pagina_inicial |}.

(** The query of one page. *)
Definition params_pagina (self : t) (pagina : Z) : list (string * pyval) :=
  [("codigoOrgao", PyStr (codigo_orgao self)); ("pagina", PyInt pagina)].

(** The [while True] loop, with a bound on the number of iterations. *)
Fixpoint laco (w : mundo) (self : t) (combustivel : nat) (pagina : Z)
    (todos_os_dados : list pyval) : M (list pyval) :=
  match combustivel with
  | O => indefinido SemCombustivel
  | S n =>
      dados <- ClienteAPI.get w (cliente self) "/contratos"
                 (params_pagina self pagina) false ;;
      if negb (truthy dados) then ret todos_os_dados
      else
        itens <- lift (iterar dados) ;;
        laco w self n (pagina + 1) (todos_os_dados ++ itens)
  end.

Definition buscar_contratos (w : mundo) (self : t) (combustivel : nat) : M DataFrame :=
  todos_os_dados <- laco w self combustivel (pagina_inicial self) [] ;;
  df <- lift (pd_DataFrame todos_os_dados) ;;
  gravar_df df ;;;
  ret df.

End BuscadorContrato.

(** ** Dictionaries *)

(** Whether [hash(v)] succeeds. *)
Fixpoint hashable (v : pyval) : bool :=
  match v with
  | PyList _ | PyDict _ => false
  | PyTuple l =>
      (fix todos (l : list pyval) : bool :=
         match l with
         | [] => true
         | x :: r => hashable x && todos r
         end) l
  | _ => true
  end.

(** [a == b] between dictionary keys.  A bool is the int 0 or 1.  Float keys
    do not arise (JSON keys are strings and the literals modelled below have
    no floats); they compare by [PrimFloat.eqb] between themselves only. *)
Fixpoint py_eqb (a b : pyval) : bool :=
  match a, b with
  | PyNone, PyNone => true
  | PyBool x, PyBool y => Bool.eqb x y
  | PyBool x, PyInt n | PyInt n, PyBool x => n =? (if x then 1 else 0)
  | PyInt n, PyInt m => n =? m
  | PyFloat x, PyFloat y => PrimFloat.eqb x y
  | PyStr s, PyStr t => String.eqb s t
  | PyTuple l, PyTuple l' =>
      (fix iguais (l l' : list pyval) : bool :=
         match l, l' with
         | [], [] => true
         | x :: r, y :: r' => py_eqb x y && iguais r r'
         | _, _ => false
         end) l l'
  | _, _ => false
  end.

Fixpoint dict_lookup (d : list (pyval * pyval)) (k : pyval) : option pyval :=
  match d with
  | [] => None
  | (k', v) :: r => if py_eqb k k' then Some v else dict_lookup r k
  end.

(** [d[k] = v]: an equal key keeps its place and its key object. *)
Fixpoint dict_set (d : list (pyval * pyval)) (k v : pyval) : list (pyval * pyval) :=
  match d with
  | [] => [(k, v)]
  | (k', v') :: r =>
      if py_eqb k k' then (k', v) :: r else (k', v') :: dict_set r k v
  end.

(** [x.get(chave, default)]: only a dict has [get]. *)
Definition py_get (x : pyval) (chave : string) (default : pyval) : resultado pyval :=
  match x with
  | PyDict d =>
      Retornou (match dict_lookup d (PyStr chave) with
                | Some v => v
                | None => default
                end)
  | _ => Levantou AttributeError
  end.

(** ** [ast.literal_eval]

    A fragment of the Python literals is modelled: [None], [True], [False],
    decimal integers, a sign in front of an integer, strings in single or
    double quotes without backslashes, lists, tuples in parentheses and
    dicts, with spaces and tabs between tokens.  On that fragment the model
    gives the value, or tells the [ValueError] or [SyntaxError] (which the
    source catches together, [LiteralMalformado]) from the [TypeError] of an
    unhashable key in the order [literal_eval] meets them.  Whenever that
    cannot be told inside the fragment the answer is
    [Indefinido ForaDoModelo]. *)

Inductive token : Type :=
| TAbreCol | TFechaCol
| TAbrePar | TFechaPar
| TAbreChave | TFechaChave
| TVirgula | TDoisPontos
| TMenos | TMais
| TInt (n : Z)
| TStr (s : string)
| TNome (s : string).

Inductive lexico : Type :=
| Tokens (ts : list token)
| LexFalhou (ts : list token)        (* the text ends inside a string; the tokens before it *)
| LexFora.

Inductive modo : Type :=
| Livre
| EmNumero (ds : list ascii)
| EmNome (cs : list ascii)
| EmTexto (aspa : ascii) (cs : list ascii)
| AposVazio (aspa : ascii).          (* an empty string has just been closed *)

Definition cod (c : ascii) : Z := Z.of_nat (nat_of_ascii c).

Definition eh_digito (c : ascii) : bool := (48 <=? cod c) && (cod c <=? 57).

Definition eh_letra (c : ascii) : bool :=
  ((65 <=? cod c) && (cod c <=? 90)) || ((97 <=? cod c) && (cod c <=? 122))
  || (cod c =? 95).

Definition eh_aspa (c : ascii) : bool := (cod c =? 39) || (cod c =? 34).

Definition pontuacao (c : ascii) : option token :=
  if cod c =? 91 then Some TAbreCol
  else if cod c =? 93 then Some TFechaCol
  else if cod c =? 40 then Some TAbrePar
  else if cod c =? 41 then Some TFechaPar
  else if cod c =? 123 then Some TAbreChave
  else if cod c =? 125 then Some TFechaChave
  else if cod c =? 44 then Some TVirgula
  else if cod c =? 58 then Some TDoisPontos
  else if cod c =? 45 then Some TMenos
  else if cod c =? 43 then Some TMais
  else None.

Definition valor_decimal (ds : list ascii) : Z :=
  fold_left (fun acc c => 10 * acc + (cod c - 48)) ds 0.

(** The digits read so far (last first) as a token.  A leading zero before
    other digits and more than 4300 digits are left out of the model. *)
Definition fechar_numero (ds : list ascii) : option token :=
  let l := rev ds in
  match l with
  | d :: _ :: _ =>
      if (cod d =? 48) || (4300 <? Z.of_nat (List.length l)) then None
      else Some (TInt (valor_decimal l))
  | _ => Some (TInt (valor_decimal l))
  end.

Definition texto_de (cs : list ascii) : string := string_of_list_ascii (rev cs).

(** A character read outside a number, a name and a string. *)
Definition comecar (c : ascii) (acc : list token) : option (modo * list token) :=
  if (cod c =? 32) || (cod c =? 9) then Some (Livre, acc)
  else if eh_digito c then Some (EmNumero [c], acc)
  else if eh_letra c then Some (EmNome [c], acc)
  else if eh_aspa c then Some (EmTexto c [], acc)
  else match pontuacao c with
       | Some t => Some (Livre, t :: acc)
       | None => None
       end.

(** The tokens, accumulated last first.  A third quote after an empty
    string opens a triple-quoted string, which is left out of the model. *)
Fixpoint lexer (s : string) (m : modo) (acc : list token) : lexico :=
  match s with
  | EmptyString =>
      match m with
      | Livre => Tokens (rev acc)
      | EmNumero ds =>
          match fechar_numero ds with
          | Some t => Tokens (rev (t :: acc))
          | None => LexFora
          end
      | EmNome cs => Tokens (rev (TNome (texto_de cs) :: acc))
      | EmTexto _ _ => LexFalhou (rev acc)
      | AposVazio _ => Tokens (rev acc)
      end
  | String c r =>
      match m with
      | Livre =>
          match comecar c acc with
          | Some (m', acc') => lexer r m' acc'
          | None => LexFora
          end
      | EmNumero ds =>
          if eh_digito c then lexer r (EmNumero (c :: ds)) acc
          else if eh_letra c || (cod c =? 46) then LexFora
          else match fechar_numero ds with
               | Some t =>
                   match comecar c (t :: acc) with
                   | Some (m', acc') => lexer r m' acc'
                   | None => LexFora
                   end
               | None => LexFora
               end
      | EmNome cs =>
          if eh_letra c || eh_digito c then lexer r (EmNome (c :: cs)) acc
          else if eh_aspa c then LexFora
          else match comecar c (TNome (texto_de cs) :: acc) with
               | Some (m', acc') => lexer r m' acc'
               | None => LexFora
               end
      | EmTexto aspa cs =>
          if Ascii.eqb c aspa then
            match cs with
            | [] => lexer r (AposVazio aspa) (TStr EmptyString :: acc)
            | _ => lexer r Livre (TStr (texto_de cs) :: acc)
            end
          else if (cod c =? 92) || (cod c =? 10) || (cod c =? 13) || (cod c =? 0)
               then LexFora
          else lexer r (EmTexto aspa (c :: cs)) acc
      | AposVazio aspa =>
          if Ascii.eqb c aspa then LexFora
          else match comecar c acc with
               | Some (m', acc') => lexer r m' acc'
               | None => LexFora
               end
      end
  end.

(** The literal forms. *)
Inductive expr : Type :=
| EConst (v : pyval)
| EUnario (negativo : bool) (e : expr)
| ELista (l : list expr)
| ETupla (l : list expr)
| EDict (l : list (expr * expr)).

Inductive analise (A : Type) : Type :=
| Achou (a : A) (resto : list token)
| NaoCasa
| Fora.

Arguments Achou {A} a resto.
Arguments NaoCasa {A}.
Arguments Fora {A}.

Definition constante (nome : string) : option pyval :=
  if String.eqb nome "None" then Some PyNone
  else if String.eqb nome "True" then Some (PyBool true)
  else if String.eqb nome "False" then Some (PyBool false)
  else None.

Definition eh_fecha (fecha t : token) : bool :=
  match fecha, t with
  | TFechaCol, TFechaCol | TFechaPar, TFechaPar | TFechaChave, TFechaChave => true
  | _, _ => false
  end.

(** Recursive descent.  [n] bounds the calls, [prof] the nesting: past 50
    levels the answer is [Fora]. *)
Fixpoint p_expr (n prof : nat) (ts : list token) : analise expr :=
  match n with
  | O => Fora
  | S n' =>
      match ts with
      | TInt k :: r => Achou (EConst (PyInt k)) r
      | TStr s :: r =>
          match r with
          | TStr _ :: _ => Fora
          | _ => Achou (EConst (PyStr s)) r
          end
      | TNome x :: r =>
          match constante x with
          | Some v => Achou (EConst v) r
          | None => NaoCasa
          end
      | TMenos :: r =>
          match prof with
          | O => Fora
          | S p =>
              match p_expr n' p r with
              | Achou e r' => Achou (EUnario true e) r'
              | NaoCasa => NaoCasa
              | Fora => Fora
              end
          end
      | TMais :: r =>
          match prof with
          | O => Fora
          | S p =>
              match p_expr n' p r with
              | Achou e r' => Achou (EUnario false e) r'
              | NaoCasa => NaoCasa
              | Fora => Fora
              end
          end
      | TAbreCol :: r =>
          match prof with
          | O => Fora
          | S p =>
              match p_itens n' p TFechaCol r with
              | Achou (l, _) r' => Achou (ELista l) r'
              | NaoCasa => NaoCasa
              | Fora => Fora
              end
          end
      | TAbrePar :: r =>
          match prof with
          | O => Fora
          | S p =>
              match p_itens n' p TFechaPar r with
              | Achou ([e], false) r' => Achou e r'
              | Achou (l, _) r' => Achou (ETupla l) r'
              | NaoCasa => NaoCasa
              | Fora => Fora
              end
          end
      | TAbreChave :: r =>
          match prof with
          | O => Fora
          | S p =>
              match p_pares n' p r with
              | Achou l r' => Achou (EDict l) r'
              | NaoCasa => NaoCasa
              | Fora => Fora
              end
          end
      | _ => NaoCasa
      end
  end

(** Items up to the closing bracket, and whether a comma was read. *)
with p_itens (n prof : nat) (fecha : token) (ts : list token)
    : analise (list expr * bool) :=
  match n with
  | O => Fora
  | S n' =>
      match ts with
      | [] => NaoCasa
      | t :: r =>
          if eh_fecha fecha t then Achou ([], false) r
          else
            match p_expr n' prof ts with
            | Achou e (TVirgula :: r1) =>
                match p_itens n' prof fecha r1 with
                | Achou (l, _) r2 => Achou (e :: l, true) r2
                | NaoCasa => NaoCasa
                | Fora => Fora
                end
            | Achou e (t1 :: r1) =>
                if eh_fecha fecha t1 then Achou ([e], false) r1 else NaoCasa
            | Achou _ [] => NaoCasa
            | NaoCasa => NaoCasa
            | Fora => Fora
            end
      end
  end

(** [key: value] pairs up to the closing brace. *)
with p_pares (n prof : nat) (ts : list token) : analise (list (expr * expr)) :=
  match n with
  | O => Fora
  | S n' =>
      match ts with
      | [] => NaoCasa
      | TFechaChave :: r => Achou [] r
      | _ =>
          match p_expr n' prof ts with
          | Achou k (TDoisPontos :: r1) =>
              match p_expr n' prof r1 with
              | Achou v (TVirgula :: r2) =>
                  match p_pares n' prof r2 with
                  | Achou l r3 => Achou ((k, v) :: l) r3
                  | NaoCasa => NaoCasa
                  | Fora => Fora
                  end
              | Achou v (TFechaChave :: r2) => Achou [(k, v)] r2
              | Achou _ _ => NaoCasa
              | NaoCasa => NaoCasa
              | Fora => Fora
              end
          | Achou _ _ => NaoCasa
          | NaoCasa => NaoCasa
          | Fora => Fora
          end
      end
  end.

(** [_convert]: the value of a literal form.  A sign is accepted on an
    integer constant only; a dict is filled pair by pair, each key hashed
    as it is inserted. *)
Fixpoint converter (e : expr) : resultado pyval :=
  match e with
  | EConst v => Retornou v
  | EUnario negativo (EConst (PyInt k)) => Retornou (PyInt (if negativo then - k else k))
  | EUnario _ _ => Levantou LiteralMalformado
  | ELista l =>
      match (fix todos (l : list expr) : resultado (list pyval) :=
               match l with
               | [] => Retornou []
               | x :: r =>
                   match converter x with
                   | Retornou v =>
                       match todos r with
                       | Retornou vs => Retornou (v :: vs)
                       | Levantou ex => Levantou ex
                       | Indefinido m => Indefinido m
                       end
                   | Levantou ex => Levantou ex
                   | Indefinido m => Indefinido m
                   end
               end) l with
      | Retornou vs => Retornou (PyList vs)
      | Levantou ex => Levantou ex
      | Indefinido m => Indefinido m
      end
  | ETupla l =>
      match (fix todos (l : list expr) : resultado (list pyval) :=
               match l with
               | [] => Retornou []
               | x :: r =>
                   match converter x with
                   | Retornou v =>
                       match todos r with
                       | Retornou vs => Retornou (v :: vs)
                       | Levantou ex => Levantou ex
                       | Indefinido m => Indefinido m
                       end
                   | Levantou ex => Levantou ex
                   | Indefinido m => Indefinido m
                   end
               end) l with
      | Retornou vs => Retornou (PyTuple vs)
      | Levantou ex => Levantou ex
      | Indefinido m => Indefinido m
      end
  | EDict ps =>
      match (fix pares (ps : list (expr * expr)) (d : list (pyval * pyval))
               : resultado (list (pyval * pyval)) :=
               match ps with
               | [] => Retornou d
               | (k, v) :: r =>
                   match converter k with
                   | Retornou k' =>
                       match converter v with
                       | Retornou v' =>
                           if hashable k' then pares r (dict_set d k' v')
                           else Levantou TypeError
                       | Levantou ex => Levantou ex
                       | Indefinido m => Indefinido m
                       end
                   | Levantou ex => Levantou ex
                   | Indefinido m => Indefinido m
                   end
               end) ps [] with
      | Retornou d => Retornou (PyDict d)
      | Levantou ex => Levantou ex
      | Indefinido m => Indefinido m
      end
  end.

Definition eh_abre_chave (t : token) : bool :=
  match t with TAbreChave => true | _ => false end.

(** A name that is not [None], [True] or [False]. *)
Definition eh_nome_livre (t : token) : bool :=
  match t with
  | TNome x => match constante x with Some _ => false | None => true end
  | _ => false
  end.

Definition eh_set (t : token) : bool :=
  match t with TNome x => String.eqb x "set" | _ => false end.

(** The deepest nesting of brackets and signs in the tokens. *)
Fixpoint profundidade (ts : list token) (abertos sinais : nat) : nat :=
  match ts with
  | [] => O
  | t :: r =>
      match t with
      | TAbreCol | TAbrePar | TAbreChave =>
          Nat.max (S abertos) (profundidade r (S abertos) 0)
      | TFechaCol | TFechaPar | TFechaChave => profundidade r (Nat.pred abertos) 0
      | TMenos | TMais =>
          Nat.max (abertos + S sinais) (profundidade r abertos (S sinais))
      | _ => profundidade r abertos 0
      end
  end.

(** The most tokens a text that is not a literal may have for the model
    to answer.  A long chain of operators ([1+1+...], [not not ... a])
    makes the parser or the construction of the tree raise
    [RecursionError] or [MemoryError], from some thousands of terms on
    and depending on the version, where a short one gives [SyntaxError] or
    [ValueError]. *)
Definition limite_de_tokens : nat := 100.

(** The answer for a text that is not a literal: [ValueError] or
    [SyntaxError] when it is short, no answer otherwise. *)
Definition malformado (ts : list token) : resultado pyval :=
  if Nat.ltb limite_de_tokens (List.length ts) then Indefinido ForaDoModelo
  else Levantou LiteralMalformado.

(** [ast.literal_eval(s)].  A text that is not a literal fails with
    [ValueError] or [SyntaxError] unless an unhashable key or set element
    is met first, or the text is so long or so nested that parsing it
    raises something else; the model answers [LiteralMalformado] only when
    no brace occurs, so that no such key can, and the text has at most
    [limite_de_tokens] tokens.  A text that starts with a space or a tab,
    or nests deeper than 50 levels, is left out of the model. *)
Definition literal_eval (s : string) : resultado pyval :=
  match s with
  | String c _ =>
      if (cod c =? 32) || (cod c =? 9) then Indefinido ForaDoModelo
      else
        match lexer s Livre [] with
        | LexFora => Indefinido ForaDoModelo
        | LexFalhou ts =>
            if Nat.ltb 50 (profundidade ts 0 0) then Indefinido ForaDoModelo
            else malformado ts
        | Tokens ts =>
            if existsb eh_set ts || Nat.ltb 50 (profundidade ts 0 0)
            then Indefinido ForaDoModelo
            else if existsb eh_nome_livre ts then
              if existsb eh_abre_chave ts then Indefinido ForaDoModelo
              else malformado ts
            else
              match p_expr (S (List.length ts)) 50 ts with
              | Achou e [] => converter e
              | Achou _ (TVirgula :: _) => Indefinido ForaDoModelo
              | Achou _ _ | NaoCasa =>
                  if existsb eh_abre_chave ts then Indefinido ForaDoModelo
                  else malformado ts
              | Fora => Indefinido ForaDoModelo
              end
        end
  | EmptyString => Levantou LiteralMalformado
  end.

(** ** BuscadorContrato: processing *)

Module Processamento.

(** [_parse_dict]: a str is evaluated as a literal, a [ValueError] or
    [SyntaxError] is logged as a warning and gives [{}]; any other object is
    returned as it is. *)
Definition _parse_dict (valor : pyval) : M pyval :=
  match valor with
  | PyStr s =>
      match literal_eval s with
      | Retornou v => ret v
      | Levantou LiteralMalformado =>
          logging WARNING ErroAnaliseDicionario ;;; ret (PyDict [])
      | Levantou e => raise e
      | Indefinido m => indefinido m
      end
  | _ => ret valor
  end.

(** The two lambdas of [_expandir_colunas], chosen by [len(chaves) == 1].
    [x.get] is looked up before [chaves[0]] is read. *)
Definition extrair (chaves : list string) (x : pyval) : resultado pyval :=
  match chaves with
  | [c] => py_get x c PyNone
  | [] => match x with
          | PyDict _ => Levantou IndexError
          | _ => Levantou AttributeError
          end
  | c0 :: c1 :: _ =>
      match py_get x c0 (PyDict []) with
      | Retornou y => py_get y c1 PyNone
      | Levantou e => Levantou e
      | Indefinido m => Indefinido m
      end
  end.

(** [df[nome]], [KeyError] if there is no such column. *)
Definition ler_coluna (nome : string) : M (list pyval) :=
  df <- ler_df ;;
  match coluna df nome with
  | Some vs => ret vs
  | None => raise KeyError
  end.

(** [df[nome] = valores] *)
Definition gravar_coluna (nome : string) (valores : list pyval) : M unit :=
  df <- ler_df ;;
  gravar_df (atribuir df nome valores).

(** The [for] loop over the mappings. *)
Fixpoint mapear (nome_dict : string) (mapeamentos : list (string * list string)) : M unit :=
  match mapeamentos with
  | [] => ret tt
  | (nova_coluna, chaves) :: resto =>
      dicts <- ler_coluna nome_dict ;;
      valores <- Series_apply (fun x => lift (extrair chaves x)) dicts ;;
      gravar_coluna nova_coluna valores ;;;
      mapear nome_dict resto
  end.

Definition _expandir_colunas (nome_coluna : string)
    (mapeamentos : list (string * list string)) : M unit :=
  df <- ler_df ;;
  if tem_coluna df nome_coluna then
    brutos <- ler_coluna nome_coluna ;;
    dicts <- Series_apply _parse_dict brutos ;;
    gravar_coluna (nome_coluna ++ "_dict")%string dicts ;;;
    mapear (nome_coluna ++ "_dict")%string mapeamentos ;;;
    df' <- ler_df ;;
    df'' <- lift (drop df' [(nome_coluna ++ "_dict")%string; nome_coluna]) ;;
    gravar_df df''
  else ret tt.

Fixpoint _formatar_valores_brasileiros (colunas : list string) : M unit :=
  match colunas with
  | [] => ret tt
  | c :: resto =>
      df <- ler_df ;;
      (if tem_coluna df c then
         valores <- ler_coluna c ;;
         novos <- Series_apply (fun x => lift (formato_brasileiro x)) valores ;;
         gravar_coluna c novos ;;;
         logging INFO (ColunaFormatada c)
       else ret tt) ;;;
      _formatar_valores_brasileiros resto
  end.

Definition mapa_compra : list (string * list string) :=
  [("codNumCompra", ["numero"]);
   ("objeto_Compra", ["objeto"]);
   ("numeroProcesso_Compra", ["numeroProcesso"]);
   ("contatoResponsavel_Compra", ["contatoResponsavel"])].

Definition mapa_unidadeGestora : list (string * list string) :=
  [("codUnidadeGestora", ["codigo"]);
   ("nome_UnidadeGestora", ["nome"]);
   ("descricaoPoder_UnidadeGestora", ["descricaoPoder"]);
   ("orgaoVinculado_codigoSIAFI", ["orgaoVinculado"; "codigoSIAFI"]);
   ("orgaoVinculado_cnpj", ["orgaoVinculado"; "cnpj"]);
   ("orgaoVinculado_sigla", ["orgaoVinculado"; "sigla"]);
   ("orgaoVinculado_nome", ["orgaoVinculado"; "nome"]);
   ("orgaoMaximo_codigo", ["orgaoMaximo"; "codigo"]);
   ("orgaoMaximo_sigla", ["orgaoMaximo"; "sigla"]);
   ("orgaoMaximo_nome", ["orgaoMaximo"; "nome"])].

Definition mapa_fornecedor : list (string * list string) :=
  [("id_fornecedor", ["id"]);
   ("cpfFormatado_fornecedor", ["cpfFormatado"]);
   ("cnpjFormatado_fornecedor", ["cnpjFormatado"]);
   ("numeroInscricaoSocial_fornecedor", ["numeroInscricaoSocial"]);
   ("nome_fornecedor", ["nome"]);
   ("razaoSocialReceita_fornecedor", ["razaoSocialReceita"]);
   ("nomeFantasiaReceita_fornecedor", ["nomeFantasiaReceita"]);
   ("tipo_fornecedor", ["tipo"])].

Definition mapa_unidadeGestoraCompras : list (string * list string) :=
  [("codigo_UnidadeGestoraCompras", ["codigo"]);
   ("nome_UnidadeGestoraCompras", ["nome"])].

Definition colunas_de_valor : list string := ["valorInicialCompra"; "valorFinalCompra"].

Definition processar_dataframe : M DataFrame :=
  _expandir_colunas "compra" mapa_compra ;;;
  _expandir_colunas "unidadeGestora" mapa_unidadeGestora ;;;
  _expandir_colunas "fornecedor" mapa_fornecedor ;;;
  _expandir_colunas "unidadeGestoraCompras" mapa_unidadeGestoraCompras ;;;
  _formatar_valores_brasileiros colunas_de_valor ;;;
  ler_df.

End Processamento.


(** ** Notions used in the statements *)

(** The request [get] sends. *)
Definition requisicao_de (self : ClienteAPI.t) (endpoint : string)
    (params : list (string * pyval)) : requisicao :=
  {| url := (ClienteAPI.url_base self ++ endpoint)%string;
     cabecalhos := ClienteAPI.headers self;
     parametros := params |}.

(** The request for page [p] of the contracts. *)
Definition requisicao_pagina (self : BuscadorContrato.t) (p : Z) : requisicao :=
  requisicao_de (BuscadorContrato.cliente self) "/contratos"
    (BuscadorContrato.params_pagina self p).

(** The requests of a trace, oldest first. *)
Definition requisicoes (evs : list evento) : list requisicao :=
  flat_map (fun e => match e with Requisitou r => [r] | _ => [] end) evs.

(** The log records of a trace. *)
Definition registros (evs : list evento) : list (nivel * mensagem) :=
  flat_map (fun e => match e with Registrou n m => [(n, m)] | _ => [] end) evs.

(** [p; p+1; ...], [n] page numbers. *)
Definition seqZ (p : Z) (n : nat) : list Z :=
  map (fun i => p + Z.of_nat i) (seq 0 n).

(** A request that errors: no response, or a 4xx or 5xx status. *)
Definition falhou (r : resposta_http) : Prop :=
  r = FalhaRede \/
  exists status corpo, r = Resposta status corpo /\ 400 <= status < 600.

(** A 2xx response whose body is the JSON array [regs]. *)
Definition sucesso (r : resposta_http) (regs : list pyval) : Prop :=
  exists status, 200 <= status < 300 /\ r = Resposta status (Some (PyList regs)).

(** [pandas.isna] on a cell: [None] or NaN. *)
Definition eh_nulo (v : pyval) : bool :=
  match v with
  | PyNone => true
  | PyFloat x => PrimFloat.is_nan x
  | _ => false
  end.


(** Every character of [s] satisfies [p]. *)
Fixpoint todos_chars (p : ascii -> bool) (s : string) : bool :=
  match s with
  | EmptyString => true
  | String x r => p x && todos_chars p r
  end.

(** The four nested columns. *)
Definition colunas_aninhadas : list string :=
  ["compra"; "unidadeGestora"; "fornecedor"; "unidadeGestoraCompras"].

(** What [get] returns for a response. *)
Definition valor_de (r : resposta_http) : pyval :=
  match r with
  | FalhaRede => PyNone
  | Resposta status corpo =>
      if ClienteAPI.raise_for_status status then PyNone
      else match corpo with Some v => v | None => PyNone end
  end.

(** What [get] logs for a response. *)
Definition registro_de (r : resposta_http) (endpoint : string) : list evento :=
  match r with
  | FalhaRede => [Registrou ERROR (ErroAcessoAPI ErroConexao endpoint)]
  | Resposta status corpo =>
      if ClienteAPI.raise_for_status status
      then [Registrou ERROR (ErroAcessoAPI (ErroStatus status) endpoint)]
      else Registrou INFO (DadosRecebidos endpoint)
           :: match corpo with
              | Some _ => []
              | None => [Registrou ERROR (ErroAcessoAPI ErroJSON endpoint)]
              end
  end.


(** ** Concrete inputs *)

Definition mundo_de (arquivo : option string) (paginas : Z -> resposta_http) : mundo :=
  {| relogio := fun _ => 12;
     servidor := fun r =>
       match assoc "pagina" (parametros r) with
       | Some (PyInt p) => paginas p
       | _ => FalhaRede
       end;
     arquivo_chave := arquivo |}.

Definition cliente_exemplo : ClienteAPI.t :=
  {| ClienteAPI.url_base := "https://api.portaldatransparencia.gov.br/api-de-dados";
     ClienteAPI.token_api := "abc";
     ClienteAPI.headers := [("accept", "*/*"); ("chave-api-dados", "abc")] |}.

Definition buscador_exemplo : BuscadorContrato.t :=
  {| BuscadorContrato.cliente := cliente_exemplo;
     BuscadorContrato.codigo_orgao := "20701";
     BuscadorContrato.pagina_inicial := 1 |}.

Definition contrato (id : Z) : pyval := PyDict [(PyStr "id", PyInt id)].

(** Pages of 5, 3 and 0 records. *)
Definition paginas_5_3_0 (p : Z) : resposta_http :=
  if p =? 1 then Resposta 200 (Some (PyList (map contrato [1; 2; 3; 4; 5])))
  else if p =? 2 then Resposta 200 (Some (PyList (map contrato [6; 7; 8])))
  else Resposta 200 (Some (PyList [])).

(** One page of records, then an empty page. *)
Definition pagina_e_vazia (p : Z) : resposta_http :=
  if p =? 1 then Resposta 200 (Some (PyList [contrato 1]))
  else Resposta 200 (Some (PyList [])).

(** One page of records, then a server error. *)
Definition pagina_e_falha (p : Z) : resposta_http :=
  if p =? 1 then Resposta 200 (Some (PyList [contrato 1]))
  else Resposta 503 None.

(** A response that is not an error for [raise_for_status] though its
    status is not 2xx: a 300, which requests does not follow and whose
    body it reads. *)
Definition pagina_300 (p : Z) : resposta_http :=
  Resposta 300 (Some (PyList [contrato 1])).

(** A world whose clock always reads [hora]. *)
Definition mundo_as (hora : Z) : mundo :=
  {| relogio := fun _ => hora;
     servidor := fun _ => FalhaRede;
     arquivo_chave := None |}.

(** The three [replace] calls of the lambda, in order. *)
Definition trocar_separadores (s : string) : string :=
  replace "X" "." (replace "." "," (replace "," "X" s)).





(** A cell [f'{x:,.2f}'] accepts without [OverflowError]: a float, or an
    int below [2^1023] in magnitude. *)
Definition numerico (x : pyval) : bool :=
  match x with
  | PyFloat _ => true
  | PyInt k => Z.abs k <? 2 ^ 1023
  | _ => false
  end.

(** A cell after the inference of its column's dtype: itself, or its
    float. *)
Definition coagido (x y : pyval) : Prop := y = x \/ y = para_float x.

(** A value that every dtype inference modelled accepts: not an int
    outside int64. *)
Definition valor_simples (x : pyval) : bool := negb (int_fora_de_int64 x).

(** A JSON object whose values are simple. *)
Definition registro_simples (v : pyval) : bool :=
  match como_registro v with
  | Some r => forallb (fun kx => valor_simples (snd kx)) r
  | None => false
  end.

(** Pure map with the first failure. *)
Fixpoint mapR {A B} (f : A -> resultado B) (l : list A) : resultado (list B) :=
  match l with
  | [] => Retornou []
  | x :: r =>
      match f x with
      | Retornou y =>
          match mapR f r with
          | Retornou ys => Retornou (y :: ys)
          | Levantou e => Levantou e
          | Indefinido m => Indefinido m
          end
      | Levantou e => Levantou e
      | Indefinido m => Indefinido m
      end
  end.

(** [Series.apply] on a function without effects. *)
Definition aplicar (f : pyval -> resultado pyval) (l : list pyval)
    : resultado (list pyval) :=
  match mapR f l with
  | Retornou rs => inferir rs
  | Levantou e => Levantou e
  | Indefinido m => Indefinido m
  end.

(** The value [_parse_dict] returns. *)
Definition parse_puro (valor : pyval) : resultado pyval :=
  match valor with
  | PyStr s =>
      match literal_eval s with
      | Retornou v => Retornou v
      | Levantou LiteralMalformado => Retornou (PyDict [])
      | Levantou e => Levantou e
      | Indefinido m => Indefinido m
      end
  | _ => Retornou valor
  end.

(** The warning [_parse_dict] logs. *)
Definition avisos (valor : pyval) : list evento :=
  match valor with
  | PyStr s =>
      match literal_eval s with
      | Levantou LiteralMalformado => [Registrou WARNING ErroAnaliseDicionario]
      | _ => []
      end
  | _ => []
  end.

Definition com_eventos (s : estado) (evs : list evento) : estado :=
  {| leituras := leituras s; eventos := eventos s ++ evs; dataframe := dataframe s |}.

Definition com_dataframe (s : estado) (df : DataFrame) : estado :=
  {| leituras := leituras s; eventos := eventos s; dataframe := df |}.

(** The state after a column has been formatted. *)
Definition apos_formatar (s : estado) (c : string) (novos : list pyval) : estado :=
  {| leituras := leituras s;
     eventos := eventos s ++ [Registrou INFO (ColunaFormatada c)];
     dataframe := atribuir (dataframe s) c novos |}.

Set Warnings "-inexact-float".


Definition estado_com (df : DataFrame) : estado :=
  {| leituras := 0; eventos := []; dataframe := df |}.

(** The name of the intermediate column of parsed values. *)
Definition nome_dict (nome_coluna : string) : string := (nome_coluna ++ "_dict")%string.

(** A table is processed when the nested columns are gone and the value
    columns that remain hold text. *)
Definition processada (df : DataFrame) : Prop :=
  (forall c, In c colunas_aninhadas -> coluna df c = None) /\
  (forall c vs v, In c Processamento.colunas_de_valor -> coluna df c = Some vs ->
                  In v vs -> exists t, v = PyStr t).

(** Tables with a [compra] column. *)
Definition tabela_compra : DataFrame :=
  {| colunas := [("id", [PyInt 1; PyInt 2]);
                 ("compra", [PyStr "{'numero': '123', 'objeto': 'X'}"; PyStr "not-a-dict"])];
     n_linhas := 2 |}.



(** A raw table with a nested column and a value column. *)
Definition tabela_bruta : DataFrame :=
  {| colunas := [("compra", [PyStr "{'numero': '123', 'objeto': 'X'}"]);
                 ("valorInicialCompra", [PyFloat 0.5])];
     n_linhas := 1 |}.

(** A raw table without value columns. *)
Definition tabela_sem_valores : DataFrame :=
  {| colunas := [("compra", [PyStr "{'numero': '123', 'objeto': 'X'}"])];
     n_linhas := 1 |}.

(** The columns an expansion reads, writes or drops. *)
Definition tocadas (nome : string) (mapa : list (string * list string)) : list string :=
  nome :: nome_dict nome :: map fst mapa.

(** The columns the steps after the expansion of [compra] touch. *)
Definition tocadas_depois_de_compra : list string :=
  tocadas "unidadeGestora" Processamento.mapa_unidadeGestora
  ++ tocadas "fornecedor" Processamento.mapa_fornecedor
  ++ tocadas "unidadeGestoraCompras" Processamento.mapa_unidadeGestoraCompras
  ++ Processamento.colunas_de_valor.

(** A JSON object. *)
Definition objeto (campos : list (string * pyval)) : pyval :=
  PyDict (map (fun kv => (PyStr (fst kv), snd kv)) campos).

(** Two contracts as the API may send them: the nested fields as objects or
    as text, and the second one without a final value. *)
Definition contrato_completo : pyval :=
  objeto [("id", PyInt 7);
          ("compra", objeto [("numero", PyStr "123"); ("objeto", PyStr "X")]);
          ("unidadeGestora",
           objeto [("codigo", PyStr "1");
                   ("orgaoVinculado", objeto [("sigla", PyStr "IBAMA")])]);
          ("fornecedor", PyStr "{'id': 5, 'nome': 'ACME'}");
          ("valorInicialCompra", PyFloat 1000.5);
          ("valorFinalCompra", PyInt 2000)].

Definition contrato_incompleto : pyval :=
  objeto [("id", PyInt 8);
          ("compra", PyStr "not-a-dict");
          ("unidadeGestora", objeto [("codigo", PyStr "2")]);
          ("fornecedor", PyStr "not-a-dict");
          ("valorInicialCompra", PyInt 3)].

Definition paginas_exemplo (p : Z) : resposta_http :=
  if p =? 1 then Resposta 200 (Some (PyList [contrato_completo; contrato_incompleto]))
  else Resposta 404 None.

(** Fetching then processing, as the entry point of the script does. *)
Definition buscar_e_processar (w : mundo) (self : BuscadorContrato.t)
    (combustivel : nat) : M DataFrame :=
  BuscadorContrato.buscar_contratos w self combustivel ;;;
  Processamento.processar_dataframe.

(** ** The script

    The entry point of the file builds a client and a fetcher, fetches,
    and, unless the table is empty, processes it and writes it to
    [contratos_FULL.csv].  Its trace interleaves the events of the client
    and the fetcher with its own log records and the write of the file;
    the write is taken to succeed. *)

(** [df.empty]: no column or no row. *)
Definition tabela_vazia (df : DataFrame) : bool :=
  match colunas df with
  | [] => true
  | _ => Nat.eqb (n_linhas df) 0
  end.

(** [df.head()]: the first five rows. *)
Definition head (df : DataFrame) : DataFrame :=
  {| colunas := map (fun kv => (fst kv, firstn 5 (snd kv))) (colunas df);
     n_linhas := Nat.min 5 (n_linhas df) |}.

(** The log records of the script. *)
Inductive mensagem_script : Type :=
| IniciandoBusca
| NenhumContrato
| ContratosEncontrados (registros : nat)
| ContratosSalvos
| ExibindoPrimeirasLinhas
| PrimeirasLinhas (df : DataFrame).

Inductive evento_script : Type :=
| Nucleo (e : evento)
| Anotou (n : nivel) (m : mensagem_script)
| GravouCSV (caminho : string) (index : bool) (df : DataFrame).

(** The state of the script: the clock reads so far, the table of the
    fetcher and the trace. *)
Record estado_script : Type := {
  lidas : nat;
  tabela : DataFrame;
  roteiro : list evento_script
}.

Definition Script (A : Type) : Type := estado_script -> resultado A * estado_script.

Definition bindS {A B} (m : Script A) (k : A -> Script B) : Script B :=
  fun st =>
    match m st with
    | (Retornou a, st') => k a st'
    | (Levantou e, st') => (Levantou e, st')
    | (Indefinido r, st') => (Indefinido r, st')
    end.

(** A call into the client or the fetcher starts from the clock and the
    table of the script; its events join the trace of the script. *)
Definition entrada (st : estado_script) : estado :=
  {| leituras := lidas st; eventos := []; dataframe := tabela st |}.

Definition juntar (st : estado_script) (s : estado) : estado_script :=
  {| lidas := leituras s;
     tabela := dataframe s;
     roteiro := roteiro st ++ map Nucleo (eventos s) |}.

Definition executar {A} (m : M A) : Script A :=
  fun st =>
    let saida := m (entrada st) in
    (fst saida, juntar st (snd saida)).

Definition anotar (st : estado_script) (e : evento_script) : estado_script :=
  {| lidas := lidas st; tabela := tabela st; roteiro := roteiro st ++ [e] |}.

Definition registrar (e : evento_script) : Script unit :=
  fun st => (Retornou tt, anotar st e).

Notation "x <~ m ;; k" := (bindS m (fun x => k))
  (at level 61, m at next level, right associativity).
Notation "m ;;~ k" := (bindS m (fun _ => k))
  (at level 61, right associativity).

Definition url_da_api : string := "https://api.portaldatransparencia.gov.br/api-de-dados".

Definition arquivo_csv : string := "contratos_FULL.csv".

Definition principal (w : mundo) (combustivel : nat) : Script unit :=
  cliente_api <~ executar (ClienteAPI.__init__ w url_da_api) ;;
  buscador_contrato <~ executar (BuscadorContrato.__init__ cliente_api "20701" 1) ;;
  registrar (Anotou INFO IniciandoBusca) ;;~
  df_contratos <~ executar (BuscadorContrato.buscar_contratos w buscador_contrato
                              combustivel) ;;
  if tabela_vazia df_contratos then
    registrar (Anotou WARNING NenhumContrato)
  else
    registrar (Anotou INFO (ContratosEncontrados (n_linhas df_contratos))) ;;~
    df_processado <~ executar Processamento.processar_dataframe ;;
    registrar (GravouCSV arquivo_csv false df_processado) ;;~
    registrar (Anotou INFO ContratosSalvos) ;;~
    registrar (Anotou INFO ExibindoPrimeirasLinhas) ;;~
    registrar (Anotou INFO (PrimeirasLinhas (head df_processado))).

Definition script_inicial : estado_script :=
  {| lidas := 0; tabela := DataFrame_vazio; roteiro := [] |}.

(** The files written, the events of the client and the fetcher, and the
    log records of the script, in a trace. *)
Definition gravacoes (r : list evento_script) : list (string * bool * DataFrame) :=
  flat_map (fun e => match e with GravouCSV c i df => [(c, i, df)] | _ => [] end) r.

Definition eventos_do_nucleo (r : list evento_script) : list evento :=
  flat_map (fun e => match e with Nucleo ev => [ev] | _ => [] end) r.

Definition anotacoes (r : list evento_script) : list (nivel * mensagem_script) :=
  flat_map (fun e => match e with Anotou n m => [(n, m)] | _ => [] end) r.

(** The fetcher the script builds from a client. *)
Definition buscador_de (c : ClienteAPI.t) : BuscadorContrato.t :=
  {| BuscadorContrato.cliente := c;
     BuscadorContrato.codigo_orgao := "20701";
     BuscadorContrato.pagina_inicial := 1 |}.

(** ** More notions used in the statements *)

(** Every column has one cell per row. *)
Definition retangular (df : DataFrame) : bool :=
  forallb (fun kv => Nat.eqb (List.length (snd kv)) (n_linhas df)) (colunas df).

(** A table as pandas keeps it here: distinct labels, one cell per row in
    every column. *)
Definition bem_formada (df : DataFrame) : Prop :=
  NoDup (nomes df) /\ retangular df = true.

Definition eh_dict (v : pyval) : bool :=
  match v with PyDict _ => true | _ => false end.

Definition eh_texto (v : pyval) : bool :=
  match v with PyStr _ => true | _ => false end.

(** The sleeps of a trace, oldest first. *)
Definition dormidas (evs : list evento) : list float :=
  flat_map (fun e => match e with Dormiu d => [d] | _ => [] end) evs.

(** Comma for period and period for comma. *)
Definition trocar_char (c : ascii) : ascii :=
  if Ascii.eqb c "," then "."%char
  else if Ascii.eqb c "." then ","%char
  else c.

Fixpoint mapear_chars (f : ascii -> ascii) (s : string) : string :=
  match s with
  | EmptyString => EmptyString
  | String c r => String (f c) (mapear_chars f r)
  end.

(** What [get] returns for page [p]. *)
Definition pagina (w : mundo) (self : BuscadorContrato.t) (p : Z) : pyval :=
  valor_de (servidor w (requisicao_pagina self p)).

(** The events of iteration [i] of the loop started on page [p] after [l0]
    clock reads: the sleep, the request, the log records. *)
Definition rodada (w : mundo) (self : BuscadorContrato.t) (l0 : nat) (p : Z)
    (i : nat) : list evento :=
  let r := requisicao_pagina self (p + Z.of_nat i) in
  Dormiu (ClienteAPI.atraso (ClienteAPI.max_requisicoes false (relogio w (l0 + i))))
  :: Requisitou r :: registro_de (servidor w r) "/contratos".

(** The items [extend] takes from a page. *)
Definition itens_de (v : pyval) : list pyval :=
  match iterar v with
  | Retornou l => l
  | _ => []
  end.

(** The items of the first [n] pages of a fetch, in order. *)
Definition itens_ate (w : mundo) (self : BuscadorContrato.t) (n : nat) : list pyval :=
  List.concat
    (map (fun i => itens_de (pagina w self
                               (BuscadorContrato.pagina_inicial self + Z.of_nat i)))
         (seq 0 n)).

(** The loop of a fetch stops at its iteration [n]: the pages before are
    truthy and that one is falsy. *)
Definition parou (w : mundo) (self : BuscadorContrato.t) (combustivel n : nat) : Prop :=
  (n < combustivel)%nat
  /\ truthy (pagina w self (BuscadorContrato.pagina_inicial self + Z.of_nat n)) = false
  /\ forall i, (i < n)%nat ->
       truthy (pagina w self (BuscadorContrato.pagina_inicial self + Z.of_nat i)) = true.

(** The state after [n] iterations of the loop. *)
Definition apos_rodadas (w : mundo) (self : BuscadorContrato.t) (s : estado) (p : Z)
    (n : nat) : estado :=
  {| leituras := leituras s + n;
     eventos := eventos s ++ flat_map (rodada w self (leituras s) p) (seq 0 n);
     dataframe := dataframe s |}.

(** The delay of the [i]-th request of a fetch started after [l0] clock
    reads. *)
Definition atraso_da_rodada (w : mundo) (l0 : nat) (i : nat) : float :=
  ClienteAPI.atraso (ClienteAPI.max_requisicoes false (relogio w (l0 + i))).

(** A server that answers every page with the same JSON object. *)
Definition pagina_objeto (p : Z) : resposta_http :=
  Resposta 200 (Some (PyDict [(PyStr "mensagem", PyStr "erro")])).

(** One page of records, then a body that is a number. *)
Definition pagina_e_numero (p : Z) : resposta_http :=
  if p =? 1 then Resposta 200 (Some (PyList [contrato 1]))
  else Resposta 200 (Some (PyInt 5)).

(** A text with at most one line feed, at its end. *)
Fixpoint linha (s : string) : bool :=
  match s with
  | EmptyString => true
  | String c r => if Ascii.eqb c LF then String.eqb r "" else linha r
  end.

Definition nao_eh (c x : ascii) : bool := negb (Ascii.eqb x c).

(** The warnings [Series.apply(_parse_dict)] logs: those of the cells up
    to the first one that raises. *)
Fixpoint avisos_ate (l : list pyval) : list evento :=
  match l with
  | [] => []
  | x :: r =>
      match parse_puro x with
      | Retornou _ => avisos x ++ avisos_ate r
      | _ => []
      end
  end.

(** The log records processing writes. *)
Definition registro_de_processamento (e : evento) : bool :=
  match e with
  | Registrou WARNING ErroAnaliseDicionario => true
  | Registrou INFO (ColunaFormatada _) => true
  | _ => false
  end.

(** A well-formed raw table for the examples. *)
Definition estado_bruto : estado := estado_com tabela_bruta.

(** A table whose second record had no [compra]: its cell is NaN. *)
Definition tabela_compra_ausente : DataFrame :=
  {| colunas := [("id", [PyInt 1; PyInt 2]);
                 ("compra", [PyDict [(PyStr "numero", PyStr "123")]; PyFloat nan])];
     n_linhas := 2 |}.

(** A table without nested columns and without value columns. *)
Definition tabela_so_id : DataFrame :=
  {| colunas := [("id", [PyInt 1; PyInt 2])]; n_linhas := 2 |}.

(** A table whose final values are all null. *)
Definition tabela_valor_nulo : DataFrame :=
  {| colunas := [("valorInicialCompra", [PyFloat 0.5]);
                 ("valorFinalCompra", [PyNone])];
     n_linhas := 1 |}.

(** The six columns processing looks for. *)
Definition colunas_procuradas : list string :=
  colunas_aninhadas ++ Processamento.colunas_de_valor.

(** The cells of a column, none if it is absent. *)
Definition coluna_ou_vazia (df : DataFrame) (c : string) : list pyval :=
  match coluna df c with
  | Some vs => vs
  | None => []
  end.

(** The warnings of a successful processing: one per undecodable text
    cell, the nested columns in the order they are expanded. *)
Definition avisos_esperados (df : DataFrame) : list evento :=
  flat_map (fun nome => flat_map avisos (coluna_ou_vazia df nome)) colunas_aninhadas.

(** The records of the value columns formatted. *)
Definition formatadas (df : DataFrame) (colunas : list string) : list evento :=
  map (fun c => Registrou INFO (ColunaFormatada c)) (filter (tem_coluna df) colunas).

(** Every column processing reads, writes or drops. *)
Definition todas_tocadas : list string :=
  tocadas "compra" Processamento.mapa_compra ++ tocadas_depois_de_compra.

(** Membership in a list of labels. *)
Definition esta_em (l : list string) (c : string) : bool := existsb (String.eqb c) l.

(** The labels after the expansion of [nome], from the labels before: the
    column of parsed values and the new columns are appended unless they
    exist, then the two columns are dropped. *)
Definition nomes_apos_expandir (nome : string) (mapa : list (string * list string))
    (ns : list string) : list string :=
  if esta_em ns nome then
    filter (fun x => negb (String.eqb nome x))
      (filter (fun x => negb (String.eqb (nome_dict nome) x))
         (fold_left acrescentar (nome_dict nome :: map fst mapa) ns))
  else ns.

Definition nomes_apos_processar (ns : list string) : list string :=
  nomes_apos_expandir "unidadeGestoraCompras" Processamento.mapa_unidadeGestoraCompras
    (nomes_apos_expandir "fornecedor" Processamento.mapa_fornecedor
       (nomes_apos_expandir "unidadeGestora" Processamento.mapa_unidadeGestora
          (nomes_apos_expandir "compra" Processamento.mapa_compra ns))).

(** The new columns, in the order of the mappings. *)
Definition colunas_novas : list string :=
  map fst Processamento.mapa_compra
  ++ map fst Processamento.mapa_unidadeGestora
  ++ map fst Processamento.mapa_fornecedor
  ++ map fst Processamento.mapa_unidadeGestoraCompras.

(** The intermediate columns of parsed values. *)
Definition colunas_dict : list string := map nome_dict colunas_aninhadas.

(** No label twice. *)
Fixpoint sem_repeticao (l : list string) : bool :=
  match l with
  | [] => true
  | x :: r => negb (esta_em r x) && sem_repeticao r
  end.

(** A table with the four nested columns, each cell an empty object. *)
Definition tabela_quatro : DataFrame :=
  {| colunas := [("compra", [PyDict []]);
                 ("id", [PyInt 1]);
                 ("unidadeGestora", [PyDict []]);
                 ("fornecedor", [PyDict []]);
                 ("unidadeGestoraCompras", [PyDict []])];
     n_linhas := 1 |}.

(** A server that is down, and a world with a credential and that server. *)
Definition pagina_fora_do_ar (p : Z) : resposta_http := Resposta 500 None.

Definition mundo_fora_do_ar : mundo := mundo_de (Some "chave=abc") pagina_fora_do_ar.

(** A cell from which every mapping of [mapa] extracts a simple value: a
    dict whose value under a single key, if any, is simple, and whose
    value under the first of two keys, if any, is a dict with a simple
    value, if any, under the second. *)
Definition extraivel (mapa : list (string * list string)) (x : pyval) : bool :=
  eh_dict x
  && forallb (fun m => match Processamento.extrair (snd m) x with
                       | Retornou v => valor_simples v
                       | _ => false
                       end) mapa.

(** The four expansions of [processar_dataframe], in order. *)
Definition expansoes : list (string * list (string * list string)) :=
  [("compra", Processamento.mapa_compra);
   ("unidadeGestora", Processamento.mapa_unidadeGestora);
   ("fornecedor", Processamento.mapa_fornecedor);
   ("unidadeGestoraCompras", Processamento.mapa_unidadeGestoraCompras)].

(** A table processing accepts: the cells of its nested columns are
    objects the mappings extract from, the cells of its value columns are
    numbers. *)
Definition tabela_regular (df : DataFrame) : Prop :=
  (forall nome mapa vs x,
      In (nome, mapa) expansoes -> coluna df nome = Some vs -> In x vs ->
      extraivel mapa x = true)
  /\ (forall c vs x,
         In c Processamento.colunas_de_valor -> coluna df c = Some vs -> In x vs ->
         numerico x = true).

(** A raw table as the API gives it: objects in the nested columns,
    numbers in the value columns. *)
Definition tabela_api : DataFrame :=
  {| colunas :=
       [("id", [PyInt 7; PyInt 8]);
        ("compra", [objeto [("numero", PyStr "123"); ("objeto", PyStr "X")];
                    objeto [("numero", PyStr "456")]]);
        ("unidadeGestora",
         [objeto [("codigo", PyStr "1");
                  ("orgaoVinculado", objeto [("sigla", PyStr "IBAMA")])];
          objeto [("codigo", PyStr "2")]]);
        ("fornecedor", [objeto [("id", PyInt 5); ("nome", PyStr "ACME")];
                        objeto [("id", PyInt 6)]]);
        ("valorInicialCompra", [PyFloat 1000.5; PyInt 3]);
        ("valorFinalCompra", [PyInt 2000; PyFloat nan])];
     n_linhas := 2 |}.

(** A number as JSON gives it: a float, or an int within int64. *)
Definition eh_numero (x : pyval) : bool :=
  match x with
  | PyFloat _ => true
  | PyInt k => eh_int64 k
  | _ => false
  end.

(** A contract processing accepts: a JSON object with simple values that
    has the four nested fields, each an object the mappings extract from,
    and whose value fields, where present, are numbers. *)
Definition registro_regular (v : pyval) : bool :=
  match como_registro v with
  | Some r =>
      forallb (fun kx => valor_simples (snd kx)) r
      && forallb (fun nm => match assoc (fst nm) r with
                            | Some x => extraivel (snd nm) x
                            | None => false
                            end) expansoes
      && forallb (fun c => match assoc c r with
                           | Some x => eh_numero x
                           | None => true
                           end) Processamento.colunas_de_valor
  | None => false
  end.

(** A contract with the four nested fields. *)
Definition contrato_regular (id : Z) (valor : pyval) : pyval :=
  objeto [("id", PyInt id);
          ("compra", objeto [("numero", PyStr "123"); ("objeto", PyStr "X")]);
          ("unidadeGestora",
           objeto [("codigo", PyStr "1");
                   ("orgaoVinculado", objeto [("sigla", PyStr "IBAMA")])]);
          ("fornecedor", objeto [("id", PyInt 5); ("nome", PyStr "ACME")]);
          ("unidadeGestoraCompras", objeto [("codigo", PyStr "9")]);
          ("valorInicialCompra", valor)].

(** Two pages of such contracts, then an empty page. *)
Definition paginas_regulares (p : Z) : resposta_http :=
  if p =? 1 then
    Resposta 200 (Some (PyList [contrato_regular 1 (PyFloat 1000.5);
                                contrato_regular 2 (PyInt 3)]))
  else if p =? 2 then Resposta 200 (Some (PyList [contrato_regular 3 (PyFloat 0.5)]))
  else Resposta 200 (Some (PyList [])).

Definition mundo_regular : mundo := mundo_de (Some "chave=abc") paginas_regulares.

(** Chains of operators: [1+1+...+1] with [n] additions, and [n] times
    [not] before a name. *)
Fixpoint cadeia (n : nat) : string :=
  match n with
  | O => "1"
  | S k => ("1+" ++ cadeia k)%string
  end.

Fixpoint negacoes (n : nat) : string :=
  match n with
  | O => "a"
  | S k => ("not " ++ negacoes k)%string
  end.

(** * Properties *)

(** ** The monad *)

Lemma bind_retornou {A B} (m : M A) (k : A -> M B) s a s' :
  m s = (Retornou a, s') -> bind m k s = k a s'.
Proof. intros H. unfold bind. now rewrite H. Qed.

Lemma bind_levantou {A B} (m : M A) (k : A -> M B) s e s' :
  m s = (Levantou e, s') -> bind m k s = (Levantou e, s').
Proof. intros H. unfold bind. now rewrite H. Qed.

Lemma bind_inv {A B} (m : M A) (k : A -> M B) s b s'' :
  bind m k s = (Retornou b, s'') ->
  exists a s', m s = (Retornou a, s') /\ k a s' = (Retornou b, s'').
Proof.
  unfold bind. destruct (m s) as [[a | e | r] s'] eqn:E; intros H;
    try discriminate.
  now exists a, s'.
Qed.

Lemma lift_inv {A} (r : resultado A) s a s' :
  lift r s = (Retornou a, s') -> r = Retornou a /\ s' = s.
Proof. unfold lift. intros H. now inversion H. Qed.

(** ** ClienteAPI *)

Lemma get_eq (w : mundo) (self : ClienteAPI.t) endpoint params restrito s :
  let r := requisicao_de self endpoint params in
  ClienteAPI.get w self endpoint params restrito s =
  (Retornou (valor_de (servidor w r)),
   {| leituras := S (leituras s);
      eventos := eventos s
                 ++ Dormiu (ClienteAPI.atraso
                              (ClienteAPI.max_requisicoes restrito (relogio w (leituras s))))
                 :: Requisitou r :: registro_de (servidor w r) endpoint;
      dataframe := dataframe s |}).
Proof.
  intros r. unfold ClienteAPI.get, ClienteAPI._aplicar_limite_taxa, logging,
    bind, emitir, ler_hora, ret. cbn.
  fold (requisicao_de self endpoint params). fold r.
  destruct (servidor w r) as [| status corpo]; cbn.
  - now rewrite <- !app_assoc.
  - destruct (ClienteAPI.raise_for_status status); cbn.
    + now rewrite <- !app_assoc.
    + destruct corpo; cbn; now rewrite <- !app_assoc.
Qed.

(** C6: the delay is 60/180 s for a restricted call whatever the hour,
    otherwise 60/700 s when the hour is in [0,6) and 60/400 s at any other
    hour; [get] sleeps for that delay before it sends its request. *)
Theorem limite_de_taxa (w : mundo) (self : ClienteAPI.t) (endpoint : string)
    (params : list (string * pyval)) (restrito : bool) (s : estado) :
  let hora := relogio w (leituras s) in
  let d := ClienteAPI.atraso (ClienteAPI.max_requisicoes restrito hora) in
  (restrito = true -> d = (60 / 180)%float) /\
  (restrito = false -> 0 <= hora < 6 -> d = (60 / 700)%float) /\
  (restrito = false -> ~ 0 <= hora < 6 -> d = (60 / 400)%float) /\
  (exists s', ClienteAPI._aplicar_limite_taxa w restrito s = (Retornou tt, s')
              /\ eventos s' = eventos s ++ [Dormiu d]) /\
  (exists v s' registro,
      ClienteAPI.get w self endpoint params restrito s = (Retornou v, s')
      /\ eventos s' = eventos s
                      ++ Dormiu d :: Requisitou (requisicao_de self endpoint params)
                      :: registro
      /\ requisicoes registro = []).
Proof.
  intros hora d. subst d. repeat split.
  - intros ->. reflexivity.
  - intros -> H. unfold ClienteAPI.max_requisicoes.
    replace ((0 <=? hora) && (hora <? 6)) with true by lia. reflexivity.
  - intros -> H. unfold ClienteAPI.max_requisicoes.
    replace ((0 <=? hora) && (hora <? 6)) with false by lia. reflexivity.
  - eexists. split; [reflexivity | reflexivity].
  - do 3 eexists. split; [apply get_eq | split; [reflexivity |]].
    destruct (servidor w _) as [| st c]; cbn; [reflexivity |].
    destruct (ClienteAPI.raise_for_status st); [reflexivity |].
    destruct c; reflexivity.
Qed.

(** At 3 h an unrestricted call waits 60/700 s, at 15 h 60/400 s. *)
Lemma limite_de_taxa_as_3h_e_as_15h :
  ClienteAPI.atraso (ClienteAPI.max_requisicoes false 3) = (60 / 700)%float
  /\ ClienteAPI.atraso (ClienteAPI.max_requisicoes false 15) = (60 / 400)%float
  /\ ClienteAPI.atraso (ClienteAPI.max_requisicoes true 3) = (60 / 180)%float.
Proof.
  destruct (limite_de_taxa (mundo_as 3) cliente_exemplo "/contratos" [] false
              estado_inicial) as (_ & H3 & _).
  destruct (limite_de_taxa (mundo_as 15) cliente_exemplo "/contratos" [] false
              estado_inicial) as (_ & _ & H15 & _).
  destruct (limite_de_taxa (mundo_as 3) cliente_exemplo "/contratos" [] true
              estado_inicial) as (Hr & _).
  split; [apply H3; [reflexivity | cbn; lia] |].
  split; [apply H15; [reflexivity | cbn; lia] | apply Hr; reflexivity].
Defined.

(** The credential file: one well-formed line gives the text after [=]. *)
Lemma split_sem_separador (sep : ascii) (s : string) :
  todos_chars (fun c => negb (Ascii.eqb c sep)) s = true ->
  split sep s = [s].
Proof.
  induction s as [| c r IH]; cbn; [reflexivity |].
  intros H. apply andb_prop in H as [Hc Hr].
  apply negb_true_iff in Hc. rewrite Hc, (IH Hr). reflexivity.
Qed.

Lemma split_chave_valor (sep : ascii) (k v : string) :
  todos_chars (fun c => negb (Ascii.eqb c sep)) k = true ->
  split sep (k ++ String sep v) = k :: split sep v.
Proof.
  induction k as [| c r IH]; cbn.
  - intros _. now rewrite Ascii.eqb_refl.
  - intros H. apply andb_prop in H as [Hc Hr].
    apply negb_true_iff in Hc. rewrite Hc, (IH Hr). reflexivity.
Qed.

(** A first line [k=v] with no further [=], already stripped: the client
    holds exactly [v]; a missing file, a line without [=] and an empty value
    are fatal. *)
Lemma credencial (w : mundo) (url_base : string) (s : estado) :
  (forall texto k v,
      arquivo_chave w = Some texto ->
      strip (readline texto) = (k ++ String "=" v)%string ->
      todos_chars (fun c => negb (Ascii.eqb c "=")) k = true ->
      todos_chars (fun c => negb (Ascii.eqb c "=")) v = true ->
      v <> "" ->
      exists c, ClienteAPI.__init__ w url_base s = (Retornou c, s)
                /\ ClienteAPI.token_api c = v) /\
  (arquivo_chave w = None ->
   fst (ClienteAPI.__init__ w url_base s) = Levantou ValueError) /\
  (forall texto,
      arquivo_chave w = Some texto ->
      todos_chars (fun c => negb (Ascii.eqb c "=")) (strip (readline texto)) = true ->
      fst (ClienteAPI.__init__ w url_base s) = Levantou ValueError) /\
  (forall texto k resto,
      arquivo_chave w = Some texto ->
      split "=" (strip (readline texto)) = k :: "" :: resto ->
      fst (ClienteAPI.__init__ w url_base s) = Levantou ValueError).
Proof.
  repeat split.
  - intros texto k v Ha Hl Hk Hv Hne.
    unfold ClienteAPI.__init__, ClienteAPI._carregar_chave_api, bind.
    rewrite Ha, Hl, (split_chave_valor _ _ _ Hk), (split_sem_separador _ _ Hv).
    cbn. destruct (String.eqb_spec v ""); [contradiction |].
    eexists. split; reflexivity.
  - intros Ha. unfold ClienteAPI.__init__, ClienteAPI._carregar_chave_api, bind.
    rewrite Ha. reflexivity.
  - intros texto Ha Hl.
    unfold ClienteAPI.__init__, ClienteAPI._carregar_chave_api, bind.
    rewrite Ha, (split_sem_separador _ _ Hl). reflexivity.
  - intros texto k resto Ha Hl.
    unfold ClienteAPI.__init__, ClienteAPI._carregar_chave_api, bind.
    rewrite Ha, Hl. reflexivity.
Qed.

(** C8: on a first line [chave=abc=def] the client keeps [abc], the text
    between the first and the second [=], not [abc=def]. *)
Theorem chave_com_igual_truncada :
  exists c,
    ClienteAPI.__init__ (mundo_de (Some "chave=abc=def") paginas_5_3_0)
      "https://api.portaldatransparencia.gov.br/api-de-dados" estado_inicial
    = (Retornou c, estado_inicial)
    /\ ClienteAPI.token_api c = "abc"
    /\ ClienteAPI.token_api c <> "abc=def".
Proof.
  eexists. split; [reflexivity |]. split; [reflexivity | discriminate].
Qed.

(** ** The fetch loop *)

Lemma requisicoes_app (a b : list evento) :
  requisicoes (a ++ b) = requisicoes a ++ requisicoes b.
Proof. apply flat_map_app. Qed.

Lemma requisicoes_registro (r : resposta_http) (endpoint : string) :
  requisicoes (registro_de r endpoint) = [].
Proof.
  destruct r as [| st c]; cbn; [reflexivity |].
  destruct (ClienteAPI.raise_for_status st); [reflexivity |].
  destruct c; reflexivity.
Qed.

Lemma seqZ_cons (p : Z) (n : nat) : seqZ p (S n) = p :: seqZ (p + 1) n.
Proof.
  unfold seqZ. cbn [seq map]. f_equal; [lia |].
  rewrite <- seq_shift, map_map. apply map_ext. intros i. lia.
Qed.

Lemma seqZ_length (p : Z) (n : nat) : List.length (seqZ p n) = n.
Proof. unfold seqZ. now rewrite length_map, length_seq. Qed.

(** One iteration on a page with records. *)
Lemma laco_passo (w : mundo) (self : BuscadorContrato.t) n p acc s itens :
  let v := valor_de (servidor w (requisicao_pagina self p)) in
  truthy v = true ->
  iterar v = Retornou itens ->
  exists s1,
    BuscadorContrato.laco w self (S n) p acc s
    = BuscadorContrato.laco w self n (p + 1) (acc ++ itens) s1
    /\ requisicoes (eventos s1) = requisicoes (eventos s) ++ [requisicao_pagina self p]
    /\ dataframe s1 = dataframe s.
Proof.
  intros v Ht Hi. cbn [BuscadorContrato.laco].
  eexists. split.
  - erewrite bind_retornou by apply get_eq.
    fold (requisicao_pagina self p). fold v. rewrite Ht. cbn [negb].
    erewrite bind_retornou by (unfold lift; rewrite Hi; reflexivity).
    reflexivity.
  - cbn. split; [| reflexivity].
    rewrite requisicoes_app. cbn. now rewrite requisicoes_registro.
Qed.

(** The last iteration: a page that is empty or failed. *)
Lemma laco_fim (w : mundo) (self : BuscadorContrato.t) n p acc s :
  truthy (valor_de (servidor w (requisicao_pagina self p))) = false ->
  exists s1,
    BuscadorContrato.laco w self (S n) p acc s = (Retornou acc, s1)
    /\ requisicoes (eventos s1) = requisicoes (eventos s) ++ [requisicao_pagina self p]
    /\ dataframe s1 = dataframe s.
Proof.
  intros Ht. cbn [BuscadorContrato.laco].
  eexists. split.
  - erewrite bind_retornou by apply get_eq.
    fold (requisicao_pagina self p). rewrite Ht. reflexivity.
  - cbn. split; [| reflexivity].
    rewrite requisicoes_app. cbn. now rewrite requisicoes_registro.
Qed.

(** Pages [p], [p+1], ... hold the non-empty lists [paginas] and the next
    one is empty or failed: the loop returns their concatenation after one
    request per page, in order, the falsy page included. *)
Lemma laco_termina (w : mundo) (self : BuscadorContrato.t) (paginas : list (list pyval)) :
  forall p acc s combustivel,
    (forall j regs, nth_error paginas j = Some regs ->
                    valor_de (servidor w (requisicao_pagina self (p + Z.of_nat j)))
                    = PyList regs /\ regs <> []) ->
    truthy (valor_de (servidor w
              (requisicao_pagina self (p + Z.of_nat (List.length paginas))))) = false ->
    (List.length paginas < combustivel)%nat ->
    exists s',
      BuscadorContrato.laco w self combustivel p acc s
      = (Retornou (acc ++ List.concat paginas), s')
      /\ requisicoes (eventos s')
         = requisicoes (eventos s)
           ++ map (requisicao_pagina self) (seqZ p (S (List.length paginas)))
      /\ dataframe s' = dataframe s.
Proof.
  induction paginas as [| regs resto IH]; intros p acc s combustivel Hp Hf Hc.
  - destruct combustivel as [| n]; [cbn in Hc; lia |].
    cbn [List.length] in Hf. rewrite Z.add_0_r in Hf.
    destruct (laco_fim w self n p acc s Hf) as (s1 & E & R & D).
    exists s1. cbn [List.concat]. rewrite app_nil_r. repeat split; try assumption.
    rewrite R. cbn. now rewrite Z.add_0_r.
  - destruct combustivel as [| n]; [cbn in Hc; lia |].
    destruct (Hp 0%nat regs eq_refl) as [Hv Hne]. rewrite Z.add_0_r in Hv.
    destruct (laco_passo w self n p acc s regs) as (s1 & E & R & D).
    { rewrite Hv. destruct regs; [contradiction | reflexivity]. }
    { now rewrite Hv. }
    destruct (IH (p + 1) (acc ++ regs) s1 n) as (s' & E' & R' & D').
    { intros j r Hj. replace (p + 1 + Z.of_nat j) with (p + Z.of_nat (S j)) by lia.
      apply Hp. exact Hj. }
    { replace (p + 1 + Z.of_nat (List.length resto))
        with (p + Z.of_nat (List.length (regs :: resto))) by (cbn [List.length]; lia).
      exact Hf. }
    { cbn [List.length] in Hc. lia. }
    exists s'. repeat split.
    + rewrite E, E'. cbn [List.concat]. now rewrite app_assoc.
    + rewrite R', R. cbn [List.length]. rewrite (seqZ_cons p).
      cbn [map]. now rewrite <- app_assoc.
    + congruence.
Qed.

(** Without an empty or failed page the loop does not end. *)
Lemma laco_nao_termina (w : mundo) (self : BuscadorContrato.t) :
  (forall p, exists regs,
      valor_de (servidor w (requisicao_pagina self p)) = PyList regs /\ regs <> []) ->
  forall combustivel p acc s,
    fst (BuscadorContrato.laco w self combustivel p acc s) = Indefinido SemCombustivel.
Proof.
  intros Hp combustivel. induction combustivel as [| n IH]; intros p acc s.
  - reflexivity.
  - destruct (Hp p) as (regs & Hv & Hne).
    destruct (laco_passo w self n p acc s regs) as (s1 & E & _).
    { rewrite Hv. destruct regs; [contradiction | reflexivity]. }
    { now rewrite Hv. }
    rewrite E. apply IH.
Qed.

(** ** The dtype of a column *)

Lemma inferir_inv (l l' : list pyval) :
  inferir l = Retornou l' -> l' = l \/ l' = map para_float l.
Proof.
  unfold inferir. destruct (existsb int_enorme l); [discriminate |].
  destruct (forallb numero_ou_nulo l
            && (existsb eh_float l || existsb eh_none l && existsb eh_int l)).
  - destruct (existsb int_fora_de_int64 l); [discriminate |].
    intros H. inversion H. now right.
  - intros H. inversion H. now left.
Qed.

Lemma inferir_nth (l l' : list pyval) :
  inferir l = Retornou l' ->
  List.length l' = List.length l /\
  forall i x, nth_error l i = Some x ->
              exists y, nth_error l' i = Some y /\ coagido x y.
Proof.
  intros H. destruct (inferir_inv _ _ H) as [-> | ->].
  - split; [reflexivity |]. intros i x Hx. exists x. split; [assumption | now left].
  - split; [apply length_map |]. intros i x Hx. exists (para_float x).
    split; [now rewrite nth_error_map, Hx | now right].
Qed.

Lemma inferir_In (l l' : list pyval) (y : pyval) :
  inferir l = Retornou l' -> In y l' -> exists x, In x l /\ coagido x y.
Proof.
  intros H Hy. destruct (inferir_inv _ _ H) as [-> | ->].
  - exists y. split; [assumption | now left].
  - apply in_map_iff in Hy as (x & <- & Hx). exists x. split; [assumption | now right].
Qed.

(** A column of text keeps its objects. *)
Lemma inferir_texto (l : list pyval) :
  (forall v, In v l -> exists t, v = PyStr t) -> inferir l = Retornou l.
Proof.
  intros H. unfold inferir.
  assert (E1 : existsb int_enorme l = false).
  { apply not_true_is_false. intros E. apply existsb_exists in E as (v & Hv & Hi).
    destruct (H v Hv) as (t & ->). discriminate. }
  rewrite E1. destruct l as [| v r]; [reflexivity |].
  destruct (H v (or_introl eq_refl)) as (t & ->). reflexivity.
Qed.

(** A column of simple values has a dtype. *)
Lemma inferir_simples (l : list pyval) :
  (forall v, In v l -> valor_simples v = true) -> exists l', inferir l = Retornou l'.
Proof.
  intros H. unfold inferir.
  assert (E2 : existsb int_fora_de_int64 l = false).
  { apply not_true_is_false. intros E. apply existsb_exists in E as (v & Hv & Hi).
    specialize (H v Hv). unfold valor_simples in H. rewrite Hi in H. discriminate. }
  assert (E1 : existsb int_enorme l = false).
  { apply not_true_is_false. intros E. apply existsb_exists in E as (v & Hv & Hi).
    specialize (H v Hv). unfold valor_simples in H.
    destruct v; try discriminate. cbn in Hi, H. unfold eh_int64 in H.
    assert (2 ^ 63 < 2 ^ 1023) by (apply Z.pow_lt_mono_r; lia). lia. }
  rewrite E1, E2.
  destruct (forallb numero_ou_nulo l
            && (existsb eh_float l || existsb eh_none l && existsb eh_int l)); eauto.
Qed.

Lemma coagido_texto (t : string) (y : pyval) : coagido (PyStr t) y -> y = PyStr t.
Proof. intros [-> | ->]; reflexivity. Qed.

Lemma coagido_dict (d : list (pyval * pyval)) (y : pyval) :
  coagido (PyDict d) y -> y = PyDict d.
Proof. intros [-> | ->]; reflexivity. Qed.

Lemma coagido_nulo (x y : pyval) : eh_nulo x = true -> coagido x y -> eh_nulo y = true.
Proof.
  intros Hx [-> | ->]; [assumption |]. destruct x; try discriminate; [reflexivity |].
  exact Hx.
Qed.

(** ** The table of the records *)

Lemma como_registros_length (l : list pyval) regs :
  como_registros l = Some regs -> List.length regs = List.length l.
Proof.
  revert regs. induction l as [| v r IH]; cbn; intros regs H.
  - now inversion H.
  - destruct (como_registro v); [| discriminate].
    destruct (como_registros r); [| discriminate].
    inversion H. cbn. f_equal. now apply IH.
Qed.

Lemma como_registros_nth (l : list pyval) regs i v :
  como_registros l = Some regs ->
  nth_error l i = Some v ->
  exists r, como_registro v = Some r /\ nth_error regs i = Some r.
Proof.
  revert regs i. induction l as [| x r IH]; cbn; intros regs i H Hn.
  - destruct i; discriminate.
  - destruct (como_registro x) eqn:Ex; [| discriminate].
    destruct (como_registros r) eqn:Er; [| discriminate].
    inversion H; subst. destruct i as [| i]; cbn in *.
    + inversion Hn; subst. eauto.
    + eapply IH; eauto.
Qed.


Lemma assoc_In {A} (k : string) (l : list (string * A)) v :
  assoc k l = Some v -> In k (map fst l).
Proof.
  induction l as [| [k' v'] r IH]; cbn; [discriminate |].
  destruct (String.eqb_spec k k'); intros H; [left; congruence | right; auto].
Qed.

Lemma existsb_eqb_In (k : string) (l : list string) :
  existsb (String.eqb k) l = true <-> In k l.
Proof.
  rewrite existsb_exists. split.
  - intros (x & Hx & E). apply String.eqb_eq in E. now subst.
  - intros H. exists k. split; [assumption | apply String.eqb_refl].
Qed.

Lemma acrescentar_In (vistas : list string) (k x : string) :
  In x (acrescentar vistas k) <-> In x vistas \/ x = k.
Proof.
  unfold acrescentar. destruct (existsb (String.eqb k) vistas) eqn:E.
  - apply existsb_eqb_In in E. split; [auto |]. intros [H | ->]; assumption.
  - rewrite in_app_iff. cbn. intuition.
Qed.

Lemma fold_acrescentar_In (ks vistas : list string) (x : string) :
  In x (fold_left acrescentar ks vistas) <-> In x vistas \/ In x ks.
Proof.
  revert vistas. induction ks as [| k r IH]; cbn; intros vistas.
  - intuition.
  - rewrite IH, acrescentar_In. intuition.
Qed.

Lemma nomes_colunas_In_aux (regs : list (list (string * pyval))) vistas x :
  In x (fold_left (fun vs r => fold_left acrescentar (map fst r) vs) regs vistas)
  <-> In x vistas \/ exists r, In r regs /\ In x (map fst r).
Proof.
  revert vistas. induction regs as [| r rs IH]; cbn; intros vistas.
  - split; [auto | intros [H | (r & [] & _)]; assumption].
  - rewrite IH, fold_acrescentar_In. split.
    + intros [[H | H] | (r' & H1 & H2)]; eauto.
    + intros [H | (r' & [-> | H1] & H2)]; eauto.
Qed.

Lemma nomes_colunas_In (regs : list (list (string * pyval))) x :
  In x (nomes_colunas regs) <-> exists r, In r regs /\ In x (map fst r).
Proof.
  unfold nomes_colunas. rewrite nomes_colunas_In_aux. cbn. intuition.
Qed.


Lemma montar_colunas_inv (regs : list (list (string * pyval))) (ks : list string) :
  forall cs,
    montar_colunas regs ks = Retornou cs ->
    map fst cs = ks /\
    forall k, In k ks ->
      exists vs, assoc k cs = Some vs
                 /\ inferir (map (fun reg => valor_em reg k) regs) = Retornou vs.
Proof.
  induction ks as [| k r IH]; cbn; intros cs H.
  - inversion H. split; [reflexivity |]. intros k [].
  - destruct (inferir (map (fun reg => valor_em reg k) regs)) as [vs | |] eqn:Ei;
      try discriminate.
    destruct (montar_colunas regs r) as [cs' | |]; try discriminate.
    inversion H; subst cs. destruct (IH cs' eq_refl) as [Hf Hk]. split.
    + cbn. now rewrite Hf.
    + intros k' Hin. cbn [assoc]. destruct (String.eqb_spec k' k) as [-> | Hne].
      * eauto.
      * destruct Hin as [-> | Hin]; [contradiction | auto].
Qed.

Lemma montar_colunas_total (regs : list (list (string * pyval))) (ks : list string) :
  (forall reg kx, In reg regs -> In kx reg -> valor_simples (snd kx) = true) ->
  exists cs, montar_colunas regs ks = Retornou cs.
Proof.
  intros Hs. induction ks as [| k r [cs IH]]; cbn; [eauto |].
  destruct (inferir_simples (map (fun reg => valor_em reg k) regs)) as (vs & ->).
  { intros v Hv. apply in_map_iff in Hv as (reg & <- & Hreg). unfold valor_em.
    destruct (assoc k reg) as [x |] eqn:Ea; [| reflexivity].
    assert (Hin : In (k, x) reg).
    { clear - Ea. induction reg as [| [k' v'] t IHt]; cbn in *; [discriminate |].
      destruct (String.eqb_spec k k'); [inversion Ea; subst; now left | right; auto]. }
    apply (Hs reg (k, x) Hreg Hin). }
  rewrite IH. eauto.
Qed.

(** Row [i] of [pd.DataFrame(dados)] is record [i]: each key of the record
    is a column and holds the record's value there, as its dtype has it; a
    column of a key the record lacks holds NaN there. *)
Lemma pd_DataFrame_linha (dados : list pyval) (df : DataFrame) :
  pd_DataFrame dados = Retornou df ->
  n_linhas df = List.length dados /\
  forall i v r, nth_error dados i = Some v -> como_registro v = Some r ->
    (forall k x, assoc k r = Some x ->
       exists y, celula df k i = Some y /\ coagido x y) /\
    (forall k, tem_coluna df k = true -> assoc k r = None ->
       exists y, celula df k i = Some y /\ eh_nulo y = true).
Proof.
  unfold pd_DataFrame. destruct (como_registros dados) as [regs |] eqn:E;
    [| discriminate].
  destruct (montar_colunas regs (nomes_colunas regs)) as [cs | |] eqn:Em;
    try discriminate.
  intros H. inversion H; subst df; clear H. cbn [n_linhas].
  destruct (montar_colunas_inv _ _ _ Em) as [Hf Hk]. split.
  - now apply como_registros_length.
  - intros i v r Hn Hr.
    destruct (como_registros_nth _ _ _ _ E Hn) as (r' & Hr' & Hi).
    rewrite Hr in Hr'. inversion Hr'; subst r'.
    assert (Hcel : forall k, In k (nomes_colunas regs) ->
              exists y, celula {| colunas := cs; n_linhas := List.length regs |} k i
                        = Some y /\ coagido (valor_em r k) y).
    { intros k Hin. destruct (Hk k Hin) as (vs & Ha & Hinf).
      destruct (inferir_nth _ _ Hinf) as [_ Hnth].
      destruct (Hnth i (valor_em r k)) as (y & Hy & Hc).
      { now rewrite nth_error_map, Hi. }
      exists y. split; [| assumption]. unfold celula, coluna. cbn [colunas].
      now rewrite Ha. }
    split.
    + intros k x Hkx. destruct (Hcel k) as (y & Hy & Hc).
      { apply nomes_colunas_In. exists r. split.
        - eapply nth_error_In; eauto.
        - eapply assoc_In; eauto. }
      unfold valor_em in Hc. rewrite Hkx in Hc. eauto.
    + intros k Ht Hnone. unfold tem_coluna, nomes in Ht. cbn [colunas] in Ht.
      rewrite Hf in Ht. apply existsb_eqb_In in Ht.
      destruct (Hcel k Ht) as (y & Hy & Hc). unfold valor_em in Hc.
      rewrite Hnone in Hc. exists y. split; [assumption |].
      apply (coagido_nulo (PyFloat nan) y eq_refl Hc).
Qed.

(** A list of simple JSON objects has a table. *)
Lemma pd_DataFrame_total (dados : list pyval) :
  forallb registro_simples dados = true ->
  exists df, pd_DataFrame dados = Retornou df.
Proof.
  intros H. unfold pd_DataFrame.
  assert (Hr : exists regs, como_registros dados = Some regs
                 /\ forall reg kx, In reg regs -> In kx reg ->
                                   valor_simples (snd kx) = true).
  { induction dados as [| v r IH]; cbn.
    - exists []. split; [reflexivity |]. intros reg kx [].
    - cbn in H. apply andb_prop in H as [Hv Hr]. destruct (IH Hr) as (regs & -> & Hs).
      unfold registro_simples in Hv. destruct (como_registro v) as [x |];
        [| discriminate].
      exists (x :: regs). split; [reflexivity |].
      intros reg kx [<- | Hin] Hkx; [| eauto].
      rewrite forallb_forall in Hv. apply (Hv kx Hkx). }
  destruct Hr as (regs & -> & Hs).
  destruct (montar_colunas_total regs (nomes_colunas regs) Hs) as (cs & ->). eauto.
Qed.

Lemma valor_de_sucesso (r : resposta_http) (regs : list pyval) :
  sucesso r regs -> valor_de r = PyList regs.
Proof.
  intros (status & Hs & ->). cbn. unfold ClienteAPI.raise_for_status.
  replace ((400 <=? status) && (status <? 600)) with false by lia. reflexivity.
Qed.

Lemma valor_de_falhou (r : resposta_http) : falhou r -> valor_de r = PyNone.
Proof.
  intros [-> | (status & corpo & -> & Hs)]; cbn; [reflexivity |].
  unfold ClienteAPI.raise_for_status.
  replace ((400 <=? status) && (status <? 600)) with true by lia. reflexivity.
Qed.

Lemma length_concat_soma {A} (l : list (list A)) :
  List.length (List.concat l) = list_sum (map (@List.length A) l).
Proof.
  induction l as [| x r IH]; cbn; [reflexivity |].
  now rewrite length_app, IH.
Qed.

(** The loop followed by the construction of the table. *)
Lemma buscar_contratos_eq (w : mundo) (self : BuscadorContrato.t)
    (paginas : list (list pyval)) (s : estado) (combustivel : nat) :
  let p0 := BuscadorContrato.pagina_inicial self in
  (forall j regs, nth_error paginas j = Some regs ->
      valor_de (servidor w (requisicao_pagina self (p0 + Z.of_nat j))) = PyList regs
      /\ regs <> []) ->
  truthy (valor_de (servidor w
            (requisicao_pagina self (p0 + Z.of_nat (List.length paginas))))) = false ->
  (List.length paginas < combustivel)%nat ->
  exists s1,
    BuscadorContrato.laco w self combustivel p0 [] s = (Retornou (List.concat paginas), s1)
    /\ requisicoes (eventos s1)
       = requisicoes (eventos s)
         ++ map (requisicao_pagina self) (seqZ p0 (S (List.length paginas)))
    /\ forall df, pd_DataFrame (List.concat paginas) = Retornou df ->
         BuscadorContrato.buscar_contratos w self combustivel s
         = (Retornou df, {| leituras := leituras s1; eventos := eventos s1;
                            dataframe := df |}).
Proof.
  intros p0 Hp Hf Hc.
  destruct (laco_termina w self paginas p0 [] s combustivel Hp Hf Hc)
    as (s1 & E & R & D).
  cbn [app] in E. exists s1. repeat split; try assumption.
  intros df Hdf. unfold BuscadorContrato.buscar_contratos.
  fold p0. erewrite bind_retornou by exact E.
  erewrite bind_retornou by (unfold lift; rewrite Hdf; reflexivity).
  reflexivity.
Qed.

(** C1: pages [pagina_inicial .. N] hold at least one record each and page
    [N+1] holds none: the pages are requested one after the other, each
    number one more than the last, [N + 2 - pagina_inicial] requests in
    all, the last one for the empty page; the records accumulated are those
    of the pages with records, as many as these pages hold together, and
    the table built from them has one row for each. *)
Theorem paginacao_sequencial (w : mundo) (self : BuscadorContrato.t)
    (paginas : list (list pyval)) (s : estado) (combustivel : nat) :
  let p0 := BuscadorContrato.pagina_inicial self in
  let N := p0 + Z.of_nat (List.length paginas) - 1 in
  (forall j regs, nth_error paginas j = Some regs ->
      sucesso (servidor w (requisicao_pagina self (p0 + Z.of_nat j))) regs
      /\ regs <> []) ->
  sucesso (servidor w (requisicao_pagina self (N + 1))) [] ->
  (List.length paginas < combustivel)%nat ->
  exists todos s1,
    BuscadorContrato.laco w self combustivel p0 [] s = (Retornou todos, s1)
    /\ todos = List.concat paginas
    /\ List.length todos = list_sum (map (@List.length pyval) paginas)
    /\ requisicoes (eventos s1)
       = requisicoes (eventos s)
         ++ map (requisicao_pagina self) (seqZ p0 (Z.to_nat (N + 2 - p0)))
    /\ Z.of_nat (List.length (requisicoes (eventos s1)))
       = Z.of_nat (List.length (requisicoes (eventos s))) + (N + 2 - p0)
    /\ last (requisicoes (eventos s1)) (requisicao_pagina self p0)
       = requisicao_pagina self (N + 1)
    /\ (forallb registro_simples todos = true ->
        exists df s',
          BuscadorContrato.buscar_contratos w self combustivel s = (Retornou df, s')
          /\ dataframe s' = df
          /\ eventos s' = eventos s1
          /\ n_linhas df = list_sum (map (@List.length pyval) paginas)).
Proof.
  intros p0 N Hp Hv Hc.
  assert (EN : N + 1 = p0 + Z.of_nat (List.length paginas)) by (unfold N; lia).
  destruct (buscar_contratos_eq w self paginas s combustivel) as (s1 & E & R & B).
  { intros j r Hj. destruct (Hp j r Hj) as [Hs Hne].
    split; [now apply valor_de_sucesso | assumption]. }
  { fold p0. rewrite <- EN, (valor_de_sucesso _ _ Hv). reflexivity. }
  { assumption. }
  fold p0 in R, E.
  assert (EZ : Z.to_nat (N + 2 - p0) = S (List.length paginas)) by (unfold N; lia).
  exists (List.concat paginas), s1. split; [exact E |]. split; [reflexivity |].
  split; [apply length_concat_soma |]. rewrite EZ. split; [exact R |].
  split; [| split].
  - rewrite R, length_app, length_map, seqZ_length. unfold N. lia.
  - rewrite R. unfold seqZ. rewrite seq_S, !map_app. cbn [map].
    rewrite app_assoc, last_last. f_equal. lia.
  - intros Hr. destruct (pd_DataFrame_total _ Hr) as (df & Hdf).
    exists df. eexists. split; [apply (B df Hdf) |]. cbn [dataframe eventos].
    split; [reflexivity |]. split; [reflexivity |].
    destruct (pd_DataFrame_linha _ _ Hdf) as [Hn _].
    now rewrite Hn, length_concat_soma.
Qed.

(** The pages of 5, 3 and 0 records: 8 records, 3 requests, 8 rows. *)
Lemma paginacao_5_3_0 :
  exists todos s1 df s',
    BuscadorContrato.laco (mundo_de None paginas_5_3_0) buscador_exemplo 3 1 []
      estado_inicial = (Retornou todos, s1)
    /\ List.length todos = 8%nat
    /\ List.length (requisicoes (eventos s1)) = 3%nat
    /\ BuscadorContrato.buscar_contratos (mundo_de None paginas_5_3_0)
         buscador_exemplo 3 estado_inicial = (Retornou df, s')
    /\ n_linhas df = 8%nat.
Proof.
  destruct (paginacao_sequencial (mundo_de None paginas_5_3_0) buscador_exemplo
              [map contrato [1; 2; 3; 4; 5]; map contrato [6; 7; 8]]
              estado_inicial 3)
    as (todos & s1 & E & Et & Hl & _ & L & _ & Hdf).
  - intros [| [| j]] regs Hj; cbn in Hj; try (destruct j; discriminate);
      inversion Hj; subst regs; (split; [| discriminate]);
      exists 200; (split; [lia | reflexivity]).
  - exists 200. split; [lia | reflexivity].
  - cbn. lia.
  - destruct Hdf as (df & s' & Eb & _ & _ & Hn); [subst todos; reflexivity |].
    exists todos, s1, df, s'. split; [exact E |]. split; [exact Hl |].
    split; [cbn in L; lia |]. split; [exact Eb | exact Hn].
Defined.

(** C9: the pages with records are followed by a page that is empty or
    failed: the table is built from the records of those pages in order,
    one row per record, row [i] holding under each key of record [i] the
    value the record has there (an int or a [None] as a float where the
    column is of floats) and a null under the keys it lacks. *)
Theorem tabela_concatena_paginas (w : mundo) (self : BuscadorContrato.t)
    (paginas : list (list pyval)) (s : estado) (combustivel : nat) :
  let p0 := BuscadorContrato.pagina_inicial self in
  let fim := servidor w (requisicao_pagina self (p0 + Z.of_nat (List.length paginas))) in
  (forall j regs, nth_error paginas j = Some regs ->
      sucesso (servidor w (requisicao_pagina self (p0 + Z.of_nat j))) regs
      /\ regs <> []) ->
  falhou fim \/ sucesso fim [] ->
  forallb registro_simples (List.concat paginas) = true ->
  (List.length paginas < combustivel)%nat ->
  exists df s',
    BuscadorContrato.buscar_contratos w self combustivel s = (Retornou df, s')
    /\ pd_DataFrame (List.concat paginas) = Retornou df
    /\ n_linhas df = List.length (List.concat paginas)
    /\ forall i v r,
         nth_error (List.concat paginas) i = Some v ->
         como_registro v = Some r ->
         (forall k x, assoc k r = Some x ->
            exists y, celula df k i = Some y /\ coagido x y) /\
         (forall k, tem_coluna df k = true -> assoc k r = None ->
            exists y, celula df k i = Some y /\ eh_nulo y = true).
Proof.
  intros p0 fim Hp Hv Hr Hc.
  destruct (buscar_contratos_eq w self paginas s combustivel) as (s1 & E & R & B).
  { intros j r Hj. destruct (Hp j r Hj) as [Hs Hne].
    split; [now apply valor_de_sucesso | assumption]. }
  { fold p0. fold fim. destruct Hv as [Hv | Hv].
    - now rewrite (valor_de_falhou _ Hv).
    - now rewrite (valor_de_sucesso _ _ Hv). }
  { assumption. }
  destruct (pd_DataFrame_total _ Hr) as (df & Hdf).
  exists df. eexists. split; [apply (B df Hdf) |]. split; [exact Hdf |].
  apply (pd_DataFrame_linha _ _ Hdf).
Qed.

(** One page with a record, then a server error: one row. *)
Lemma tabela_ate_a_falha :
  exists df s',
    BuscadorContrato.buscar_contratos (mundo_de None pagina_e_falha)
      buscador_exemplo 2 estado_inicial = (Retornou df, s')
    /\ n_linhas df = 1%nat
    /\ celula df "id" 0 = Some (PyInt 1).
Proof.
  destruct (tabela_concatena_paginas (mundo_de None pagina_e_falha) buscador_exemplo
              [[contrato 1]] estado_inicial 2)
    as (df & s' & E & Hdf & Hn & _).
  - intros [| j] regs Hj; cbn in Hj; try (destruct j; discriminate).
    inversion Hj; subst regs. split; [| discriminate].
    exists 200. split; [lia | reflexivity].
  - left. right. exists 503, None. split; [reflexivity | lia].
  - reflexivity.
  - cbn. lia.
  - exists df, s'. split; [exact E |]. split; [exact Hn |].
    vm_compute in Hdf. inversion Hdf. reflexivity.
Defined.

Lemma registros_app (a b : list evento) :
  registros (a ++ b) = registros a ++ registros b.
Proof. apply flat_map_app. Qed.

(** C2, as the code has it: a response whose status is not 4xx or 5xx and
    whose body decodes gives that body, for a 2xx status as for any other;
    a network failure or a 4xx or 5xx status gives [None] and one ERROR
    record, and a body that is not JSON gives [None] and an ERROR record
    after the INFO one: nothing is raised; an empty page gives the empty
    list, which is not [None] but is as falsy, so the loop of
    [buscar_contratos] ends on a failed page as it does on an empty one,
    with the same records. *)
Theorem get_falha_como_vazio (w w' : mundo) (self : BuscadorContrato.t)
    (endpoint : string) (params : list (string * pyval)) (restrito : bool)
    (paginas : list (list pyval)) (s : estado) (combustivel : nat) :
  let c := BuscadorContrato.cliente self in
  let r := servidor w (requisicao_de c endpoint params) in
  let p0 := BuscadorContrato.pagina_inicial self in
  let fim := p0 + Z.of_nat (List.length paginas) in
  (forall status v, r = Resposta status (Some v) -> ~ 400 <= status < 600 ->
     exists s',
       ClienteAPI.get w c endpoint params restrito s = (Retornou v, s')
       /\ registros (eventos s')
          = registros (eventos s) ++ [(INFO, DadosRecebidos endpoint)]) /\
  (falhou r ->
     exists s' e,
       ClienteAPI.get w c endpoint params restrito s = (Retornou PyNone, s')
       /\ registros (eventos s')
          = registros (eventos s) ++ [(ERROR, ErroAcessoAPI e endpoint)]) /\
  (forall status, r = Resposta status None -> ~ 400 <= status < 600 ->
     exists s',
       ClienteAPI.get w c endpoint params restrito s = (Retornou PyNone, s')
       /\ registros (eventos s')
          = registros (eventos s)
            ++ [(INFO, DadosRecebidos endpoint);
                (ERROR, ErroAcessoAPI ErroJSON endpoint)]) /\
  (sucesso r [] ->
     fst (ClienteAPI.get w c endpoint params restrito s) = Retornou (PyList [])) /\
  truthy PyNone = truthy (PyList []) /\
  ((forall j regs, nth_error paginas j = Some regs ->
      sucesso (servidor w (requisicao_pagina self (p0 + Z.of_nat j))) regs
      /\ sucesso (servidor w' (requisicao_pagina self (p0 + Z.of_nat j))) regs
      /\ regs <> []) ->
   falhou (servidor w (requisicao_pagina self fim)) ->
   sucesso (servidor w' (requisicao_pagina self fim)) [] ->
   (List.length paginas < combustivel)%nat ->
   fst (BuscadorContrato.laco w self combustivel p0 [] s) = Retornou (List.concat paginas)
   /\ fst (BuscadorContrato.laco w' self combustivel p0 [] s) = Retornou (List.concat paginas)
   /\ fst (BuscadorContrato.buscar_contratos w self combustivel s)
      = fst (BuscadorContrato.buscar_contratos w' self combustivel s)).
Proof.
  intros c r p0 fim.
  split; [| split; [| split; [| split; [| split; [reflexivity |]]]]].
  - intros status v Hr Hs. rewrite get_eq. fold r. rewrite Hr.
    eexists. cbn [valor_de registro_de]. unfold ClienteAPI.raise_for_status.
    replace ((400 <=? status) && (status <? 600)) with false by lia.
    split; [reflexivity |]. cbn [eventos]. rewrite registros_app. reflexivity.
  - intros Hf. rewrite get_eq. fold r. rewrite (valor_de_falhou _ Hf).
    destruct Hf as [Hf | (status & corpo & Hf & Hs)].
    + do 2 eexists. split; [reflexivity |]. cbn [eventos].
      rewrite registros_app, Hf. reflexivity.
    + eexists. exists (ErroStatus status). split; [reflexivity |]. cbn [eventos].
      rewrite registros_app, Hf. cbn. unfold ClienteAPI.raise_for_status.
      replace ((400 <=? status) && (status <? 600)) with true by lia. reflexivity.
  - intros status Hr Hs. rewrite get_eq. fold r. rewrite Hr.
    eexists. cbn [valor_de registro_de]. unfold ClienteAPI.raise_for_status.
    replace ((400 <=? status) && (status <? 600)) with false by lia.
    split; [reflexivity |]. cbn [eventos]. rewrite registros_app. reflexivity.
  - intros Hs. rewrite get_eq. cbn [fst]. fold r. now rewrite (valor_de_sucesso _ _ Hs).
  - intros Hp Hf Hv Hc.
    destruct (buscar_contratos_eq w self paginas s combustivel) as (s1 & E & _ & B).
    { intros j regs Hj. destruct (Hp j regs Hj) as (Hs & _ & Hne).
      split; [now apply valor_de_sucesso | assumption]. }
    { fold p0. fold fim. now rewrite (valor_de_falhou _ Hf). }
    { assumption. }
    destruct (buscar_contratos_eq w' self paginas s combustivel) as (s2 & E' & _ & B').
    { intros j regs Hj. destruct (Hp j regs Hj) as (_ & Hs & Hne).
      split; [now apply valor_de_sucesso | assumption]. }
    { fold p0. fold fim. now rewrite (valor_de_sucesso _ _ Hv). }
    { assumption. }
    fold p0 in E, E'. split; [now rewrite E | split; [now rewrite E' |]].
    unfold BuscadorContrato.buscar_contratos. fold p0.
    erewrite (bind_retornou _ _ s) by exact E.
    erewrite (bind_retornou _ _ s) by exact E'.
    unfold bind, lift. destruct (pd_DataFrame (List.concat paginas)); reflexivity.
Qed.

(** After a page with one record, a 503 and an empty page end the loop
    alike. *)
Lemma falha_e_vazio_terminam_igual :
  fst (BuscadorContrato.buscar_contratos (mundo_de None pagina_e_falha)
         buscador_exemplo 2 estado_inicial)
  = fst (BuscadorContrato.buscar_contratos (mundo_de None pagina_e_vazia)
           buscador_exemplo 2 estado_inicial).
Proof.
  destruct (get_falha_como_vazio (mundo_de None pagina_e_falha)
              (mundo_de None pagina_e_vazia) buscador_exemplo "/contratos"
              (BuscadorContrato.params_pagina buscador_exemplo 2) false
              [[contrato 1]] estado_inicial 2)
    as (_ & _ & _ & _ & _ & H).
  apply H.
  - intros [| j] regs Hj; cbn in Hj; try (destruct j; discriminate).
    inversion Hj; subst regs.
    split; [exists 200; split; [lia | reflexivity] |].
    split; [exists 200; split; [lia | reflexivity] | discriminate].
  - right. exists 503, None. split; [reflexivity | lia].
  - exists 200. split; [lia | reflexivity].
  - cbn. lia.
Defined.

(** C2, as stated, fails: on a failed page [get] gives [None], on an empty
    page it gives the empty list, and a caller can tell the two apart; and
    a response whose status is 300, not 2xx, is no error: its body is
    returned and the success is logged. *)
Lemma get_falha_distinta_de_vazio :
  fst (ClienteAPI.get (mundo_de None pagina_e_falha) cliente_exemplo "/contratos"
         (BuscadorContrato.params_pagina buscador_exemplo 2) false estado_inicial)
  = Retornou PyNone
  /\ fst (ClienteAPI.get (mundo_de None pagina_e_vazia) cliente_exemplo "/contratos"
            (BuscadorContrato.params_pagina buscador_exemplo 2) false estado_inicial)
     = Retornou (PyList [])
  /\ PyNone <> PyList []
  /\ fst (ClienteAPI.get (mundo_de None pagina_300) cliente_exemplo "/contratos"
            (BuscadorContrato.params_pagina buscador_exemplo 2) false estado_inicial)
     = Retornou (PyList [contrato 1])
  /\ registros (eventos (snd (ClienteAPI.get (mundo_de None pagina_300) cliente_exemplo
                                "/contratos"
                                (BuscadorContrato.params_pagina buscador_exemplo 2)
                                false estado_inicial)))
     = [(INFO, DadosRecebidos "/contratos")].
Proof.
  split; [reflexivity |]. split; [reflexivity |]. split; [discriminate |].
  split; reflexivity.
Qed.

(** ** Number formatting *)








(** ** Separators *)

Lemma replace_app (a b : ascii) (s t : string) :
  replace a b (s ++ t) = (replace a b s ++ replace a b t)%string.
Proof. induction s as [| c r IH]; cbn; [reflexivity | now rewrite IH]. Qed.

Lemma trocar_app (s t : string) :
  trocar_separadores (s ++ t) = (trocar_separadores s ++ trocar_separadores t)%string.
Proof. unfold trocar_separadores. now rewrite !replace_app. Qed.


Lemma todos_chars_app (p : ascii -> bool) (s t : string) :
  todos_chars p (s ++ t) = todos_chars p s && todos_chars p t.
Proof.
  induction s as [| c r IH]; cbn; [reflexivity |]. now rewrite IH, andb_assoc.
Qed.















(** ** Columns *)

Lemma assoc_substituir_eq {A} (k : string) (v : A) (l : list (string * A)) :
  assoc k (substituir k v l) = Some v.
Proof.
  induction l as [| [k' v'] r IH]; cbn.
  - now rewrite String.eqb_refl.
  - destruct (String.eqb_spec k k'); cbn.
    + now rewrite String.eqb_refl.
    + destruct (String.eqb_spec k k'); [contradiction | exact IH].
Qed.

Lemma assoc_substituir_neq {A} (k k' : string) (v : A) (l : list (string * A)) :
  k' <> k -> assoc k' (substituir k v l) = assoc k' l.
Proof.
  intros Hne. induction l as [| [k0 v0] r IH]; cbn.
  - destruct (String.eqb_spec k' k); [contradiction | reflexivity].
  - destruct (String.eqb_spec k k0); cbn.
    + subst k0. destruct (String.eqb_spec k' k); [contradiction | reflexivity].
    + destruct (String.eqb_spec k' k0); [reflexivity | exact IH].
Qed.

Lemma substituir_mesmo {A} (k : string) (v : A) (l : list (string * A)) :
  assoc k l = Some v -> substituir k v l = l.
Proof.
  induction l as [| [k' v'] r IH]; cbn; [discriminate |].
  destruct (String.eqb_spec k k'); intros H.
  - inversion H. now subst.
  - now rewrite IH.
Qed.

Lemma assoc_remover {A} (k k' : string) (l : list (string * A)) :
  assoc k' (remover k l) = if String.eqb k k' then None else assoc k' l.
Proof.
  unfold remover. induction l as [| [k0 v0] r IH]; cbn.
  - now destruct (String.eqb k k').
  - destruct (String.eqb_spec k k0); cbn.
    + subst k0. rewrite IH. destruct (String.eqb_spec k k'); [reflexivity |].
      destruct (String.eqb_spec k' k); [congruence | reflexivity].
    + rewrite IH. destruct (String.eqb_spec k k'); [| reflexivity].
      subst k'. destruct (String.eqb_spec k k0); [contradiction | reflexivity].
Qed.

Lemma tem_coluna_coluna (df : DataFrame) (c : string) :
  tem_coluna df c = true <-> exists vs, coluna df c = Some vs.
Proof.
  unfold tem_coluna, coluna, nomes. destruct df as [cols n]. cbn.
  induction cols as [| [k v] r IH]; cbn.
  - split; [discriminate | intros (vs & H); discriminate].
  - destruct (String.eqb c k); cbn; [split; eauto | exact IH].
Qed.

Lemma tem_coluna_ausente (df : DataFrame) (c : string) :
  tem_coluna df c = false <-> coluna df c = None.
Proof.
  pose proof (tem_coluna_coluna df c) as H.
  destruct (tem_coluna df c), (coluna df c) as [vs |]; split; intros E;
    try reflexivity; try discriminate.
  - destruct H as [H _]. destruct (H eq_refl). discriminate.
  - destruct H as [_ H]. assert (true = false -> False) by discriminate.
    exfalso. assert (false = true) by (apply H; eauto). discriminate.
Qed.

Lemma coluna_atribuir_eq (df : DataFrame) (c : string) (vs : list pyval) :
  coluna (atribuir df c vs) c = Some vs.
Proof. apply assoc_substituir_eq. Qed.

Lemma coluna_atribuir_neq (df : DataFrame) (c c' : string) (vs : list pyval) :
  c' <> c -> coluna (atribuir df c vs) c' = coluna df c'.
Proof. apply assoc_substituir_neq. Qed.

Lemma atribuir_mesmo (df : DataFrame) (c : string) (vs : list pyval) :
  coluna df c = Some vs -> atribuir df c vs = df.
Proof.
  intros H. unfold atribuir. rewrite (substituir_mesmo _ _ _ H). now destruct df.
Qed.

(** Dropping two columns. *)
Lemma drop_dois (df df' : DataFrame) (a b : string) :
  drop df [a; b] = Retornou df' ->
  forall c, coluna df' c
            = if String.eqb b c || String.eqb a c then None else coluna df c.
Proof.
  unfold drop. destruct (forallb (tem_coluna df) [a; b]); [| discriminate].
  intros H c. inversion H; subst df'; clear H. unfold coluna. cbn.
  rewrite !assoc_remover. destruct (String.eqb b c), (String.eqb a c); reflexivity.
Qed.

(** ** [Series.apply] *)

Lemma mapM_lift {A B} (f : A -> resultado B) (l : list A) (s : estado) :
  mapM (fun x => lift (f x)) l s = (mapR f l, s).
Proof.
  induction l as [| x r IH]; cbn [mapM mapR]; [reflexivity |].
  unfold bind. change (lift (f x) s) with (f x, s).
  destruct (f x) as [y | e | m]; try reflexivity.
  rewrite IH. destruct (mapR f r); reflexivity.
Qed.

Lemma mapR_nth {A B} (f : A -> resultado B) (l : list A) (l' : list B) :
  mapR f l = Retornou l' ->
  List.length l' = List.length l /\
  forall i x, nth_error l i = Some x ->
              exists y, f x = Retornou y /\ nth_error l' i = Some y.
Proof.
  revert l'. induction l as [| a r IH]; cbn; intros l' H.
  - inversion H. split; [reflexivity |]. intros [|]; discriminate.
  - destruct (f a) as [y | |] eqn:Ea; try discriminate.
    destruct (mapR f r) as [ys | |]; try discriminate.
    inversion H; subst l'. destruct (IH ys eq_refl) as [Hl Hn]. split.
    + cbn. now rewrite Hl.
    + intros [| i] x Hx; cbn in *.
      * inversion Hx; subst. eauto.
      * auto.
Qed.

Lemma mapR_total {A B} (f : A -> resultado B) (l : list A) :
  (forall x, In x l -> exists y, f x = Retornou y) ->
  exists l', mapR f l = Retornou l'.
Proof.
  induction l as [| a r IH]; cbn; intros H; [eauto |].
  destruct (H a (or_introl eq_refl)) as (y & ->).
  destruct IH as (ys & ->); [auto |]. eauto.
Qed.

Lemma com_eventos_nil (s : estado) : com_eventos s [] = s.
Proof. unfold com_eventos. rewrite app_nil_r. now destruct s. Qed.

Lemma _parse_dict_eq (valor : pyval) (s : estado) :
  Processamento._parse_dict valor s = (parse_puro valor, com_eventos s (avisos valor)).
Proof.
  pose proof (com_eventos_nil s) as E.
  destruct valor; cbn; rewrite ?E; try reflexivity.
  destruct (literal_eval s0) as [v | e | m]; cbn; rewrite ?E; try reflexivity.
  destruct e; cbn; rewrite ?E; reflexivity.
Qed.

Lemma mapM_parse_dict (l : list pyval) :
  forall s l' s',
    mapM Processamento._parse_dict l s = (Retornou l', s') ->
    mapR parse_puro l = Retornou l' /\ s' = com_eventos s (flat_map avisos l).
Proof.
  induction l as [| x r IH]; cbn; intros s l' s' H.
  - inversion H. split; [reflexivity |]. now rewrite com_eventos_nil.
  - unfold bind in H. rewrite _parse_dict_eq in H.
    destruct (parse_puro x) as [y | |]; try discriminate.
    destruct (mapM Processamento._parse_dict r (com_eventos s (avisos x)))
      as [[ys | |] s1] eqn:E; try discriminate.
    inversion H; subst. destruct (IH _ _ _ E) as [-> ->]. split; [reflexivity |].
    unfold com_eventos. cbn. now rewrite app_assoc.
Qed.

Lemma Series_apply_lift (f : pyval -> resultado pyval) (l : list pyval) (s : estado) :
  Series_apply (fun x => lift (f x)) l s = (aplicar f l, s).
Proof.
  unfold Series_apply, aplicar, bind. rewrite mapM_lift.
  destruct (mapR f l); reflexivity.
Qed.

Lemma Series_apply_parse_dict (l l' : list pyval) (s s' : estado) :
  Series_apply Processamento._parse_dict l s = (Retornou l', s') ->
  aplicar parse_puro l = Retornou l' /\ s' = com_eventos s (flat_map avisos l).
Proof.
  unfold Series_apply. intros H. apply bind_inv in H as (rs & s1 & H1 & H2).
  apply mapM_parse_dict in H1 as [Hm ->]. apply lift_inv in H2 as [Hi ->].
  unfold aplicar. now rewrite Hm.
Qed.

(** Row [i] of the result of [Series.apply]. *)
Lemma aplicar_nth (f : pyval -> resultado pyval) (l l' : list pyval) :
  aplicar f l = Retornou l' ->
  List.length l' = List.length l /\
  forall i x, nth_error l i = Some x ->
    exists y y', f x = Retornou y /\ coagido y y' /\ nth_error l' i = Some y'.
Proof.
  unfold aplicar. destruct (mapR f l) as [rs | |] eqn:Em; try discriminate.
  intros Hi. destruct (mapR_nth _ _ _ Em) as [Hl Hn].
  destruct (inferir_nth _ _ Hi) as [Hl' Hn']. split; [congruence |].
  intros i x Hx. destruct (Hn i x Hx) as (y & Hy & Hr).
  destruct (Hn' i y Hr) as (y' & Hy' & Hc). eauto.
Qed.

(** ** [_formatar_valores_brasileiros] *)

Lemma formato_brasileiro_texto (x v : pyval) :
  formato_brasileiro x = Retornou v ->
  exists t, formatar_2f x = Retornou t /\ v = PyStr (trocar_separadores t).
Proof.
  unfold formato_brasileiro. destruct (formatar_2f x) as [t | |]; try discriminate.
  intros H. inversion H. eexists. split; reflexivity.
Qed.

Lemma mapR_formato_texto (vs novos : list pyval) :
  mapR formato_brasileiro vs = Retornou novos ->
  forall v, In v novos -> exists t, v = PyStr t.
Proof.
  revert novos. induction vs as [| x r IH]; cbn; intros novos H v Hv.
  - inversion H; subst. contradiction.
  - destruct (formato_brasileiro x) as [y | |] eqn:Ey; try discriminate.
    destruct (mapR formato_brasileiro r) as [ys | |]; try discriminate.
    inversion H; subst. destruct Hv as [<- | Hv].
    + destruct (formato_brasileiro_texto _ _ Ey) as (t & _ & ->). eauto.
    + eapply IH; eauto.
Qed.

(** The formatted cells are text, which keeps its objects. *)
Lemma aplicar_formato (vs : list pyval) :
  aplicar formato_brasileiro vs = mapR formato_brasileiro vs.
Proof.
  unfold aplicar. destruct (mapR formato_brasileiro vs) as [novos | |] eqn:E;
    try reflexivity.
  apply inferir_texto. apply (mapR_formato_texto _ _ E).
Qed.

Lemma formatar_cons_ausente (c : string) (resto : list string) (s : estado) :
  coluna (dataframe s) c = None ->
  Processamento._formatar_valores_brasileiros (c :: resto) s
  = Processamento._formatar_valores_brasileiros resto s.
Proof.
  intros H. apply tem_coluna_ausente in H.
  cbn [Processamento._formatar_valores_brasileiros].
  unfold bind at 1. unfold ler_df at 1. rewrite H. reflexivity.
Qed.

Lemma formatar_cons_presente (c : string) (resto : list string) (s : estado)
    (vs : list pyval) :
  coluna (dataframe s) c = Some vs ->
  Processamento._formatar_valores_brasileiros (c :: resto) s
  = match mapR formato_brasileiro vs with
    | Retornou novos =>
        Processamento._formatar_valores_brasileiros resto (apos_formatar s c novos)
    | Levantou e => (Levantou e, s)
    | Indefinido m => (Indefinido m, s)
    end.
Proof.
  intros H. assert (Ht : tem_coluna (dataframe s) c = true).
  { apply tem_coluna_coluna. eauto. }
  cbn [Processamento._formatar_valores_brasileiros].
  unfold bind at 1. unfold ler_df at 1. rewrite Ht.
  unfold bind at 1. unfold bind at 1. unfold Processamento.ler_coluna at 1.
  unfold bind at 1. unfold ler_df at 1. rewrite H. unfold ret at 1.
  unfold bind at 1. rewrite Series_apply_lift, aplicar_formato.
  destruct (mapR formato_brasileiro vs); reflexivity.
Qed.

(** What a run that returns has done. *)
Lemma formatar_inv (colunas : list string) :
  forall s s',
    Processamento._formatar_valores_brasileiros colunas s = (Retornou tt, s') ->
    (forall c, ~ In c colunas -> coluna (dataframe s') c = coluna (dataframe s) c) /\
    (forall c, coluna (dataframe s) c = None -> coluna (dataframe s') c = None) /\
    (NoDup colunas ->
     forall c vs, In c colunas -> coluna (dataframe s) c = Some vs ->
       exists novos, coluna (dataframe s') c = Some novos
                     /\ mapR formato_brasileiro vs = Retornou novos).
Proof.
  induction colunas as [| c resto IH]; intros s s' H.
  - cbn in H. inversion H; subst. repeat split; auto. intros _ c vs [].
  - destruct (coluna (dataframe s) c) as [vs |] eqn:Ec.
    + rewrite (formatar_cons_presente _ _ _ _ Ec) in H.
      destruct (mapR formato_brasileiro vs) as [novos | |] eqn:Em; try discriminate.
      destruct (IH _ _ H) as (F & A & P). cbn [apos_formatar dataframe] in F, A, P.
      split; [| split].
      * intros c' Hn. rewrite F by (intros Hi; apply Hn; now right).
        apply coluna_atribuir_neq. intros ->. apply Hn. now left.
      * intros c' Hc'. apply A. rewrite coluna_atribuir_neq; [assumption |].
        intros ->. congruence.
      * intros Hnd c' vs' Hin Hc'. inversion Hnd as [| ? ? Hni Hnd']; subst.
        destruct Hin as [<- | Hin].
        -- exists novos. rewrite F by assumption. rewrite coluna_atribuir_eq.
           split; [reflexivity | congruence].
        -- apply (P Hnd' c' vs' Hin). rewrite coluna_atribuir_neq; [assumption |].
           intros ->. contradiction.
    + rewrite (formatar_cons_ausente _ _ _ Ec) in H.
      destruct (IH _ _ H) as (F & A & P). split; [| split].
      * intros c' Hn. apply F. intros Hi. apply Hn. now right.
      * exact A.
      * intros Hnd c' vs' Hin Hc'. inversion Hnd as [| ? ? Hni Hnd']; subst.
        destruct Hin as [<- | Hin]; [congruence |]. now apply (P Hnd' c' vs').
Qed.

(** An int below [2^1023] converts without overflow. *)
Lemma float_de_int_sem_overflow (k : Z) :
  Z.abs k < 2 ^ 1023 ->
  k <> 0 ->
  exists m e, float_de_int k = Retornou (S754_finite (k <? 0) m e) /\ 0 <= e
              /\ (Z.abs k < 2 ^ 53 -> Zpos m = Z.abs k /\ e = 0).
Proof.
  intros Hk Hz. unfold float_de_int.
  destruct (Z.eqb_spec k 0); [contradiction |].
  set (a := Z.abs k) in *. assert (Ha : 0 < a) by (unfold a; lia).
  pose proof (Z.log2_spec a Ha) as [Hl Hu].
  pose proof (Z.log2_nonneg a) as Hl0.
  destruct (Z.leb_spec (Z.log2 a + 1) 53) as [Hb | Hb].
  - exists (Z.to_pos a), 0. split; [reflexivity |]. split; [lia |].
    intros _. split; [apply Z2Pos.id; lia | reflexivity].
  - set (sh := Z.log2 a + 1 - 53). assert (Hsh : 0 < sh) by (unfold sh; lia).
    assert (Hp : 0 < 2 ^ sh) by (apply Z.pow_pos_nonneg; lia).
    pose proof (Z.div_mod a (2 ^ sh) ltac:(lia)) as Hdm.
    pose proof (Z.mod_pos_bound a (2 ^ sh) Hp) as Hr.
    assert (E53 : 2 ^ Z.succ (Z.log2 a) = 2 ^ 53 * 2 ^ sh).
    { rewrite <- Z.pow_add_r by lia. f_equal. unfold sh. lia. }
    assert (Hq1 : 2 ^ 52 <= a / 2 ^ sh).
    { apply Z.div_le_lower_bound; [lia |].
      replace (2 ^ sh * 2 ^ 52) with (2 ^ Z.log2 a); [lia |].
      rewrite <- Z.pow_add_r by lia. f_equal. unfold sh. lia. }
    assert (Hq2 : a / 2 ^ sh < 2 ^ 53).
    { apply Z.div_lt_upper_bound; lia. }
    assert (Hlog : Z.log2 a < 1023).
    { apply Z.log2_lt_pow2; lia. }
    assert (Hbig : 2 ^ 53 * 2 ^ sh <= 2 ^ 1023).
    { rewrite <- E53. apply Z.pow_le_mono_r; lia. }
    assert (H1024 : 2 ^ 1023 < 2 ^ 1024) by (apply Z.pow_lt_mono_r; lia).
    set (q := a / 2 ^ sh) in *. set (r := a mod 2 ^ sh) in *.
    set (q' := if 2 * r <? 2 ^ sh then q
               else if 2 ^ sh <? 2 * r then q + 1
               else if Z.even q then q else q + 1).
    assert (Hq' : q <= q' <= q + 1).
    { unfold q'. destruct (2 * r <? 2 ^ sh); [lia |].
      destruct (2 ^ sh <? 2 * r); [lia |]. destruct (Z.even q); lia. }
    assert (Hno : (2 ^ 1024 <=? q' * 2 ^ sh) = false).
    { apply Z.leb_gt. assert (q' * 2 ^ sh <= 2 ^ 53 * 2 ^ sh) by nia. lia. }
    rewrite Hno. exists (Z.to_pos q'), sh. split; [reflexivity |].
    split; [lia |]. intros Hsmall. exfalso.
    assert (Z.log2 a < 53) by (apply Z.log2_lt_pow2; lia). lia.
Qed.


(** A cell that holds a number is formatted without an exception. *)
Lemma formato_brasileiro_numerico (x : pyval) :
  numerico x = true -> exists t, formato_brasileiro x = Retornou (PyStr t).
Proof.
  destruct x; cbn [numerico]; try discriminate; intros H.
  - destruct (Z.eq_dec n 0) as [-> | Hz]; [eexists; reflexivity |].
    destruct (float_de_int_sem_overflow n ltac:(lia) Hz) as (m & e & E & _).
    unfold formato_brasileiro, formatar_2f. rewrite E. eauto.
  - unfold formato_brasileiro, formatar_2f. eauto.
Qed.

(** The run returns when the listed columns that are present hold numbers. *)
Lemma formatar_total (colunas : list string) :
  NoDup colunas ->
  forall s,
    (forall c vs x, In c colunas -> coluna (dataframe s) c = Some vs -> In x vs ->
                    numerico x = true) ->
    exists s', Processamento._formatar_valores_brasileiros colunas s = (Retornou tt, s').
Proof.
  induction 1 as [| c resto Hni Hnd IH]; intros s Hnum.
  - eexists. reflexivity.
  - destruct (coluna (dataframe s) c) as [vs |] eqn:Ec.
    + rewrite (formatar_cons_presente _ _ _ _ Ec).
      destruct (mapR_total formato_brasileiro vs) as (novos & ->).
      { intros x Hx. destruct (formato_brasileiro_numerico x) as (t & Ht); eauto.
        apply (Hnum c vs x); auto. now left. }
      apply IH. intros c' vs' x Hin Hc' Hx. cbn [apos_formatar dataframe] in Hc'.
      rewrite coluna_atribuir_neq in Hc' by (intros ->; contradiction).
      apply (Hnum c' vs' x); auto. now right.
    + rewrite (formatar_cons_ausente _ _ _ Ec). apply IH.
      intros c' vs' x Hin. apply Hnum. now right.
Qed.

Lemma celula_formatada (colunas : list string) (s s' : estado) :
  NoDup colunas ->
  Processamento._formatar_valores_brasileiros colunas s = (Retornou tt, s') ->
  forall c i x, In c colunas -> celula (dataframe s) c i = Some x ->
    exists t, celula (dataframe s') c i = Some (PyStr (trocar_separadores t))
              /\ formatar_2f x = Retornou t.
Proof.
  intros Hnd H c i x Hin Hx. destruct (formatar_inv _ _ _ H) as (_ & _ & P).
  unfold celula in *. destruct (coluna (dataframe s) c) as [vs |] eqn:Ec;
    [| discriminate].
  destruct (P Hnd c vs Hin Ec) as (novos & -> & Hm).
  destruct (mapR_nth _ _ _ Hm) as (_ & Hn).
  destruct (Hn i x Hx) as (y & Hy & ->).
  destruct (formato_brasileiro_texto _ _ Hy) as (t & Ht & ->). eauto.
Qed.


Lemma NoDup_colunas_de_valor : NoDup Processamento.colunas_de_valor.
Proof.
  repeat constructor; cbn; intuition discriminate.
Qed.






(** ** [_expandir_colunas] *)

Lemma mapear_cons (nd nova : string) (chaves : list string)
    (resto : list (string * list string)) (s : estado) (dicts : list pyval) :
  coluna (dataframe s) nd = Some dicts ->
  Processamento.mapear nd ((nova, chaves) :: resto) s
  = match aplicar (Processamento.extrair chaves) dicts with
    | Retornou vals =>
        Processamento.mapear nd resto
          (com_dataframe s (atribuir (dataframe s) nova vals))
    | Levantou e => (Levantou e, s)
    | Indefinido m => (Indefinido m, s)
    end.
Proof.
  intros H. cbn [Processamento.mapear].
  unfold bind at 1. unfold Processamento.ler_coluna at 1.
  unfold bind at 1. unfold ler_df at 1. rewrite H. unfold ret at 1.
  unfold bind at 1. rewrite Series_apply_lift.
  destruct (aplicar (Processamento.extrair chaves) dicts); reflexivity.
Qed.

Lemma mapear_sem_coluna (nd nova : string) (chaves : list string)
    (resto : list (string * list string)) (s : estado) :
  coluna (dataframe s) nd = None ->
  Processamento.mapear nd ((nova, chaves) :: resto) s = (Levantou KeyError, s).
Proof.
  intros H. cbn [Processamento.mapear].
  unfold bind at 1. unfold Processamento.ler_coluna at 1.
  unfold bind at 1. unfold ler_df at 1. now rewrite H.
Qed.

(** What the loop over the mappings has done when it returns. *)
Lemma mapear_inv (nd : string) (mapa : list (string * list string)) :
  forall s s',
    Processamento.mapear nd mapa s = (Retornou tt, s') ->
    eventos s' = eventos s /\ leituras s' = leituras s /\
    (forall c, ~ In c (map fst mapa) ->
               coluna (dataframe s') c = coluna (dataframe s) c) /\
    (NoDup (map fst mapa) -> ~ In nd (map fst mapa) ->
     forall nova chaves dicts,
       In (nova, chaves) mapa -> coluna (dataframe s) nd = Some dicts ->
       exists vals, coluna (dataframe s') nova = Some vals
                    /\ aplicar (Processamento.extrair chaves) dicts = Retornou vals).
Proof.
  induction mapa as [| [nova chaves] resto IH]; intros s s' H.
  - cbn in H. inversion H; subst. repeat split; auto. intros _ _ ? ? ? [].
  - destruct (coluna (dataframe s) nd) as [dicts |] eqn:Ed;
      [| rewrite (mapear_sem_coluna _ _ _ _ _ Ed) in H; discriminate].
    rewrite (mapear_cons _ _ _ _ _ _ Ed) in H.
    destruct (aplicar (Processamento.extrair chaves) dicts) as [vals | |] eqn:Em;
      try discriminate.
    destruct (IH _ _ H) as (Ev & Le & F & P).
    cbn [com_dataframe eventos leituras dataframe] in *.
    split; [assumption |]. split; [assumption |]. split.
    + intros c Hn. cbn [map fst] in Hn.
      rewrite F by (intros Hi; apply Hn; now right).
      apply coluna_atribuir_neq. intros ->. apply Hn. now left.
    + intros Hnd Hni nova' chaves' dicts' Hin Hd.
      cbn [map fst] in Hnd, Hni. inversion Hnd as [| ? ? Hn1 Hnd']; subst.
      inversion Hd; subst dicts'.
      destruct Hin as [Hin | Hin].
      * inversion Hin; subst. exists vals. split; [| assumption].
        rewrite F by assumption. apply coluna_atribuir_eq.
      * apply (P Hnd' (fun Hi => Hni (or_intror Hi)) nova' chaves' dicts Hin).
        rewrite coluna_atribuir_neq; [assumption |].
        intros ->. apply Hni. now left.
Qed.

Lemma expandir_ausente (nome : string) (mapa : list (string * list string))
    (s : estado) :
  coluna (dataframe s) nome = None ->
  Processamento._expandir_colunas nome mapa s = (Retornou tt, s).
Proof.
  intros H. apply tem_coluna_ausente in H. unfold Processamento._expandir_colunas.
  unfold bind at 1. unfold ler_df at 1. now rewrite H.
Qed.

(** What the expansion of a column that is present has done when it
    returns. *)
Lemma expandir_inv (nome : string) (mapa : list (string * list string))
    (s s' : estado) (brutos : list pyval) :
  coluna (dataframe s) nome = Some brutos ->
  Processamento._expandir_colunas nome mapa s = (Retornou tt, s') ->
  exists dicts,
    aplicar parse_puro brutos = Retornou dicts
    /\ eventos s' = eventos s ++ flat_map avisos brutos
    /\ coluna (dataframe s') nome = None
    /\ (forall c, c <> nome -> c <> nome_dict nome -> ~ In c (map fst mapa) ->
                  coluna (dataframe s') c = coluna (dataframe s) c)
    /\ (NoDup (map fst mapa) -> ~ In nome (map fst mapa) ->
        ~ In (nome_dict nome) (map fst mapa) ->
        forall nova chaves, In (nova, chaves) mapa ->
          exists vals, coluna (dataframe s') nova = Some vals
                       /\ aplicar (Processamento.extrair chaves) dicts = Retornou vals).
Proof.
  intros Hc H. assert (Ht : tem_coluna (dataframe s) nome = true).
  { apply tem_coluna_coluna. eauto. }
  unfold Processamento._expandir_colunas in H. fold (nome_dict nome) in H.
  unfold bind at 1 in H. unfold ler_df at 1 in H. rewrite Ht in H.
  apply bind_inv in H as (brutos' & s1 & H1 & H).
  unfold Processamento.ler_coluna, bind, ler_df in H1. rewrite Hc in H1.
  inversion H1; subst brutos' s1; clear H1.
  apply bind_inv in H as (dicts & s2 & H2 & H).
  apply Series_apply_parse_dict in H2 as [Hm ->].
  apply bind_inv in H as ([] & s3 & H3 & H).
  unfold Processamento.gravar_coluna, bind, ler_df, gravar_df in H3.
  inversion H3; subst s3; clear H3. cbn [com_eventos leituras eventos dataframe] in H.
  apply bind_inv in H as ([] & s4 & H4 & H).
  apply mapear_inv in H4 as (Ev & Le & F & P).
  cbn [eventos leituras dataframe] in Ev, Le, F, P.
  apply bind_inv in H as (df' & s5 & H5 & H).
  unfold ler_df in H5. inversion H5; subst df' s5; clear H5.
  apply bind_inv in H as (df'' & s6 & H6 & H).
  apply lift_inv in H6 as [Hd ->].
  unfold gravar_df in H. inversion H; subst s'; clear H.
  cbn [eventos dataframe]. pose proof (drop_dois _ _ _ _ Hd) as D.
  exists dicts. split; [assumption |]. split; [assumption |]. split; [| split].
  - rewrite D, String.eqb_refl. reflexivity.
  - intros c H1 H2 H3. rewrite D.
    destruct (String.eqb_spec nome c); [congruence |].
    destruct (String.eqb_spec (nome_dict nome) c); [congruence |]. cbn [orb].
    rewrite F by assumption. apply coluna_atribuir_neq. assumption.
  - intros Hnd Hn1 Hn2 nova chaves Hin.
    destruct (P Hnd Hn2 nova chaves dicts Hin (coluna_atribuir_eq _ _ _))
      as (vals & Hv & Hm').
    exists vals. split; [| assumption]. rewrite D.
    assert (Hi : In nova (map fst mapa)) by (apply (in_map fst _ _ Hin)).
    destruct (String.eqb_spec nome nova); [subst; contradiction |].
    destruct (String.eqb_spec (nome_dict nome) nova) as [E |]; [| assumption].
    rewrite E in Hn2. contradiction.
Qed.

(** A column that the expansion neither reads nor writes is left as it was. *)
Lemma expandir_frame (nome : string) (mapa : list (string * list string))
    (s s' : estado) :
  Processamento._expandir_colunas nome mapa s = (Retornou tt, s') ->
  forall c, c <> nome -> c <> nome_dict nome -> ~ In c (map fst mapa) ->
            coluna (dataframe s') c = coluna (dataframe s) c.
Proof.
  intros H c H1 H2 H3. destruct (coluna (dataframe s) nome) as [brutos |] eqn:Ec.
  - destruct (expandir_inv _ _ _ _ _ Ec H) as (_ & _ & _ & _ & F & _). now apply F.
  - rewrite (expandir_ausente _ _ _ Ec) in H. now inversion H.
Qed.

(** After the expansion the nested column is gone. *)
Lemma expandir_remove (nome : string) (mapa : list (string * list string))
    (s s' : estado) :
  Processamento._expandir_colunas nome mapa s = (Retornou tt, s') ->
  coluna (dataframe s') nome = None.
Proof.
  intros H. destruct (coluna (dataframe s) nome) as [brutos |] eqn:Ec.
  - now destruct (expandir_inv _ _ _ _ _ Ec H) as (_ & _ & _ & R & _).
  - rewrite (expandir_ausente _ _ _ Ec) in H. inversion H; subst. assumption.
Qed.

(** The five steps of a run that returns. *)
Lemma processar_inv (s s' : estado) (df' : DataFrame) :
  Processamento.processar_dataframe s = (Retornou df', s') ->
  exists s1 s2 s3 s4,
    Processamento._expandir_colunas "compra" Processamento.mapa_compra s
    = (Retornou tt, s1)
    /\ Processamento._expandir_colunas "unidadeGestora"
         Processamento.mapa_unidadeGestora s1 = (Retornou tt, s2)
    /\ Processamento._expandir_colunas "fornecedor"
         Processamento.mapa_fornecedor s2 = (Retornou tt, s3)
    /\ Processamento._expandir_colunas "unidadeGestoraCompras"
         Processamento.mapa_unidadeGestoraCompras s3 = (Retornou tt, s4)
    /\ Processamento._formatar_valores_brasileiros Processamento.colunas_de_valor s4
       = (Retornou tt, s')
    /\ df' = dataframe s'.
Proof.
  unfold Processamento.processar_dataframe. intros H.
  apply bind_inv in H as ([] & s1 & H1 & H).
  apply bind_inv in H as ([] & s2 & H2 & H).
  apply bind_inv in H as ([] & s3 & H3 & H).
  apply bind_inv in H as ([] & s4 & H4 & H).
  apply bind_inv in H as ([] & s5 & H5 & H).
  unfold ler_df in H. inversion H; subst.
  exists s1, s2, s3, s4. repeat split; assumption.
Qed.

Lemma expandir_frame_tocadas (nome : string) (mapa : list (string * list string))
    (s s' : estado) (c : string) :
  Processamento._expandir_colunas nome mapa s = (Retornou tt, s') ->
  ~ In c (tocadas nome mapa) ->
  coluna (dataframe s') c = coluna (dataframe s) c.
Proof.
  intros H Hn. unfold tocadas in Hn. cbn [In] in Hn.
  apply (expandir_frame _ _ _ _ H); intuition.
Qed.

(** The steps after the expansion of [compra] keep the columns they do not
    touch. *)
Lemma depois_de_compra_preserva (s1 s2 s3 s4 s' : estado) (c : string) :
  Processamento._expandir_colunas "unidadeGestora"
    Processamento.mapa_unidadeGestora s1 = (Retornou tt, s2) ->
  Processamento._expandir_colunas "fornecedor"
    Processamento.mapa_fornecedor s2 = (Retornou tt, s3) ->
  Processamento._expandir_colunas "unidadeGestoraCompras"
    Processamento.mapa_unidadeGestoraCompras s3 = (Retornou tt, s4) ->
  Processamento._formatar_valores_brasileiros Processamento.colunas_de_valor s4
  = (Retornou tt, s') ->
  ~ In c tocadas_depois_de_compra ->
  coluna (dataframe s') c = coluna (dataframe s1) c.
Proof.
  intros H2 H3 H4 H5 Hn. unfold tocadas_depois_de_compra in Hn.
  rewrite !in_app_iff in Hn.
  destruct (formatar_inv _ _ _ H5) as (F & _). rewrite F by tauto.
  rewrite (expandir_frame_tocadas _ _ _ _ c H4) by tauto.
  rewrite (expandir_frame_tocadas _ _ _ _ c H3) by tauto.
  apply (expandir_frame_tocadas _ _ _ _ c H2). tauto.
Qed.

(** Row [i] of a column the expansion has written. *)
Lemma expandir_celula (nome : string) (mapa : list (string * list string))
    (s s' : estado) (i : nat) (bruto : pyval) :
  Processamento._expandir_colunas nome mapa s = (Retornou tt, s') ->
  celula (dataframe s) nome i = Some bruto ->
  NoDup (map fst mapa) -> ~ In nome (map fst mapa) ->
  ~ In (nome_dict nome) (map fst mapa) ->
  exists d d',
    parse_puro bruto = Retornou d
    /\ coagido d d'
    /\ (forall ev, In ev (avisos bruto) -> In ev (eventos s'))
    /\ forall nova chaves, In (nova, chaves) mapa ->
         exists v v', Processamento.extrair chaves d' = Retornou v
                      /\ coagido v v'
                      /\ celula (dataframe s') nova i = Some v'.
Proof.
  intros H Hc Hnd Hn1 Hn2. unfold celula in Hc.
  destruct (coluna (dataframe s) nome) as [brutos |] eqn:Ec; [| discriminate].
  destruct (expandir_inv _ _ _ _ _ Ec H) as (dicts & Hm & Ev & _ & _ & P).
  destruct (aplicar_nth _ _ _ Hm) as (_ & Hnth).
  destruct (Hnth i bruto Hc) as (d & d' & Hd & Hcd & Hi).
  exists d, d'. split; [assumption |]. split; [assumption |]. split.
  - intros ev Hev. rewrite Ev. apply in_or_app. right.
    apply in_flat_map. exists bruto. split; [| assumption].
    eapply nth_error_In; eauto.
  - intros nova chaves Hin.
    destruct (P Hnd Hn1 Hn2 nova chaves Hin) as (vals & Hv & Hm').
    destruct (aplicar_nth _ _ _ Hm') as (_ & Hnth').
    destruct (Hnth' i d' Hi) as (v & v' & Hx & Hcv & Hvi).
    exists v, v'. split; [assumption |]. split; [assumption |].
    unfold celula. now rewrite Hv.
Qed.

Lemma mapa_compra_bem_formado :
  NoDup (map fst Processamento.mapa_compra)
  /\ ~ In "compra" (map fst Processamento.mapa_compra)
  /\ ~ In (nome_dict "compra") (map fst Processamento.mapa_compra).
Proof.
  split; [repeat constructor; cbn; intuition discriminate |].
  split; cbn; intuition discriminate.
Qed.

(** C3, as the code has it: a [compra] cell that holds the text
    {'numero': '123', 'objeto': 'X'} gives, on its row, "123" in the column
    [codNumCompra] and "X" in the column [objeto_Compra] (the columns are
    not named [numero] and [objeto]), and the table that [process] returns
    has no [compra] column. *)
Theorem compra_achatada (s s' : estado) (df' : DataFrame) (i : nat) :
  celula (dataframe s) "compra" i = Some (PyStr "{'numero': '123', 'objeto': 'X'}") ->
  Processamento.processar_dataframe s = (Retornou df', s') ->
  celula df' "codNumCompra" i = Some (PyStr "123")
  /\ celula df' "objeto_Compra" i = Some (PyStr "X")
  /\ tem_coluna df' "compra" = false
  /\ dataframe s' = df'.
Proof.
  intros Hc H.
  destruct (processar_inv _ _ _ H) as (s1 & s2 & s3 & s4 & H1 & H2 & H3 & H4 & H5 & ->).
  destruct mapa_compra_bem_formado as (Hnd & Hn1 & Hn2).
  destruct (expandir_celula _ _ _ _ _ _ H1 Hc Hnd Hn1 Hn2)
    as (d & d' & Hd & Hcd & _ & Hm).
  vm_compute in Hd. inversion Hd; subst d; clear Hd.
  apply coagido_dict in Hcd. subst d'.
  pose proof (depois_de_compra_preserva s1 s2 s3 s4 s') as Fr.
  split; [| split; [| split; [| reflexivity]]].
  - destruct (Hm "codNumCompra" ["numero"]) as (v & v' & Hv & Hcv & Hcel);
      [cbn; auto |].
    vm_compute in Hv. inversion Hv; subst v. apply coagido_texto in Hcv. subst v'.
    unfold celula in *.
    rewrite (Fr "codNumCompra" H2 H3 H4 H5); [assumption |].
    cbn. intuition discriminate.
  - destruct (Hm "objeto_Compra" ["objeto"]) as (v & v' & Hv & Hcv & Hcel);
      [cbn; auto |].
    vm_compute in Hv. inversion Hv; subst v. apply coagido_texto in Hcv. subst v'.
    unfold celula in *.
    rewrite (Fr "objeto_Compra" H2 H3 H4 H5); [assumption |].
    cbn. intuition discriminate.
  - apply tem_coluna_ausente.
    rewrite (Fr "compra" H2 H3 H4 H5); [| cbn; intuition discriminate].
    apply (expandir_remove _ _ _ _ H1).
Qed.

(** The table with one such [compra] cell. *)
Lemma compra_achatada_exemplo :
  exists df' s',
    Processamento.processar_dataframe (estado_com tabela_compra) = (Retornou df', s')
    /\ celula df' "codNumCompra" 0 = Some (PyStr "123")
    /\ celula df' "objeto_Compra" 0 = Some (PyStr "X")
    /\ tem_coluna df' "compra" = false.
Proof.
  do 2 eexists. split; [vm_compute; reflexivity |].
  destruct (compra_achatada (estado_com tabela_compra) _ _ 0%nat eq_refl eq_refl)
    as (A & B & C & _).
  repeat split; assumption.
Defined.

(** C3, as stated, fails: after [process] the table has no column [numero]
    and no column [objeto]. *)
Lemma compra_sem_colunas_numero_objeto :
  celula tabela_compra "compra" 0 = Some (PyStr "{'numero': '123', 'objeto': 'X'}")
  /\ exists df' s',
       Processamento.processar_dataframe (estado_com tabela_compra) = (Retornou df', s')
       /\ tem_coluna df' "numero" = false
       /\ tem_coluna df' "objeto" = false
       /\ celula df' "numero" 0 = None
       /\ celula df' "objeto" 0 = None.
Proof.
  split; [reflexivity |]. do 2 eexists. split; [vm_compute; reflexivity |].
  repeat split.
Qed.




(** ** Running [processar_dataframe] again *)

(** A run that returns leaves a processed table. *)
Lemma processar_produz_processada (s s' : estado) (df' : DataFrame) :
  Processamento.processar_dataframe s = (Retornou df', s') ->
  processada df' /\ dataframe s' = df'.
Proof.
  intros H.
  destruct (processar_inv _ _ _ H) as (s1 & s2 & s3 & s4 & H1 & H2 & H3 & H4 & H5 & ->).
  split; [| reflexivity]. destruct (formatar_inv _ _ _ H5) as (F & A & P). split.
  - intros c Hc. cbn in Hc.
    destruct Hc as [<- | [<- | [<- | [<- | []]]]].
    + rewrite (depois_de_compra_preserva s1 s2 s3 s4 s' "compra" H2 H3 H4 H5)
        by (cbn; intuition discriminate).
      apply (expandir_remove _ _ _ _ H1).
    + rewrite F by (cbn; intuition discriminate).
      rewrite (expandir_frame_tocadas _ _ _ _ "unidadeGestora" H4)
        by (cbn; intuition discriminate).
      rewrite (expandir_frame_tocadas _ _ _ _ "unidadeGestora" H3)
        by (cbn; intuition discriminate).
      apply (expandir_remove _ _ _ _ H2).
    + rewrite F by (cbn; intuition discriminate).
      rewrite (expandir_frame_tocadas _ _ _ _ "fornecedor" H4)
        by (cbn; intuition discriminate).
      apply (expandir_remove _ _ _ _ H3).
    + rewrite F by (cbn; intuition discriminate).
      apply (expandir_remove _ _ _ _ H4).
  - intros c vs v Hc Hvs Hv.
    destruct (coluna (dataframe s4) c) as [antes |] eqn:E4.
    + destruct (P NoDup_colunas_de_valor c antes Hc E4) as (novos & En & Hm).
      rewrite En in Hvs. inversion Hvs; subst novos.
      apply (mapR_formato_texto _ _ Hm v Hv).
    + rewrite (A c E4) in Hvs. discriminate.
Qed.

(** On a table without the nested columns the four expansions do nothing. *)
Lemma processar_sem_aninhadas (s : estado) :
  (forall c, In c colunas_aninhadas -> coluna (dataframe s) c = None) ->
  Processamento.processar_dataframe s
  = bind (Processamento._formatar_valores_brasileiros Processamento.colunas_de_valor)
         (fun _ => ler_df) s.
Proof.
  intros Ha. unfold Processamento.processar_dataframe.
  rewrite (bind_retornou _ _ s tt s)
    by (apply expandir_ausente, Ha; cbn; auto).
  rewrite (bind_retornou _ _ s tt s)
    by (apply expandir_ausente, Ha; cbn; auto).
  rewrite (bind_retornou _ _ s tt s)
    by (apply expandir_ausente, Ha; cbn; auto).
  rewrite (bind_retornou _ _ s tt s)
    by (apply expandir_ausente, Ha; cbn; auto).
  reflexivity.
Qed.

(** Reformatting columns of text: nothing happens when they have no row,
    and the first cell met raises [ValueError]; either way the table is
    left as it was. *)
Lemma formatar_texto (colunas : list string) :
  forall s,
    (forall c vs v, In c colunas -> coluna (dataframe s) c = Some vs -> In v vs ->
                    exists t, v = PyStr t) ->
    ((forall c, In c colunas ->
        coluna (dataframe s) c = None \/ coluna (dataframe s) c = Some []) ->
     exists s', Processamento._formatar_valores_brasileiros colunas s = (Retornou tt, s')
                /\ dataframe s' = dataframe s) /\
    ((exists c v vs, In c colunas /\ coluna (dataframe s) c = Some (v :: vs)) ->
     exists s', Processamento._formatar_valores_brasileiros colunas s
                = (Levantou ValueError, s')
                /\ dataframe s' = dataframe s).
Proof.
  induction colunas as [| c resto IH]; intros s Ht.
  - split.
    + intros _. exists s. split; reflexivity.
    + intros (c & v & vs & [] & _).
  - assert (Hresto : forall s1, dataframe s1 = dataframe s ->
              forall c' vs v, In c' resto -> coluna (dataframe s1) c' = Some vs ->
                              In v vs -> exists t, v = PyStr t).
    { intros s1 E c' vs v Hin Hc Hv. rewrite E in Hc.
      apply (Ht c' vs v (or_intror Hin) Hc Hv). }
    destruct (coluna (dataframe s) c) as [[| v0 vs0] |] eqn:Ec.
    + (* present, no row *)
      rewrite (formatar_cons_presente _ _ _ _ Ec). cbn [mapR].
      assert (Ed : dataframe (apos_formatar s c []) = dataframe s).
      { cbn [apos_formatar dataframe]. now apply atribuir_mesmo. }
      destruct (IH (apos_formatar s c []) (Hresto _ Ed)) as [Hok Hraise]. split.
      * intros Hv. destruct Hok as (s' & E & D).
        { intros c' Hc'. rewrite Ed. apply Hv. now right. }
        exists s'. split; [assumption | congruence].
      * intros (c' & v & vs & [<- | Hin] & Hc'); [congruence |].
        destruct Hraise as (s' & E & D).
        { exists c', v, vs. split; [assumption | now rewrite Ed]. }
        exists s'. split; [assumption | congruence].
    + (* present, a first cell of text *)
      rewrite (formatar_cons_presente _ _ _ _ Ec).
      destruct (Ht c (v0 :: vs0) v0 (or_introl eq_refl) Ec (or_introl eq_refl))
        as (t & ->).
      cbn [mapR formato_brasileiro formatar_2f]. split.
      * intros Hv. destruct (Hv c (or_introl eq_refl)); congruence.
      * intros _. exists s. split; reflexivity.
    + (* absent *)
      rewrite (formatar_cons_ausente _ _ _ Ec).
      destruct (IH s (Hresto s eq_refl)) as [Hok Hraise]. split.
      * intros Hv. apply Hok. intros c' Hc'. apply Hv. now right.
      * intros (c' & v & vs & [<- | Hin] & Hc'); [congruence |].
        apply Hraise. exists c', v, vs. split; assumption.
Qed.

(** C5, as the code has it: on a processed table a second [process] leaves
    the table as it is; it returns it when neither value column has a row,
    and raises [ValueError] on the first cell of text when one has. *)
Theorem processar_de_novo (s : estado) :
  processada (dataframe s) ->
  ((forall c, In c Processamento.colunas_de_valor ->
      coluna (dataframe s) c = None \/ coluna (dataframe s) c = Some []) ->
   exists s', Processamento.processar_dataframe s = (Retornou (dataframe s), s')
              /\ dataframe s' = dataframe s) /\
  ((exists c v vs, In c Processamento.colunas_de_valor
                   /\ coluna (dataframe s) c = Some (v :: vs)) ->
   exists s', Processamento.processar_dataframe s = (Levantou ValueError, s')
              /\ dataframe s' = dataframe s).
Proof.
  intros [Ha Ht]. rewrite (processar_sem_aninhadas s Ha).
  destruct (formatar_texto Processamento.colunas_de_valor s Ht) as [Hok Hraise].
  split.
  - intros Hv. destruct (Hok Hv) as (s' & E & D). exists s'.
    rewrite (bind_retornou _ _ _ _ _ E). unfold ler_df. rewrite D.
    split; reflexivity.
  - intros Hv. destruct (Hraise Hv) as (s' & E & D). exists s'.
    rewrite (bind_levantou _ _ _ _ _ E). split; [reflexivity | assumption].
Qed.

(** A table without value columns, processed twice. *)
Lemma processar_duas_vezes_sem_valores :
  exists df1 s1 s2,
    Processamento.processar_dataframe (estado_com tabela_sem_valores)
    = (Retornou df1, s1)
    /\ Processamento.processar_dataframe s1 = (Retornou df1, s2)
    /\ dataframe s2 = df1.
Proof.
  assert (E : Processamento.processar_dataframe (estado_com tabela_sem_valores)
              = (Retornou (dataframe (snd (Processamento.processar_dataframe
                                             (estado_com tabela_sem_valores)))),
                 snd (Processamento.processar_dataframe
                        (estado_com tabela_sem_valores))))
    by (vm_compute; reflexivity).
  destruct (processar_produz_processada _ _ _ E) as [Hp _].
  destruct (processar_de_novo _ Hp) as [Hok _].
  destruct Hok as (s2 & E2 & D2).
  - intros c [<- | [<- | []]]; left; vm_compute; reflexivity.
  - do 3 eexists. split; [exact E |]. split; [exact E2 | exact D2].
Defined.

(** C5, as stated, fails: a table with a nested column and a value column
    is processed once; processing the result again raises [ValueError]. *)
Lemma segunda_execucao_levanta :
  exists df1 s1,
    Processamento.processar_dataframe (estado_com tabela_bruta) = (Retornou df1, s1)
    /\ dataframe s1 = df1
    /\ (forall c, In c colunas_aninhadas -> tem_coluna df1 c = false)
    /\ coluna df1 "valorInicialCompra" = Some [PyStr "0,50"]
    /\ fst (Processamento.processar_dataframe s1) = Levantou ValueError.
Proof.
  do 2 eexists. split; [vm_compute; reflexivity |]. split; [reflexivity |].
  split; [| split; [vm_compute; reflexivity | vm_compute; reflexivity]].
  intros c [<- | [<- | [<- | [<- | []]]]]; vm_compute; reflexivity.
Qed.

(** ** A whole run *)

(** Two contracts on page 1 and a 404 on page 2: two rows, the nested
    fields flattened, the values as text; the contract without a final
    value gets the text nan there, and the supplier id, an int on one row
    and missing on the other, is a column of floats. *)
Lemma execucao_completa :
  exists df s',
    buscar_e_processar (mundo_de None paginas_exemplo) buscador_exemplo 2
      estado_inicial = (Retornou df, s')
    /\ n_linhas df = 2%nat
    /\ coluna df "codNumCompra" = Some [PyStr "123"; PyNone]
    /\ coluna df "orgaoVinculado_sigla" = Some [PyStr "IBAMA"; PyNone]
    /\ coluna df "id_fornecedor" = Some [PyFloat 5; PyFloat nan]
    /\ coluna df "valorInicialCompra" = Some [PyStr "1.000,50"; PyStr "3,00"]
    /\ coluna df "valorFinalCompra" = Some [PyStr "2.000,00"; PyStr "nan"]
    /\ registros (eventos s')
       = [(INFO, DadosRecebidos "/contratos");
          (ERROR, ErroAcessoAPI (ErroStatus 404) "/contratos");
          (WARNING, ErroAnaliseDicionario);
          (WARNING, ErroAnaliseDicionario);
          (INFO, ColunaFormatada "valorInicialCompra");
          (INFO, ColunaFormatada "valorFinalCompra")].
Proof.
  do 2 eexists. split; [vm_compute; reflexivity |].
  repeat split; vm_compute; reflexivity.
Qed.

(** * Further properties *)

(** ** The fetch loop on any server *)

Lemma dormidas_app (a b : list evento) :
  dormidas (a ++ b) = dormidas a ++ dormidas b.
Proof. apply flat_map_app. Qed.

Lemma dormidas_registro (r : resposta_http) (endpoint : string) :
  dormidas (registro_de r endpoint) = [].
Proof.
  destruct r as [| st c]; cbn; [reflexivity |].
  destruct (ClienteAPI.raise_for_status st); [reflexivity |].
  destruct c; reflexivity.
Qed.

Lemma rodada_desloca (w : mundo) (self : BuscadorContrato.t) (l0 : nat) (p : Z)
    (i : nat) :
  rodada w self (S l0) (p + 1) i = rodada w self l0 p (S i).
Proof.
  unfold rodada.
  replace (p + 1 + Z.of_nat i) with (p + Z.of_nat (S i)) by lia.
  replace (S l0 + i)%nat with (l0 + S i)%nat by lia.
  reflexivity.
Qed.

Lemma rodadas_desloca (w : mundo) (self : BuscadorContrato.t) (l0 : nat) (p : Z)
    (n : nat) :
  flat_map (rodada w self (S l0) (p + 1)) (seq 0 n)
  = flat_map (rodada w self l0 p) (seq 1 n).
Proof.
  rewrite <- seq_shift, !flat_map_concat_map, map_map. f_equal.
  apply map_ext. intros i. apply rodada_desloca.
Qed.

Lemma iterar_levanta (v : pyval) (e : excecao) :
  iterar v = Levantou e -> e = TypeError.
Proof. destruct v; cbn; intros H; try discriminate; now inversion H. Qed.

Lemma iterar_definido (v : pyval) (m : motivo) : iterar v <> Indefinido m.
Proof. destruct v; cbn; discriminate. Qed.

(** The loop from any state, on any server: after [n] iterations it has
    stopped on a falsy page, raised on a page that cannot be iterated, or
    used up its bound. *)
Lemma laco_geral (w : mundo) (self : BuscadorContrato.t) :
  forall combustivel p acc s,
    exists n,
      (n <= combustivel)%nat
      /\ snd (BuscadorContrato.laco w self combustivel p acc s)
         = apos_rodadas w self s p n
      /\ (forall i, (S i < n)%nat ->
            truthy (pagina w self (p + Z.of_nat i)) = true
            /\ exists itens, iterar (pagina w self (p + Z.of_nat i)) = Retornou itens)
      /\ match fst (BuscadorContrato.laco w self combustivel p acc s) with
         | Retornou todos =>
             (0 < n)%nat
             /\ truthy (pagina w self (p + Z.of_nat (n - 1))) = false
             /\ todos = acc ++ List.concat
                                 (map (fun i => itens_de (pagina w self (p + Z.of_nat i)))
                                      (seq 0 (n - 1)))
         | Levantou e =>
             (0 < n)%nat
             /\ e = TypeError
             /\ truthy (pagina w self (p + Z.of_nat (n - 1))) = true
             /\ iterar (pagina w self (p + Z.of_nat (n - 1))) = Levantou TypeError
         | Indefinido m =>
             m = SemCombustivel /\ n = combustivel
             /\ forall i, (i < n)%nat ->
                   truthy (pagina w self (p + Z.of_nat i)) = true
                   /\ exists itens,
                        iterar (pagina w self (p + Z.of_nat i)) = Retornou itens
         end.
Proof.
  intros combustivel. induction combustivel as [| c IH]; intros p acc s.
  - exists 0%nat. split; [lia |]. split.
    { unfold apos_rodadas. cbn. rewrite Nat.add_0_r, app_nil_r. now destruct s. }
    split; [intros i Hlt; lia |].
    cbn. split; [reflexivity |]. split; [reflexivity |]. intros i Hlt. lia.
  - cbn [BuscadorContrato.laco].
    erewrite bind_retornou by apply get_eq.
    fold (requisicao_pagina self p). fold (pagina w self p).
    set (s1 := {| leituras := S (leituras s); eventos := _; dataframe := dataframe s |}).
    assert (Hs1 : s1 = apos_rodadas w self s p 1).
    { unfold s1, apos_rodadas, rodada. cbn [seq flat_map].
      change (Z.of_nat 0) with 0.
      rewrite app_nil_r, Z.add_0_r, !Nat.add_0_r, Nat.add_1_r. reflexivity. }
    destruct (truthy (pagina w self p)) eqn:Ht; cbn [negb].
    + destruct (iterar (pagina w self p)) as [itens | e | m] eqn:Hi.
      * erewrite bind_retornou by (unfold lift; reflexivity).
        destruct (IH (p + 1) (acc ++ itens) s1) as (n & Hn & Hs & Hv & Hr).
        exists (S n). split; [lia |]. split; [| split].
        -- rewrite Hs. unfold apos_rodadas, s1. cbn [leituras eventos dataframe].
           f_equal; [lia |].
           rewrite <- app_assoc. f_equal.
           cbn [seq flat_map]. rewrite rodadas_desloca.
           f_equal. unfold rodada. change (Z.of_nat 0) with 0.
           rewrite Z.add_0_r, Nat.add_0_r. reflexivity.
        -- intros [| i] Hlt.
           ++ rewrite Z.add_0_r. split; [exact Ht | now exists itens].
           ++ replace (p + Z.of_nat (S i)) with (p + 1 + Z.of_nat i) by lia.
              apply Hv. lia.
        -- destruct (fst (BuscadorContrato.laco w self c (p + 1) (acc ++ itens) s1))
             as [todos | e | m].
           ++ destruct Hr as (Hpos & Hf & Ht').
              split; [lia |]. split.
              ** replace (p + Z.of_nat (S n - 1)) with (p + 1 + Z.of_nat (n - 1)) by lia.
                 exact Hf.
              ** rewrite Ht', <- app_assoc. f_equal.
                 replace (S n - 1)%nat with (S (n - 1)) by lia.
                 cbn [seq map List.concat]. rewrite Z.add_0_r.
                 unfold itens_de at 2. rewrite Hi. f_equal. f_equal.
                 rewrite <- seq_shift, map_map. apply map_ext.
                 intros i. f_equal. f_equal. lia.
           ++ destruct Hr as (Hpos & He & Ht' & Hi').
              replace (p + Z.of_nat (S n - 1)) with (p + 1 + Z.of_nat (n - 1)) by lia.
              repeat split; try assumption. lia.
           ++ destruct Hr as (Hm & Hc & Hall).
              split; [exact Hm |]. split; [lia |].
              intros [| i] Hlt.
              ** rewrite Z.add_0_r. split; [exact Ht | now exists itens].
              ** replace (p + Z.of_nat (S i)) with (p + 1 + Z.of_nat i) by lia.
                 apply Hall. lia.
      * erewrite bind_levantou by (unfold lift; reflexivity).
        exists 1%nat. cbn [fst snd]. split; [lia |]. split; [exact Hs1 |].
        split; [intros i Hlt; lia |].
        cbn [Nat.sub]. rewrite Z.add_0_r.
        pose proof (iterar_levanta _ _ Hi) as ->. repeat split; try assumption. lia.
      * now apply iterar_definido in Hi.
    + cbn [fst snd ret]. exists 1%nat. split; [lia |]. split; [exact Hs1 |].
      split; [intros i Hlt; lia |].
      cbn [Nat.sub seq map List.concat]. rewrite Z.add_0_r, app_nil_r.
      repeat split; try assumption. lia.
Qed.

Lemma requisicoes_rodadas (w : mundo) (self : BuscadorContrato.t) (l0 : nat) (p : Z)
    (n : nat) :
  requisicoes (flat_map (rodada w self l0 p) (seq 0 n))
  = map (requisicao_pagina self) (seqZ p n).
Proof.
  unfold seqZ. generalize 0%nat as k. induction n as [| n IH]; intros k.
  - reflexivity.
  - cbn [seq flat_map map]. rewrite requisicoes_app, IH.
    unfold rodada at 1. unfold requisicoes at 1. cbn [flat_map app].
    fold (requisicoes (registro_de (servidor w (requisicao_pagina self (p + Z.of_nat k)))
                         "/contratos")).
    rewrite requisicoes_registro. reflexivity.
Qed.

Lemma dormidas_rodadas (w : mundo) (self : BuscadorContrato.t) (l0 : nat) (p : Z)
    (n : nat) :
  dormidas (flat_map (rodada w self l0 p) (seq 0 n))
  = map (atraso_da_rodada w l0) (seq 0 n).
Proof.
  generalize 0%nat as k. induction n as [| n IH]; intros k.
  - reflexivity.
  - cbn [seq flat_map map]. rewrite dormidas_app, IH.
    unfold rodada at 1. unfold dormidas at 1. cbn [flat_map app].
    fold (dormidas (registro_de (servidor w (requisicao_pagina self (p + Z.of_nat k)))
                      "/contratos")).
    rewrite dormidas_registro. reflexivity.
Qed.

Lemma atraso_sem_restricao (h : Z) :
  ClienteAPI.atraso (ClienteAPI.max_requisicoes false h) = (60 / 700)%float
  \/ ClienteAPI.atraso (ClienteAPI.max_requisicoes false h) = (60 / 400)%float.
Proof.
  unfold ClienteAPI.max_requisicoes.
  destruct ((0 <=? h) && (h <? 6)); [left | right]; vm_compute; reflexivity.
Qed.

Lemma inferir_nao_levanta (l : list pyval) (e : excecao) : inferir l <> Levantou e.
Proof.
  unfold inferir. destruct (existsb int_enorme l); [discriminate |].
  destruct (forallb numero_ou_nulo l
            && (existsb eh_float l || existsb eh_none l && existsb eh_int l));
    [| discriminate].
  destruct (existsb int_fora_de_int64 l); discriminate.
Qed.

Lemma montar_colunas_nao_levanta (regs : list (list (string * pyval)))
    (ks : list string) (e : excecao) :
  montar_colunas regs ks <> Levantou e.
Proof.
  induction ks as [| k r IH]; cbn [montar_colunas]; [discriminate |].
  destruct (inferir (map (fun reg => valor_em reg k) regs)) as [vs | e' | m] eqn:E.
  - destruct (montar_colunas regs r) as [cs | e'' | m']; try discriminate.
    intros H. inversion H; subst. now apply IH.
  - now apply inferir_nao_levanta in E.
  - discriminate.
Qed.

Lemma pd_DataFrame_nao_levanta (dados : list pyval) (e : excecao) :
  pd_DataFrame dados <> Levantou e.
Proof.
  unfold pd_DataFrame. destruct (como_registros dados) as [regs |]; [| discriminate].
  destruct (montar_colunas regs (nomes_colunas regs)) as [cs | e' | m] eqn:E;
    try discriminate.
  now apply montar_colunas_nao_levanta in E.
Qed.

(** [buscar_contratos] in terms of its loop. *)
Lemma buscar_contratos_casos (w : mundo) (self : BuscadorContrato.t)
    (combustivel : nat) (s : estado) :
  let l := BuscadorContrato.laco w self combustivel
             (BuscadorContrato.pagina_inicial self) [] s in
  BuscadorContrato.buscar_contratos w self combustivel s
  = match fst l with
    | Retornou todos =>
        match pd_DataFrame todos with
        | Retornou df => (Retornou df, com_dataframe (snd l) df)
        | Levantou e => (Levantou e, snd l)
        | Indefinido m => (Indefinido m, snd l)
        end
    | Levantou e => (Levantou e, snd l)
    | Indefinido m => (Indefinido m, snd l)
    end.
Proof.
  intros l. unfold BuscadorContrato.buscar_contratos, bind. fold l.
  destruct l as [[todos | e | m] s1]; cbn [fst snd]; try reflexivity.
Qed.

(** The state [buscar_contratos] leaves differs from the state of its loop
    in the table only. *)
Lemma buscar_contratos_estado (w : mundo) (self : BuscadorContrato.t)
    (combustivel : nat) (s : estado) :
  let l := BuscadorContrato.laco w self combustivel
             (BuscadorContrato.pagina_inicial self) [] s in
  let saida := BuscadorContrato.buscar_contratos w self combustivel s in
  leituras (snd saida) = leituras (snd l)
  /\ eventos (snd saida) = eventos (snd l)
  /\ match fst saida with
     | Retornou df => dataframe (snd saida) = df
     | _ => dataframe (snd saida) = dataframe (snd l)
     end.
Proof.
  intros l saida. unfold saida. rewrite buscar_contratos_casos. fold l.
  destruct (fst l) as [todos | e | m]; cbn [fst snd]; try (repeat split; reflexivity).
  destruct (pd_DataFrame todos); cbn [fst snd]; repeat split; reflexivity.
Qed.

(** X1: whatever the server answers, a fetch sends its requests for the
    consecutive pages from [pagina_inicial], at most one per iteration
    allowed, each after one clock read and one sleep of the unrestricted
    delay (60/700 s or 60/400 s), and its trace holds nothing but these
    rounds of sleep, request and log records. *)
Theorem buscar_contratos_rastro (w : mundo) (self : BuscadorContrato.t)
    (combustivel : nat) (s : estado) :
  let p0 := BuscadorContrato.pagina_inicial self in
  let s' := snd (BuscadorContrato.buscar_contratos w self combustivel s) in
  exists n,
    (n <= combustivel)%nat
    /\ leituras s' = (leituras s + n)%nat
    /\ eventos s' = eventos s ++ flat_map (rodada w self (leituras s) p0) (seq 0 n)
    /\ requisicoes (eventos s')
       = requisicoes (eventos s) ++ map (requisicao_pagina self) (seqZ p0 n)
    /\ dormidas (eventos s')
       = dormidas (eventos s) ++ map (atraso_da_rodada w (leituras s)) (seq 0 n)
    /\ forall i, (i < n)%nat ->
         atraso_da_rodada w (leituras s) i = (60 / 700)%float
         \/ atraso_da_rodada w (leituras s) i = (60 / 400)%float.
Proof.
  intros p0 s'.
  destruct (buscar_contratos_estado w self combustivel s) as (HL & HE & _).
  destruct (laco_geral w self combustivel p0 [] s) as (n & Hn & Hs & _).
  fold p0 in HL, HE. fold s' in HL, HE. rewrite Hs in HL, HE.
  cbn [apos_rodadas leituras eventos] in HL, HE.
  exists n. split; [exact Hn |]. split; [exact HL |]. split; [exact HE |].
  split; [| split].
  - rewrite HE, requisicoes_app, requisicoes_rodadas. reflexivity.
  - rewrite HE, dormidas_app, dormidas_rodadas. reflexivity.
  - intros i _. apply atraso_sem_restricao.
Qed.

Lemma inferir_com_combustivel (l : list pyval) : inferir l <> Indefinido SemCombustivel.
Proof.
  unfold inferir. destruct (existsb int_enorme l); [discriminate |].
  destruct (forallb numero_ou_nulo l
            && (existsb eh_float l || existsb eh_none l && existsb eh_int l));
    [| discriminate].
  destruct (existsb int_fora_de_int64 l); discriminate.
Qed.

Lemma montar_colunas_com_combustivel (regs : list (list (string * pyval)))
    (ks : list string) :
  montar_colunas regs ks <> Indefinido SemCombustivel.
Proof.
  induction ks as [| k r IH]; cbn [montar_colunas]; [discriminate |].
  destruct (inferir (map (fun reg => valor_em reg k) regs)) as [vs | e' | m] eqn:E.
  - destruct (montar_colunas regs r) as [cs | e'' | m']; try discriminate.
    intros H. inversion H; subst. now apply IH.
  - discriminate.
  - intros H. inversion H; subst. now apply inferir_com_combustivel in E.
Qed.

(** X2: how a fetch can end, on any server.  It returns only after a
    falsy page, with the table of the items of the pages before, which is
    the one left in the fetcher.  Its loop raises only [TypeError], on a
    truthy page that cannot be iterated, and the table of the fetcher is
    then as it was, as it is when the bound on the iterations is used up.
    When the loop has ended and the items are not records of the modelled
    [pd.DataFrame] (where pandas may raise, or build another table), the
    model has no outcome and nothing is said of the table. *)
Theorem buscar_contratos_desfechos (w : mundo) (self : BuscadorContrato.t)
    (combustivel : nat) (s : estado) :
  let p0 := BuscadorContrato.pagina_inicial self in
  let saida := BuscadorContrato.buscar_contratos w self combustivel s in
  match fst saida with
  | Retornou df =>
      dataframe (snd saida) = df
      /\ exists n, parou w self combustivel n
                   /\ pd_DataFrame (itens_ate w self n) = Retornou df
  | Levantou e =>
      e = TypeError
      /\ dataframe (snd saida) = dataframe s
      /\ exists n,
           (n < combustivel)%nat
           /\ truthy (pagina w self (p0 + Z.of_nat n)) = true
           /\ iterar (pagina w self (p0 + Z.of_nat n)) = Levantou TypeError
  | Indefinido SemCombustivel =>
      dataframe (snd saida) = dataframe s
      /\ forall i, (i < combustivel)%nat ->
            truthy (pagina w self (p0 + Z.of_nat i)) = true
            /\ exists l, iterar (pagina w self (p0 + Z.of_nat i)) = Retornou l
  | Indefinido ForaDoModelo =>
      exists n, parou w self combustivel n
                /\ pd_DataFrame (itens_ate w self n) = Indefinido ForaDoModelo
  end.
Proof.
  intros p0 saida. unfold parou, itens_ate. fold p0.
  pose proof (buscar_contratos_casos w self combustivel s) as Hc.
  destruct (laco_geral w self combustivel p0 [] s) as (n & Hn & Hs & Hv & Hr).
  cbn zeta in Hc. fold p0 in Hc. fold saida in Hc.
  destruct (fst (BuscadorContrato.laco w self combustivel p0 [] s))
    as [todos | e | m] eqn:El.
  - destruct Hr as (Hpos & Hf & Ht). cbn [app] in Ht.
    assert (Hp : (n - 1 < combustivel)%nat
                 /\ truthy (pagina w self (p0 + Z.of_nat (n - 1))) = false
                 /\ forall i, (i < n - 1)%nat ->
                      truthy (pagina w self (p0 + Z.of_nat i)) = true).
    { split; [lia |]. split; [exact Hf |]. intros i Hi. apply Hv. lia. }
    destruct (pd_DataFrame todos) as [df | e | m] eqn:Ep; rewrite Hc; cbn [fst snd].
    + split; [reflexivity |]. exists (n - 1)%nat.
      split; [exact Hp |]. rewrite <- Ht. exact Ep.
    + now apply pd_DataFrame_nao_levanta in Ep.
    + destruct m.
      * exfalso. revert Ep. clear. unfold pd_DataFrame.
        destruct (como_registros todos) as [regs |]; [| discriminate].
        destruct (montar_colunas regs (nomes_colunas regs)) as [cs | e | m] eqn:Em;
          try discriminate.
        intros H. inversion H; subst m.
        now apply montar_colunas_com_combustivel in Em.
      * exists (n - 1)%nat. split; [exact Hp |]. rewrite <- Ht. exact Ep.
  - destruct Hr as (Hpos & -> & Ht & Hi). rewrite Hc. cbn [fst snd].
    split; [reflexivity |]. split; [rewrite Hs; reflexivity |].
    exists (n - 1)%nat. split; [lia |]. split; assumption.
  - destruct Hr as (-> & -> & Hall). rewrite Hc. cbn [fst snd].
    split; [rewrite Hs; reflexivity | exact Hall].
Qed.

(** X3: a page whose body is truthy but cannot be iterated (a number,
    [true]) aborts the fetch with [TypeError]: the records of the pages
    before it are lost and the table of the fetcher is not replaced. *)
Theorem buscar_contratos_nao_iteravel (w : mundo) (self : BuscadorContrato.t)
    (k combustivel : nat) (s : estado) :
  let p0 := BuscadorContrato.pagina_inicial self in
  (forall i, (i < k)%nat ->
     truthy (pagina w self (p0 + Z.of_nat i)) = true
     /\ exists itens, iterar (pagina w self (p0 + Z.of_nat i)) = Retornou itens) ->
  truthy (pagina w self (p0 + Z.of_nat k)) = true ->
  iterar (pagina w self (p0 + Z.of_nat k)) = Levantou TypeError ->
  (k < combustivel)%nat ->
  BuscadorContrato.buscar_contratos w self combustivel s
  = (Levantou TypeError, apos_rodadas w self s p0 (S k))
  /\ dataframe (apos_rodadas w self s p0 (S k)) = dataframe s
  /\ requisicoes (eventos (apos_rodadas w self s p0 (S k)))
     = requisicoes (eventos s) ++ map (requisicao_pagina self) (seqZ p0 (S k)).
Proof.
  intros p0 Hk Ht Hi Hc.
  split; [| split; [reflexivity |]].
  - rewrite buscar_contratos_casos. fold p0.
    destruct (laco_geral w self combustivel p0 [] s) as (n & Hn & Hs & Hv & Hr).
    destruct (fst (BuscadorContrato.laco w self combustivel p0 [] s))
      as [todos | e | m].
    + exfalso. destruct Hr as (Hpos & Hf & _).
      destruct (Nat.lt_trichotomy (n - 1) k) as [Hlt | [Heq | Hgt]].
      * destruct (Hk _ Hlt) as [Ht' _]. congruence.
      * rewrite Heq in Hf. congruence.
      * destruct (Hv k) as [_ [itens Hi']]; [lia | congruence].
    + destruct Hr as (Hpos & -> & Ht' & Hi').
      destruct (Nat.lt_trichotomy (n - 1) k) as [Hlt | [Heq | Hgt]].
      * exfalso. destruct (Hk _ Hlt) as [_ [itens Hi'']]. congruence.
      * rewrite Hs. replace (S k) with n by lia. reflexivity.
      * exfalso. destruct (Hv k) as [_ [itens Hi'']]; [lia | congruence].
    + exfalso. destruct Hr as (_ & -> & Hall).
      destruct (Hall k Hc) as [_ [itens Hi']]. congruence.
  - cbn [apos_rodadas eventos].
    rewrite requisicoes_app, requisicoes_rodadas. reflexivity.
Qed.

Lemma buscar_contratos_nao_iteravel_exemplo :
  BuscadorContrato.buscar_contratos (mundo_de None pagina_e_numero) buscador_exemplo 5
    estado_inicial
  = (Levantou TypeError,
     apos_rodadas (mundo_de None pagina_e_numero) buscador_exemplo estado_inicial 1 2)
  /\ dataframe (apos_rodadas (mundo_de None pagina_e_numero) buscador_exemplo
                  estado_inicial 1 2) = DataFrame_vazio.
Proof.
  destruct (buscar_contratos_nao_iteravel (mundo_de None pagina_e_numero)
              buscador_exemplo 1 5 estado_inicial) as (E & D & _).
  - intros [| i] Hi; [| lia]. split; [reflexivity | eexists; reflexivity].
  - reflexivity.
  - reflexivity.
  - lia.
  - split; [exact E | exact D].
Defined.

(** X4: the loop has no bound of its own: while every page has a body that
    is truthy and can be iterated, it asks for the next one. *)
Theorem buscar_contratos_sem_fim (w : mundo) (self : BuscadorContrato.t)
    (combustivel : nat) (s : estado) :
  let p0 := BuscadorContrato.pagina_inicial self in
  (forall i,
     truthy (pagina w self (p0 + Z.of_nat i)) = true
     /\ exists itens, iterar (pagina w self (p0 + Z.of_nat i)) = Retornou itens) ->
  BuscadorContrato.buscar_contratos w self combustivel s
  = (Indefinido SemCombustivel, apos_rodadas w self s p0 combustivel)
  /\ requisicoes (eventos (apos_rodadas w self s p0 combustivel))
     = requisicoes (eventos s) ++ map (requisicao_pagina self) (seqZ p0 combustivel)
  /\ List.length (requisicoes (eventos (apos_rodadas w self s p0 combustivel)))
     = (List.length (requisicoes (eventos s)) + combustivel)%nat.
Proof.
  intros p0 Hp.
  assert (R : requisicoes (eventos (apos_rodadas w self s p0 combustivel))
              = requisicoes (eventos s)
                ++ map (requisicao_pagina self) (seqZ p0 combustivel)).
  { cbn [apos_rodadas eventos]. rewrite requisicoes_app, requisicoes_rodadas.
    reflexivity. }
  split; [| split; [exact R |]].
  - rewrite buscar_contratos_casos. fold p0.
    destruct (laco_geral w self combustivel p0 [] s) as (n & Hn & Hs & Hv & Hr).
    destruct (fst (BuscadorContrato.laco w self combustivel p0 [] s))
      as [todos | e | m].
    + exfalso. destruct Hr as (_ & Hf & _).
      destruct (Hp (n - 1)%nat) as [Ht _]. congruence.
    + exfalso. destruct Hr as (_ & _ & _ & Hi).
      destruct (Hp (n - 1)%nat) as [_ [itens Hi']]. congruence.
    + destruct Hr as (-> & -> & _). rewrite Hs. reflexivity.
  - rewrite R, length_app, length_map, seqZ_length. reflexivity.
Qed.

Lemma buscar_contratos_sem_fim_exemplo :
  fst (BuscadorContrato.buscar_contratos (mundo_de None pagina_objeto) buscador_exemplo
         40 estado_inicial) = Indefinido SemCombustivel
  /\ List.length
       (requisicoes
          (eventos (apos_rodadas (mundo_de None pagina_objeto) buscador_exemplo
                      estado_inicial 1 40))) = 40%nat.
Proof.
  destruct (buscar_contratos_sem_fim (mundo_de None pagina_objeto) buscador_exemplo 40
              estado_inicial) as (E & _ & L).
  - intros i. split; [reflexivity | eexists; reflexivity].
  - split; [rewrite E; reflexivity | exact L].
Defined.

(** ** The credential of a client *)

Lemma linha_readline (s : string) : linha (readline s) = true.
Proof.
  induction s as [| c r IH]; [reflexivity |].
  cbn [readline]. destruct (Ascii.eqb c LF) eqn:E1; cbn [orb].
  - reflexivity.
  - destruct (Ascii.eqb c CR); [reflexivity |].
    cbn [linha]. rewrite E1. exact IH.
Qed.

Lemma linha_lstrip (s : string) : linha s = true -> linha (lstrip s) = true.
Proof.
  induction s as [| c r IH]; [reflexivity |].
  intros H. cbn [lstrip]. destruct (isspace c); [| exact H].
  apply IH. cbn [linha] in H. destruct (Ascii.eqb c LF); [| exact H].
  apply String.eqb_eq in H. subst r. reflexivity.
Qed.

Lemma isspace_LF : isspace LF = true.
Proof. reflexivity. Qed.

Lemma linha_rstrip (s : string) :
  linha s = true -> todos_chars (nao_eh LF) (rstrip s) = true.
Proof.
  induction s as [| c r IH]; [reflexivity |].
  intros H. cbn [linha] in H. cbn [rstrip].
  destruct (Ascii.eqb c LF) eqn:E.
  - apply String.eqb_eq in H. subst r. cbn [rstrip].
    apply Ascii.eqb_eq in E. subst c. rewrite isspace_LF. reflexivity.
  - specialize (IH H). destruct (rstrip r) as [| c' r'].
    + destruct (isspace c); [reflexivity |].
      cbn [todos_chars]. unfold nao_eh. rewrite E. reflexivity.
    + cbn [todos_chars] in *. unfold nao_eh at 1. rewrite E. exact IH.
Qed.

Lemma split_sem_sep (sep : ascii) (s x : string) :
  In x (split sep s) -> todos_chars (nao_eh sep) x = true.
Proof.
  revert x. induction s as [| c r IH]; intros x Hx.
  - cbn in Hx. destruct Hx as [<- | []]. reflexivity.
  - cbn [split] in Hx. destruct (Ascii.eqb c sep) eqn:E.
    + destruct Hx as [<- | Hx]; [reflexivity | now apply IH].
    + destruct (split sep r) as [| h t].
      * destruct Hx as [<- | []]. cbn [todos_chars]. unfold nao_eh. rewrite E.
        reflexivity.
      * destruct Hx as [<- | Hx].
        -- cbn [todos_chars]. unfold nao_eh at 1. rewrite E. cbn [negb andb].
           apply IH. now left.
        -- apply IH. now right.
Qed.

Lemma split_preserva (p : ascii -> bool) (sep : ascii) (s x : string) :
  todos_chars p s = true -> In x (split sep s) -> todos_chars p x = true.
Proof.
  revert x. induction s as [| c r IH]; intros x Hs Hx.
  - cbn in Hx. destruct Hx as [<- | []]. reflexivity.
  - cbn [todos_chars] in Hs. apply andb_true_iff in Hs. destruct Hs as [Hc Hr].
    cbn [split] in Hx. destruct (Ascii.eqb c sep).
    + destruct Hx as [<- | Hx]; [reflexivity | now apply IH].
    + destruct (split sep r) as [| h t].
      * destruct Hx as [<- | []]. cbn [todos_chars]. now rewrite Hc.
      * destruct Hx as [<- | Hx].
        -- cbn [todos_chars]. rewrite Hc. cbn [andb]. apply IH; [exact Hr | now left].
        -- apply IH; [exact Hr | now right].
Qed.

(** X5: the construction of a client either returns, logging nothing, a
    client with the given URL whose token is the second field of the first
    line of the key file, not empty, without [=] and without a line feed,
    and whose headers carry that token; or raises [ValueError], having sent
    nothing and logged at most the error of the key file (nothing when the
    second field is empty). *)
Theorem cliente_construido (w : mundo) (url_base : string) (s : estado) :
  match ClienteAPI.__init__ w url_base s with
  | (Retornou c, s') =>
      s' = s
      /\ ClienteAPI.url_base c = url_base
      /\ ClienteAPI.headers c
         = [("accept", "*/*"); ("chave-api-dados", ClienteAPI.token_api c)]
      /\ ClienteAPI.token_api c <> ""
      /\ todos_chars (nao_eh "=") (ClienteAPI.token_api c) = true
      /\ todos_chars (nao_eh LF) (ClienteAPI.token_api c) = true
      /\ exists texto,
           arquivo_chave w = Some texto
           /\ nth_error (split "=" (strip (readline texto))) 1
              = Some (ClienteAPI.token_api c)
  | (Levantou e, s') =>
      e = ValueError
      /\ leituras s' = leituras s
      /\ dataframe s' = dataframe s
      /\ requisicoes (eventos s') = requisicoes (eventos s)
      /\ ((eventos s' = eventos s
           /\ exists texto, arquivo_chave w = Some texto
                /\ nth_error (split "=" (strip (readline texto))) 1 = Some "")
          \/ eventos s' = eventos s ++ [Registrou ERROR ErroChaveAPI])
  | (Indefinido _, _) => False
  end.
Proof.
  unfold ClienteAPI.__init__, ClienteAPI._carregar_chave_api, logging, emitir, bind,
    ret, raise.
  destruct (arquivo_chave w) as [texto |] eqn:Ea.
  - destruct (nth_error (split "=" (strip (readline texto))) 1) as [chave |] eqn:En.
    + destruct (String.eqb chave "") eqn:Ev.
      * apply String.eqb_eq in Ev. subst chave.
        repeat split; try reflexivity. left. split; [reflexivity |].
        exists texto. split; [reflexivity | exact En].
      * cbn [ClienteAPI.url_base ClienteAPI.headers ClienteAPI.token_api].
        pose proof (nth_error_In _ _ En) as Hin.
        repeat split; try reflexivity.
        -- intros ->. discriminate.
        -- eapply split_sem_sep. exact Hin.
        -- eapply split_preserva; [| exact Hin].
           unfold strip. apply linha_rstrip, linha_lstrip, linha_readline.
        -- exists texto. split; [reflexivity | exact En].
    + cbn [leituras eventos dataframe].
      repeat split; try reflexivity.
      * rewrite requisicoes_app. cbn. now rewrite app_nil_r.
      * now right.
  - cbn [leituras eventos dataframe].
    repeat split; try reflexivity.
    + rewrite requisicoes_app. cbn. now rewrite app_nil_r.
    + now right.
Qed.

(** ** Processing, whatever its outcome *)

Lemma com_eventos_app (s : estado) (a b : list evento) :
  com_eventos (com_eventos s a) b = com_eventos s (a ++ b).
Proof. unfold com_eventos. cbn. now rewrite app_assoc. Qed.

Lemma avisos_falha (x : pyval) :
  (forall y, parse_puro x <> Retornou y) -> avisos x = [].
Proof.
  destruct x; cbn; intros H; try reflexivity.
  destruct (literal_eval s) as [v | e | m]; try reflexivity.
  destruct e; try reflexivity. exfalso. now apply (H (PyDict [])).
Qed.

Lemma mapM_parse_dict_geral (l : list pyval) (s : estado) :
  mapM Processamento._parse_dict l s
  = (mapR parse_puro l, com_eventos s (avisos_ate l)).
Proof.
  revert s. induction l as [| x r IH]; intros s; cbn [mapM mapR avisos_ate].
  - unfold ret. now rewrite com_eventos_nil.
  - unfold bind. rewrite _parse_dict_eq.
    destruct (parse_puro x) as [y | e | m] eqn:Ex.
    + rewrite IH, com_eventos_app.
      destruct (mapR parse_puro r); reflexivity.
    + rewrite avisos_falha, com_eventos_nil; [reflexivity |].
      intros y H. rewrite Ex in H. discriminate.
    + rewrite avisos_falha, com_eventos_nil; [reflexivity |].
      intros y H. rewrite Ex in H. discriminate.
Qed.

Lemma Series_apply_parse_dict_geral (l : list pyval) (s : estado) :
  Series_apply Processamento._parse_dict l s
  = (aplicar parse_puro l, com_eventos s (avisos_ate l)).
Proof.
  unfold Series_apply, aplicar, bind. rewrite mapM_parse_dict_geral.
  destruct (mapR parse_puro l); reflexivity.
Qed.

Lemma avisos_ate_total (l : list pyval) (l' : list pyval) :
  mapR parse_puro l = Retornou l' -> avisos_ate l = flat_map avisos l.
Proof.
  revert l'. induction l as [| x r IH]; intros l' H; [reflexivity |].
  cbn [mapR] in H. cbn [avisos_ate flat_map].
  destruct (parse_puro x); try discriminate.
  destruct (mapR parse_puro r) as [ys | |]; try discriminate.
  now rewrite (IH ys).
Qed.

(** The expansion of a column that is present, step by step. *)
Lemma expandir_casos (nome : string) (mapa : list (string * list string))
    (s : estado) (brutos : list pyval) :
  coluna (dataframe s) nome = Some brutos ->
  Processamento._expandir_colunas nome mapa s
  = match aplicar parse_puro brutos with
    | Retornou dicts =>
        match Processamento.mapear (nome_dict nome) mapa
                (com_dataframe (com_eventos s (avisos_ate brutos))
                   (atribuir (dataframe s) (nome_dict nome) dicts)) with
        | (Retornou _, s2) =>
            match drop (dataframe s2) [nome_dict nome; nome] with
            | Retornou df'' => (Retornou tt, com_dataframe s2 df'')
            | Levantou e => (Levantou e, s2)
            | Indefinido m => (Indefinido m, s2)
            end
        | (Levantou e, s2) => (Levantou e, s2)
        | (Indefinido m, s2) => (Indefinido m, s2)
        end
    | Levantou e => (Levantou e, com_eventos s (avisos_ate brutos))
    | Indefinido m => (Indefinido m, com_eventos s (avisos_ate brutos))
    end.
Proof.
  intros Hc. assert (Ht : tem_coluna (dataframe s) nome = true).
  { apply tem_coluna_coluna. eauto. }
  unfold Processamento._expandir_colunas. fold (nome_dict nome).
  unfold bind at 1. unfold ler_df at 1. rewrite Ht.
  unfold bind at 1. unfold Processamento.ler_coluna at 1.
  unfold bind at 1. unfold ler_df at 1. rewrite Hc. unfold ret at 1.
  unfold bind at 1. rewrite Series_apply_parse_dict_geral.
  destruct (aplicar parse_puro brutos) as [dicts | e | m]; try reflexivity.
Qed.

Section Invariante.

(** A property of the state that the steps of processing keep: the two
    log records, the assignment of a column as long as another, and the
    drop of columns. *)
Variable J : estado -> Prop.

Hypothesis J_registro :
  forall s e, J s -> registro_de_processamento e = true -> J (com_eventos s [e]).

Hypothesis J_atribuir :
  forall s c0 vs0 c vs,
    J s -> coluna (dataframe s) c0 = Some vs0 ->
    List.length vs = List.length vs0 ->
    J (com_dataframe s (atribuir (dataframe s) c vs)).

Hypothesis J_drop :
  forall s rotulos df',
    J s -> drop (dataframe s) rotulos = Retornou df' -> J (com_dataframe s df').

Lemma J_registros (evs : list evento) :
  forallb registro_de_processamento evs = true ->
  forall s, J s -> J (com_eventos s evs).
Proof.
  induction evs as [| e r IH]; intros He s Hs.
  - now rewrite com_eventos_nil.
  - cbn [forallb] in He. apply andb_true_iff in He. destruct He as [He Hr].
    change (e :: r) with ([e] ++ r). rewrite <- com_eventos_app.
    apply IH; [exact Hr |]. now apply J_registro.
Qed.

Lemma avisos_registro (x : pyval) : forallb registro_de_processamento (avisos x) = true.
Proof.
  destruct x; try reflexivity. cbn.
  destruct (literal_eval s) as [v | e | m]; try reflexivity.
  destruct e; reflexivity.
Qed.

Lemma avisos_ate_registro (l : list pyval) :
  forallb registro_de_processamento (avisos_ate l) = true.
Proof.
  induction l as [| x r IH]; [reflexivity |].
  cbn [avisos_ate]. destruct (parse_puro x); try reflexivity.
  rewrite forallb_app, avisos_registro, IH. reflexivity.
Qed.

Lemma mapear_mantem (nd : string) (mapa : list (string * list string)) :
  forall s, J s -> J (snd (Processamento.mapear nd mapa s)).
Proof.
  induction mapa as [| [nova chaves] resto IH]; intros s Hs; [exact Hs |].
  destruct (coluna (dataframe s) nd) as [dicts |] eqn:Ec.
  - rewrite (mapear_cons _ _ _ _ _ _ Ec).
    destruct (aplicar (Processamento.extrair chaves) dicts) as [vals | e | m] eqn:Ea;
      try exact Hs.
    apply IH. apply (J_atribuir s nd dicts); [exact Hs | exact Ec |].
    now destruct (aplicar_nth _ _ _ Ea).
  - rewrite (mapear_sem_coluna _ _ _ _ _ Ec). exact Hs.
Qed.

Lemma expandir_mantem (nome : string) (mapa : list (string * list string)) :
  forall s, J s -> J (snd (Processamento._expandir_colunas nome mapa s)).
Proof.
  intros s Hs. destruct (coluna (dataframe s) nome) as [brutos |] eqn:Ec.
  - rewrite (expandir_casos _ _ _ _ Ec).
    assert (H1 : J (com_eventos s (avisos_ate brutos))).
    { apply J_registros; [apply avisos_ate_registro | exact Hs]. }
    destruct (aplicar parse_puro brutos) as [dicts | e | m] eqn:Ea; try exact H1.
    pose proof (J_atribuir _ nome brutos (nome_dict nome) dicts H1 Ec) as H2.
    cbn [com_eventos dataframe] in H2.
    specialize (H2 (proj1 (aplicar_nth _ _ _ Ea))).
    apply (mapear_mantem (nome_dict nome) mapa) in H2.
    unfold com_dataframe, com_eventos in *. cbn [leituras eventos dataframe] in *.
    destruct (Processamento.mapear (nome_dict nome) mapa _) as [[[] | e | m] s2];
      cbn [snd] in *; try exact H2.
    destruct (drop (dataframe s2) [nome_dict nome; nome]) as [df'' | e | m] eqn:Ed;
      cbn [snd]; try exact H2.
    apply (J_drop s2 _ _ H2 Ed).
  - rewrite (expandir_ausente _ _ _ Ec). exact Hs.
Qed.

Lemma formatar_mantem (colunas : list string) :
  forall s, J s -> J (snd (Processamento._formatar_valores_brasileiros colunas s)).
Proof.
  induction colunas as [| c resto IH]; intros s Hs; [exact Hs |].
  destruct (coluna (dataframe s) c) as [vs |] eqn:Ec.
  - rewrite (formatar_cons_presente _ _ _ _ Ec).
    destruct (mapR formato_brasileiro vs) as [novos | e | m] eqn:Em; try exact Hs.
    apply IH.
    change (apos_formatar s c novos)
      with (com_eventos (com_dataframe s (atribuir (dataframe s) c novos))
              [Registrou INFO (ColunaFormatada c)]).
    apply J_registro; [| reflexivity].
    apply (J_atribuir s c vs); [exact Hs | exact Ec |].
    now destruct (mapR_nth _ _ _ Em).
  - rewrite (formatar_cons_ausente _ _ _ Ec). now apply IH.
Qed.

Lemma bind_mantem {A B} (m : M A) (k : A -> M B) (s : estado) :
  (J s -> J (snd (m s))) ->
  (forall a s', J s' -> J (snd (k a s'))) ->
  J s -> J (snd (bind m k s)).
Proof.
  intros Hm Hk Hs. unfold bind. specialize (Hm Hs).
  destruct (m s) as [[a | e | mo] s']; cbn [snd] in *; [now apply Hk | exact Hm ..].
Qed.

Lemma processar_mantem (s : estado) :
  J s -> J (snd (Processamento.processar_dataframe s)).
Proof.
  unfold Processamento.processar_dataframe.
  repeat (apply bind_mantem;
          [now apply expandir_mantem || now apply formatar_mantem | intros _ ?]).
  intros H. exact H.
Qed.

End Invariante.

(** ** The shape of the table *)

Lemma retangular_coluna (df : DataFrame) (c : string) (vs : list pyval) :
  retangular df = true -> coluna df c = Some vs -> List.length vs = n_linhas df.
Proof.
  unfold retangular, coluna. destruct df as [cols n]. cbn [colunas n_linhas].
  induction cols as [| [k v] r IH]; cbn [forallb assoc]; [discriminate |].
  intros H Ha. apply andb_true_iff in H. destruct H as [H1 H2].
  destruct (String.eqb c k).
  - inversion Ha; subst v. cbn [snd] in H1. now apply Nat.eqb_eq.
  - now apply IH.
Qed.

Lemma nomes_substituir {A} (k : string) (v : A) (l : list (string * A)) :
  map fst (substituir k v l) = acrescentar (map fst l) k.
Proof.
  unfold acrescentar. induction l as [| [k' v'] r IH]; cbn; [reflexivity |].
  destruct (String.eqb_spec k k'); cbn.
  - now subst k'.
  - rewrite IH. destruct (existsb (String.eqb k) (map fst r)); reflexivity.
Qed.

Lemma NoDup_acrescentar (l : list string) (k : string) :
  NoDup l -> NoDup (acrescentar l k).
Proof.
  intros H. unfold acrescentar.
  destruct (existsb (String.eqb k) l) eqn:E; [exact H |].
  apply NoDup_app; [exact H | repeat constructor; intros [] |].
  intros x Hx [<- | []].
  apply existsb_eqb_In in Hx. congruence.
Qed.

Lemma retangular_substituir (k : string) (v : list pyval)
    (l : list (string * list pyval)) (n : nat) :
  forallb (fun kv => Nat.eqb (List.length (snd kv)) n) l = true ->
  List.length v = n ->
  forallb (fun kv => Nat.eqb (List.length (snd kv)) n) (substituir k v l) = true.
Proof.
  intros H Hv. induction l as [| [k' v'] r IH]; cbn [substituir forallb snd].
  - rewrite Hv, Nat.eqb_refl. reflexivity.
  - cbn [forallb snd] in H. apply andb_true_iff in H. destruct H as [H1 H2].
    destruct (String.eqb k k'); cbn [forallb snd].
    + rewrite Hv, Nat.eqb_refl, H2. reflexivity.
    + rewrite H1, (IH H2). reflexivity.
Qed.

Lemma bem_formada_atribuir (df : DataFrame) (c : string) (vs : list pyval) :
  bem_formada df -> List.length vs = n_linhas df -> bem_formada (atribuir df c vs).
Proof.
  intros [Hn Hr] Hl. split.
  - unfold nomes, atribuir. cbn [colunas]. rewrite nomes_substituir.
    now apply NoDup_acrescentar.
  - unfold retangular, atribuir. cbn [colunas n_linhas].
    now apply retangular_substituir.
Qed.

Lemma nomes_remover {A} (k : string) (l : list (string * A)) :
  map fst (remover k l) = filter (fun x => negb (String.eqb k x)) (map fst l).
Proof.
  unfold remover. induction l as [| [k' v'] r IH]; cbn; [reflexivity |].
  destruct (String.eqb k k'); cbn; now rewrite IH.
Qed.

Lemma bem_formada_remover (rotulos : list string) :
  forall (l : list (string * list pyval)) (n : nat),
    NoDup (map fst l) ->
    forallb (fun kv => Nat.eqb (List.length (snd kv)) n) l = true ->
    NoDup (map fst (fold_left (fun l k => remover k l) rotulos l))
    /\ forallb (fun kv => Nat.eqb (List.length (snd kv)) n)
         (fold_left (fun l k => remover k l) rotulos l) = true.
Proof.
  induction rotulos as [| k r IH]; intros l n Hn Hr; [now split |].
  cbn [fold_left]. apply IH.
  - rewrite nomes_remover. now apply NoDup_filter.
  - unfold remover. rewrite forallb_forall in *. intros x Hx.
    apply filter_In in Hx. now apply Hr.
Qed.

Lemma bem_formada_drop (df df' : DataFrame) (rotulos : list string) :
  bem_formada df -> drop df rotulos = Retornou df' ->
  bem_formada df' /\ n_linhas df' = n_linhas df.
Proof.
  intros [Hn Hr]. unfold drop.
  destruct (forallb (tem_coluna df) rotulos); [| discriminate].
  intros H. inversion H; subst df'; clear H.
  destruct (bem_formada_remover rotulos (colunas df) (n_linhas df) Hn Hr) as [H1 H2].
  split; [split; assumption | reflexivity].
Qed.

(** Processing keeps a well-formed table well-formed, with its rows. *)
Lemma processar_forma (s : estado) :
  bem_formada (dataframe s) ->
  bem_formada (dataframe (snd (Processamento.processar_dataframe s)))
  /\ n_linhas (dataframe (snd (Processamento.processar_dataframe s)))
     = n_linhas (dataframe s).
Proof.
  intros H.
  apply (processar_mantem
           (fun s' => bem_formada (dataframe s')
                      /\ n_linhas (dataframe s') = n_linhas (dataframe s))).
  - intros s0 e H0 _. exact H0.
  - intros s0 c0 vs0 c vs [Hb Hn] Hc Hl. cbn [com_dataframe dataframe].
    split; [| exact Hn].
    apply bem_formada_atribuir; [exact Hb |].
    rewrite Hl. apply (retangular_coluna _ c0); [apply Hb | exact Hc].
  - intros s0 rotulos df' [Hb Hn] Hd. cbn [com_dataframe dataframe].
    destruct (bem_formada_drop _ _ _ Hb Hd) as [Hb' Hn'].
    split; [exact Hb' | congruence].
  - split; [exact H | reflexivity].
Qed.

(** What processing returns is the table it leaves. *)
Lemma processar_retorna_tabela (s : estado) (df : DataFrame) :
  fst (Processamento.processar_dataframe s) = Retornou df ->
  df = dataframe (snd (Processamento.processar_dataframe s)).
Proof.
  intros H.
  destruct (Processamento.processar_dataframe s) as [r s'] eqn:E.
  cbn [fst snd] in *. subst r.
  now destruct (processar_produz_processada _ _ _ E) as [_ ->].
Qed.

(** X6: on a table with distinct labels and one cell per row in every
    column, processing leaves such a table, with the same number of rows,
    whether it returns or raises; the table it returns is the one it
    leaves. *)
Theorem processar_mantem_forma (s : estado) :
  bem_formada (dataframe s) ->
  let saida := Processamento.processar_dataframe s in
  bem_formada (dataframe (snd saida))
  /\ n_linhas (dataframe (snd saida)) = n_linhas (dataframe s)
  /\ (forall c vs, coluna (dataframe (snd saida)) c = Some vs ->
                   List.length vs = n_linhas (dataframe s))
  /\ (forall df, fst saida = Retornou df ->
                 df = dataframe (snd saida) /\ n_linhas df = n_linhas (dataframe s)).
Proof.
  intros H saida. destruct (processar_forma s H) as [Hb Hn]. fold saida in Hb, Hn.
  split; [exact Hb |]. split; [exact Hn |]. split.
  - intros c vs Hc. rewrite <- Hn. apply (retangular_coluna _ c); [apply Hb | exact Hc].
  - intros df Hdf. apply processar_retorna_tabela in Hdf. fold saida in Hdf.
    subst df. split; [reflexivity | exact Hn].
Qed.

Lemma processar_mantem_forma_exemplo :
  bem_formada (dataframe (snd (Processamento.processar_dataframe estado_bruto)))
  /\ n_linhas (dataframe (snd (Processamento.processar_dataframe estado_bruto))) = 1%nat.
Proof.
  destruct (processar_mantem_forma estado_bruto) as (Hb & Hn & _).
  - split; [| reflexivity].
    repeat constructor; cbn; intros H; repeat destruct H as [H | H]; discriminate || exact H.
  - split; [exact Hb | exact Hn].
Defined.

Lemma requisicoes_registros (evs : list evento) :
  forallb registro_de_processamento evs = true ->
  requisicoes evs = [] /\ dormidas evs = [].
Proof.
  induction evs as [| e r IH]; [now split |].
  cbn [forallb]. intros H. apply andb_true_iff in H. destruct H as [He Hr].
  destruct (IH Hr) as [I1 I2].
  destruct e as [d | q | n m]; try discriminate.
  cbn. now split.
Qed.

(** Processing reads no clock and adds only its log records. *)
Lemma processar_efeitos (s : estado) :
  leituras (snd (Processamento.processar_dataframe s)) = leituras s
  /\ exists novos,
       eventos (snd (Processamento.processar_dataframe s)) = eventos s ++ novos
       /\ forallb registro_de_processamento novos = true.
Proof.
  apply (processar_mantem
           (fun s1 => leituras s1 = leituras s
                      /\ exists novos, eventos s1 = eventos s ++ novos
                           /\ forallb registro_de_processamento novos = true)).
  - intros s0 e [Hl (novos & He & Hf)] Hr. cbn [com_eventos leituras eventos].
    split; [exact Hl |]. exists (novos ++ [e]). split.
    + rewrite He. now rewrite app_assoc.
    + rewrite forallb_app, Hf. cbn. now rewrite Hr.
  - intros s0 c0 vs0 c vs H0 _ _. exact H0.
  - intros s0 rotulos df' H0 _. exact H0.
  - split; [reflexivity |]. exists []. now rewrite app_nil_r.
Qed.

(** X7: whatever its outcome, processing reads no clock, does not sleep and
    sends no request: it adds to the trace only warnings of undecodable
    cells and records of formatted columns. *)
Theorem processar_so_registra (s : estado) :
  let s' := snd (Processamento.processar_dataframe s) in
  leituras s' = leituras s
  /\ requisicoes (eventos s') = requisicoes (eventos s)
  /\ dormidas (eventos s') = dormidas (eventos s)
  /\ exists novos,
       eventos s' = eventos s ++ novos
       /\ forallb registro_de_processamento novos = true.
Proof.
  intros s'. destruct (processar_efeitos s) as [Hl (novos & He & Hf)].
  fold s' in Hl, He.
  destruct (requisicoes_registros novos Hf) as [R D].
  split; [exact Hl |]. split; [| split].
  - now rewrite He, requisicoes_app, R, app_nil_r.
  - now rewrite He, dormidas_app, D, app_nil_r.
  - now exists novos.
Qed.

(** ** Cells that are not dicts *)

Lemma extrair_nao_dict (chaves : list string) (x : pyval) :
  eh_dict x = false -> Processamento.extrair chaves x = Levantou AttributeError.
Proof.
  intros H. destruct chaves as [| c0 [| c1 r]]; destruct x; try discriminate;
    reflexivity.
Qed.

Lemma extrair_desfecho (chaves : list string) (x : pyval) :
  chaves <> [] ->
  (exists v, Processamento.extrair chaves x = Retornou v)
  \/ Processamento.extrair chaves x = Levantou AttributeError.
Proof.
  intros Hc. destruct (eh_dict x) eqn:E; [| right; now apply extrair_nao_dict].
  destruct x; try discriminate.
  destruct chaves as [| c0 [| c1 r]]; [contradiction | left; eexists; reflexivity |].
  cbn. destruct (dict_lookup d (PyStr c0)) as [y |].
  - destruct y; (left; eexists; reflexivity) || (right; reflexivity).
  - left. eexists. reflexivity.
Qed.

Lemma mapR_extrair_nao_dict (chaves : list string) (l : list pyval) (x : pyval) :
  chaves <> [] -> In x l -> eh_dict x = false ->
  mapR (Processamento.extrair chaves) l = Levantou AttributeError.
Proof.
  intros Hc. induction l as [| y r IH]; intros Hin Hx; [contradiction |].
  cbn [mapR]. destruct (extrair_desfecho chaves y Hc) as [[v Hv] | Hv]; rewrite Hv;
    [| reflexivity].
  destruct Hin as [-> | Hin].
  - rewrite (extrair_nao_dict chaves x Hx) in Hv. discriminate.
  - now rewrite (IH Hin Hx).
Qed.

Lemma aplicar_In (f : pyval -> resultado pyval) (l l' : list pyval) (x : pyval) :
  aplicar f l = Retornou l' -> In x l ->
  exists y y', f x = Retornou y /\ coagido y y' /\ In y' l'.
Proof.
  intros Ha Hin. destruct (In_nth_error _ _ Hin) as [i Hi].
  destruct (aplicar_nth _ _ _ Ha) as [_ Hn].
  destruct (Hn i x Hi) as (y & y' & Hy & Hc & Hy').
  exists y, y'. repeat split; try assumption. eapply nth_error_In. exact Hy'.
Qed.

Lemma coagido_nao_dict (x y : pyval) :
  eh_dict x = false -> coagido x y -> eh_dict y = false.
Proof. intros H [-> | ->]; [exact H | now destruct x]. Qed.

Lemma parse_puro_nao_texto (x : pyval) :
  eh_texto x = false -> parse_puro x = Retornou x.
Proof. destruct x; try discriminate; reflexivity. Qed.

Lemma comprimento_append (a b : string) :
  String.length (a ++ b) = (String.length a + String.length b)%nat.
Proof. induction a as [| c r IH]; cbn; [reflexivity | now rewrite IH]. Qed.

Lemma nome_dict_distinto (nome : string) : nome <> nome_dict nome.
Proof.
  unfold nome_dict. intros E.
  assert (L : String.length nome = String.length (nome ++ "_dict")%string)
    by now rewrite <- E.
  rewrite comprimento_append in L. cbn in L. lia.
Qed.

(** X8: a cell of a nested column that is neither text nor a dict (the NaN
    of a record without the field, a null, a number) makes the expansion
    raise [AttributeError] at its first mapping, after the column of parsed
    values has been added to the table, which is left with it. *)
Theorem expandir_nao_dict (nome nova : string) (chaves : list string)
    (resto : list (string * list string)) (s : estado)
    (brutos dicts : list pyval) (x : pyval) :
  coluna (dataframe s) nome = Some brutos ->
  In x brutos -> eh_texto x = false -> eh_dict x = false ->
  aplicar parse_puro brutos = Retornou dicts ->
  chaves <> [] ->
  let s' := com_dataframe (com_eventos s (flat_map avisos brutos))
              (atribuir (dataframe s) (nome_dict nome) dicts) in
  Processamento._expandir_colunas nome ((nova, chaves) :: resto) s
  = (Levantou AttributeError, s')
  /\ coluna (dataframe s') (nome_dict nome) = Some dicts
  /\ coluna (dataframe s') nome = Some brutos
  /\ forall c, c <> nome_dict nome ->
               coluna (dataframe s') c = coluna (dataframe s) c.
Proof.
  intros Hc Hin Ht Hd Ha Hch s'.
  assert (Hav : avisos_ate brutos = flat_map avisos brutos).
  { unfold aplicar in Ha. destruct (mapR parse_puro brutos) as [rs | |] eqn:Em;
      try discriminate. eapply avisos_ate_total. exact Em. }
  pose proof (nome_dict_distinto nome) as Hne.
  split; [| split; [| split]].
  - rewrite (expandir_casos _ _ _ _ Hc), Ha, Hav. fold s'.
    destruct (aplicar_In _ _ _ _ Ha Hin) as (y & y' & Hy & Hco & Hy').
    rewrite (parse_puro_nao_texto _ Ht) in Hy. inversion Hy; subst y.
    pose proof (coagido_nao_dict _ _ Hd Hco) as Hd'.
    assert (Hcd : coluna (dataframe s') (nome_dict nome) = Some dicts)
      by apply coluna_atribuir_eq.
    rewrite (mapear_cons _ _ _ _ _ _ Hcd).
    unfold aplicar. rewrite (mapR_extrair_nao_dict chaves dicts y' Hch Hy' Hd').
    reflexivity.
  - apply coluna_atribuir_eq.
  - unfold s'. cbn [com_dataframe dataframe].
    rewrite coluna_atribuir_neq by exact Hne. exact Hc.
  - intros c Hcn. unfold s'. cbn [com_dataframe dataframe].
    now apply coluna_atribuir_neq.
Qed.

Lemma expandir_nao_dict_exemplo :
  fst (Processamento._expandir_colunas "compra" Processamento.mapa_compra
         (estado_com tabela_compra_ausente)) = Levantou AttributeError
  /\ fst (Processamento.processar_dataframe (estado_com tabela_compra_ausente))
     = Levantou AttributeError
  /\ nomes (dataframe (snd (Processamento.processar_dataframe
                              (estado_com tabela_compra_ausente))))
     = ["id"; "compra"; "compra_dict"].
Proof.
  destruct (expandir_nao_dict "compra" "codNumCompra" ["numero"]
              (tl Processamento.mapa_compra) (estado_com tabela_compra_ausente)
              [PyDict [(PyStr "numero", PyStr "123")]; PyFloat nan]
              [PyDict [(PyStr "numero", PyStr "123")]; PyFloat nan]
              (PyFloat nan)) as (E & _).
  - reflexivity.
  - right. left. reflexivity.
  - reflexivity.
  - reflexivity.
  - reflexivity.
  - discriminate.
  - change (("codNumCompra", ["numero"]) :: tl Processamento.mapa_compra)
      with Processamento.mapa_compra in E.
    split; [now rewrite E |].
    unfold Processamento.processar_dataframe.
    rewrite (bind_levantou _ _ _ _ _ E). split; reflexivity.
Defined.

(** ** A table without the columns processing looks for *)

(** X9: on a table that has none of the four nested columns and none of
    the two value columns, processing does nothing: it returns the table
    as it is and logs nothing. *)
Theorem processar_sem_colunas (s : estado) :
  (forall c, In c colunas_procuradas -> tem_coluna (dataframe s) c = false) ->
  Processamento.processar_dataframe s = (Retornou (dataframe s), s).
Proof.
  intros H.
  assert (Hc : forall c, In c colunas_procuradas -> coluna (dataframe s) c = None).
  { intros c Hin. apply tem_coluna_ausente. now apply H. }
  rewrite processar_sem_aninhadas.
  - unfold bind, Processamento.colunas_de_valor.
    rewrite formatar_cons_ausente by (apply Hc; cbn; tauto).
    rewrite formatar_cons_ausente by (apply Hc; cbn; tauto).
    reflexivity.
  - intros c Hin. apply Hc. unfold colunas_procuradas. apply in_or_app. now left.
Qed.

Lemma processar_sem_colunas_exemplo :
  Processamento.processar_dataframe (estado_com tabela_so_id)
  = (Retornou tabela_so_id, estado_com tabela_so_id).
Proof.
  apply (processar_sem_colunas (estado_com tabela_so_id)).
  intros c Hin. cbn in Hin.
  repeat (destruct Hin as [<- | Hin]; [reflexivity |]). contradiction.
Defined.

(** ** A value column that cannot be formatted *)

(** X10: when a cell of the second value column cannot be formatted, the
    exception leaves the table with the first column already rewritten as
    text and the second as it was. *)
Theorem formatar_parcial (c1 c2 : string) (s : estado) (vs1 novos vs2 : list pyval)
    (e : excecao) :
  c1 <> c2 ->
  coluna (dataframe s) c1 = Some vs1 ->
  coluna (dataframe s) c2 = Some vs2 ->
  mapR formato_brasileiro vs1 = Retornou novos ->
  mapR formato_brasileiro vs2 = Levantou e ->
  let s' := apos_formatar s c1 novos in
  Processamento._formatar_valores_brasileiros [c1; c2] s = (Levantou e, s')
  /\ coluna (dataframe s') c1 = Some novos
  /\ (forall v, In v novos -> exists t, v = PyStr t)
  /\ coluna (dataframe s') c2 = Some vs2
  /\ eventos s' = eventos s ++ [Registrou INFO (ColunaFormatada c1)]
  /\ (vs1 <> [] ->
      fst (Processamento._formatar_valores_brasileiros [c1; c2] s')
      = Levantou ValueError).
Proof.
  intros Hne H1 H2 Hm1 Hm2 s'.
  assert (Hc1 : coluna (dataframe s') c1 = Some novos) by apply coluna_atribuir_eq.
  assert (Hc2 : coluna (dataframe s') c2 = Some vs2).
  { unfold s'. cbn [apos_formatar dataframe].
    rewrite coluna_atribuir_neq by (intros E; now apply Hne). exact H2. }
  split; [| split; [exact Hc1 | split; [| split; [exact Hc2 | split; [reflexivity |]]]]].
  - rewrite (formatar_cons_presente _ _ _ _ H1), Hm1.
    fold s'. rewrite (formatar_cons_presente _ _ _ _ Hc2), Hm2. reflexivity.
  - apply (mapR_formato_texto _ _ Hm1).
  - intros Hnil. rewrite (formatar_cons_presente _ _ _ _ Hc1).
    destruct (mapR_nth _ _ _ Hm1) as [Hl _].
    destruct novos as [| v r]; [destruct vs1; [contradiction | discriminate] |].
    destruct (mapR_formato_texto _ _ Hm1 v (or_introl eq_refl)) as [t ->].
    reflexivity.
Qed.

Lemma formatar_parcial_exemplo :
  fst (Processamento._formatar_valores_brasileiros Processamento.colunas_de_valor
         (estado_com tabela_valor_nulo)) = Levantou TypeError
  /\ coluna (dataframe (snd (Processamento._formatar_valores_brasileiros
                               Processamento.colunas_de_valor
                               (estado_com tabela_valor_nulo))))
       "valorInicialCompra" = Some [PyStr "0,50"].
Proof.
  destruct (formatar_parcial "valorInicialCompra" "valorFinalCompra"
              (estado_com tabela_valor_nulo) [PyFloat 0.5] [PyStr "0,50"] [PyNone]
              TypeError) as (E & C & _).
  - discriminate.
  - reflexivity.
  - reflexivity.
  - vm_compute. reflexivity.
  - reflexivity.
  - unfold Processamento.colunas_de_valor. rewrite E. split; [reflexivity | exact C].
Defined.

(** ** The log and the frame of a processing that returns *)

Lemma esta_em_In (l : list string) (c : string) : esta_em l c = true <-> In c l.
Proof. apply existsb_eqb_In. Qed.

Lemma nao_esta_em (l : list string) (c : string) : esta_em l c = false -> ~ In c l.
Proof. intros H Hin. apply esta_em_In in Hin. congruence. Qed.

Lemma expandir_eventos (nome : string) (mapa : list (string * list string))
    (s s' : estado) :
  Processamento._expandir_colunas nome mapa s = (Retornou tt, s') ->
  eventos s' = eventos s ++ flat_map avisos (coluna_ou_vazia (dataframe s) nome).
Proof.
  intros H. unfold coluna_ou_vazia.
  destruct (coluna (dataframe s) nome) as [brutos |] eqn:Ec.
  - destruct (expandir_inv _ _ _ _ _ Ec H) as (dicts & _ & He & _). exact He.
  - rewrite (expandir_ausente _ _ _ Ec) in H. inversion H. cbn. now rewrite app_nil_r.
Qed.

Lemma tem_coluna_atribuir (df : DataFrame) (c c' : string) (vs novos : list pyval) :
  coluna df c = Some vs ->
  tem_coluna (atribuir df c novos) c' = tem_coluna df c'.
Proof.
  intros Hc. destruct (String.eqb_spec c' c) as [-> | Hne].
  - assert (H1 : tem_coluna (atribuir df c novos) c = true).
    { apply tem_coluna_coluna. exists novos. apply coluna_atribuir_eq. }
    assert (H2 : tem_coluna df c = true) by (apply tem_coluna_coluna; eauto).
    congruence.
  - pose proof (coluna_atribuir_neq df c c' novos Hne) as E.
    destruct (tem_coluna df c') eqn:T.
    + apply tem_coluna_coluna in T. destruct T as [ws Hw].
      apply tem_coluna_coluna. exists ws. congruence.
    + apply tem_coluna_ausente in T. apply tem_coluna_ausente. congruence.
Qed.

Lemma formatadas_atribuir (df : DataFrame) (c : string) (vs novos : list pyval)
    (colunas : list string) :
  coluna df c = Some vs ->
  formatadas (atribuir df c novos) colunas = formatadas df colunas.
Proof.
  intros Hc. unfold formatadas. f_equal. apply filter_ext.
  intros c'. now apply (tem_coluna_atribuir df c c' vs).
Qed.

Lemma formatar_eventos (colunas : list string) :
  forall s s',
    Processamento._formatar_valores_brasileiros colunas s = (Retornou tt, s') ->
    eventos s' = eventos s ++ formatadas (dataframe s) colunas
    /\ leituras s' = leituras s.
Proof.
  induction colunas as [| c resto IH]; intros s s' H.
  - inversion H. cbn. now rewrite app_nil_r.
  - destruct (coluna (dataframe s) c) as [vs |] eqn:Ec.
    + rewrite (formatar_cons_presente _ _ _ _ Ec) in H.
      destruct (mapR formato_brasileiro vs) as [novos | e | m]; try discriminate.
      destruct (IH _ _ H) as [He Hl]. cbn [apos_formatar eventos dataframe leituras] in *.
      split; [| exact Hl]. rewrite He, (formatadas_atribuir _ _ vs) by exact Ec.
      unfold formatadas at 2. cbn [filter].
      assert (T : tem_coluna (dataframe s) c = true)
        by (apply tem_coluna_coluna; eauto).
      rewrite T. cbn [map]. now rewrite <- app_assoc.
    + rewrite (formatar_cons_ausente _ _ _ Ec) in H.
      destruct (IH _ _ H) as [He Hl]. split; [| exact Hl]. rewrite He.
      unfold formatadas. cbn [filter].
      apply tem_coluna_ausente in Ec. now rewrite Ec.
Qed.

Lemma colunas_iguais (df df' : DataFrame) (c : string) :
  coluna df' c = coluna df c ->
  coluna_ou_vazia df' c = coluna_ou_vazia df c /\ tem_coluna df' c = tem_coluna df c.
Proof.
  intros E. split; [unfold coluna_ou_vazia; now rewrite E |].
  destruct (tem_coluna df c) eqn:T.
  - apply tem_coluna_coluna in T. destruct T as [vs Hv].
    apply tem_coluna_coluna. exists vs. congruence.
  - apply tem_coluna_ausente in T. apply tem_coluna_ausente. congruence.
Qed.

(** X11: a processing that returns has logged one warning per undecodable
    text cell of the nested columns present, in the order [compra],
    [unidadeGestora], [fornecedor], [unidadeGestoraCompras], then one
    record per value column present; and every column other than the nested
    ones, their columns of parsed values, the columns they are mapped to
    and the value columns is as it was. *)
Theorem processar_registro (s s' : estado) (df' : DataFrame) :
  Processamento.processar_dataframe s = (Retornou df', s') ->
  eventos s' = eventos s
               ++ avisos_esperados (dataframe s)
               ++ formatadas (dataframe s) Processamento.colunas_de_valor
  /\ forall c, esta_em todas_tocadas c = false ->
               coluna df' c = coluna (dataframe s) c.
Proof.
  intros H. destruct (processar_inv _ _ _ H) as (s1 & s2 & s3 & s4 & E1 & E2 & E3 & E4 & F & ->).
  pose proof (expandir_eventos _ _ _ _ E1) as V1.
  pose proof (expandir_eventos _ _ _ _ E2) as V2.
  pose proof (expandir_eventos _ _ _ _ E3) as V3.
  pose proof (expandir_eventos _ _ _ _ E4) as V4.
  destruct (formatar_eventos _ _ _ F) as [VF LF'].
  assert (P1 : forall c, esta_em (tocadas "compra" Processamento.mapa_compra) c = false ->
                         coluna (dataframe s1) c = coluna (dataframe s) c).
  { intros c Hc. apply (expandir_frame_tocadas _ _ _ _ _ E1). now apply nao_esta_em. }
  assert (P2 : forall c, esta_em (tocadas "unidadeGestora"
                                    Processamento.mapa_unidadeGestora) c = false ->
                         coluna (dataframe s2) c = coluna (dataframe s1) c).
  { intros c Hc. apply (expandir_frame_tocadas _ _ _ _ _ E2). now apply nao_esta_em. }
  assert (P3 : forall c, esta_em (tocadas "fornecedor"
                                    Processamento.mapa_fornecedor) c = false ->
                         coluna (dataframe s3) c = coluna (dataframe s2) c).
  { intros c Hc. apply (expandir_frame_tocadas _ _ _ _ _ E3). now apply nao_esta_em. }
  assert (P4 : forall c, esta_em (tocadas "unidadeGestoraCompras"
                                    Processamento.mapa_unidadeGestoraCompras) c = false ->
                         coluna (dataframe s4) c = coluna (dataframe s3) c).
  { intros c Hc. apply (expandir_frame_tocadas _ _ _ _ _ E4). now apply nao_esta_em. }
  split.
  - rewrite VF, V4, V3, V2, V1. unfold avisos_esperados, colunas_aninhadas.
    cbn [flat_map]. rewrite app_nil_r, <- !app_assoc.
    assert (C2 : coluna (dataframe s1) "unidadeGestora"
                 = coluna (dataframe s) "unidadeGestora") by (apply P1; reflexivity).
    assert (C3 : coluna (dataframe s2) "fornecedor" = coluna (dataframe s) "fornecedor").
    { rewrite P2 by reflexivity. apply P1. reflexivity. }
    assert (C4 : coluna (dataframe s3) "unidadeGestoraCompras"
                 = coluna (dataframe s) "unidadeGestoraCompras").
    { rewrite P3 by reflexivity. rewrite P2 by reflexivity. apply P1. reflexivity. }
    destruct (colunas_iguais _ _ _ C2) as [-> _].
    destruct (colunas_iguais _ _ _ C3) as [-> _].
    destruct (colunas_iguais _ _ _ C4) as [-> _].
    do 4 f_equal.
    unfold formatadas. f_equal. unfold Processamento.colunas_de_valor. cbn [filter].
    assert (D1 : coluna (dataframe s4) "valorInicialCompra"
                 = coluna (dataframe s) "valorInicialCompra").
    { rewrite P4 by reflexivity. rewrite P3 by reflexivity. rewrite P2 by reflexivity.
      apply P1. reflexivity. }
    assert (D2 : coluna (dataframe s4) "valorFinalCompra"
                 = coluna (dataframe s) "valorFinalCompra").
    { rewrite P4 by reflexivity. rewrite P3 by reflexivity. rewrite P2 by reflexivity.
      apply P1. reflexivity. }
    destruct (colunas_iguais _ _ _ D1) as [_ ->].
    destruct (colunas_iguais _ _ _ D2) as [_ ->]. reflexivity.
  - intros c Hc. unfold todas_tocadas, esta_em in Hc. rewrite existsb_app in Hc.
    apply orb_false_iff in Hc. destruct Hc as [Hc1 Hc2].
    rewrite (depois_de_compra_preserva _ _ _ _ _ c E2 E3 E4 F).
    + apply P1. exact Hc1.
    + apply nao_esta_em. exact Hc2.
Qed.

Lemma processar_registro_exemplo :
  exists df' s',
    Processamento.processar_dataframe (estado_com tabela_compra) = (Retornou df', s')
    /\ eventos s' = [Registrou WARNING ErroAnaliseDicionario]
    /\ coluna df' "id" = Some [PyInt 1; PyInt 2].
Proof.
  set (saida := Processamento.processar_dataframe (estado_com tabela_compra)).
  assert (E : saida = (Retornou (dataframe (snd saida)), snd saida))
    by (vm_compute; reflexivity).
  destruct (processar_registro _ _ _ E) as [Hev Hfr].
  exists (dataframe (snd saida)), (snd saida).
  split; [exact E |]. split.
  - rewrite Hev. reflexivity.
  - rewrite Hfr by reflexivity. reflexivity.
Defined.

(** ** The labels of the processed table *)

Lemma nomes_atribuir (df : DataFrame) (c : string) (vs : list pyval) :
  nomes (atribuir df c vs) = acrescentar (nomes df) c.
Proof. unfold nomes, atribuir. cbn [colunas]. apply nomes_substituir. Qed.

Lemma mapear_nomes (nd : string) (mapa : list (string * list string)) :
  forall s s',
    Processamento.mapear nd mapa s = (Retornou tt, s') ->
    nomes (dataframe s') = fold_left acrescentar (map fst mapa) (nomes (dataframe s)).
Proof.
  induction mapa as [| [nova chaves] resto IH]; intros s s' H.
  - now inversion H.
  - destruct (coluna (dataframe s) nd) as [dicts |] eqn:Ec.
    + rewrite (mapear_cons _ _ _ _ _ _ Ec) in H.
      destruct (aplicar (Processamento.extrair chaves) dicts) as [vals | |];
        try discriminate.
      rewrite (IH _ _ H). cbn [com_dataframe dataframe map fold_left fst].
      now rewrite nomes_atribuir.
    + rewrite (mapear_sem_coluna _ _ _ _ _ Ec) in H. discriminate.
Qed.

Lemma nomes_drop (df df' : DataFrame) (a b : string) :
  drop df [a; b] = Retornou df' ->
  nomes df' = filter (fun x => negb (String.eqb b x))
                (filter (fun x => negb (String.eqb a x)) (nomes df)).
Proof.
  unfold drop. destruct (forallb (tem_coluna df) [a; b]); [| discriminate].
  intros H. inversion H. unfold nomes. cbn [colunas fold_left].
  now rewrite !nomes_remover.
Qed.

Lemma expandir_nomes (nome : string) (mapa : list (string * list string))
    (s s' : estado) :
  Processamento._expandir_colunas nome mapa s = (Retornou tt, s') ->
  nomes (dataframe s') = nomes_apos_expandir nome mapa (nomes (dataframe s)).
Proof.
  intros H. unfold nomes_apos_expandir.
  change (esta_em (nomes (dataframe s)) nome) with (tem_coluna (dataframe s) nome).
  destruct (coluna (dataframe s) nome) as [brutos |] eqn:Ec.
  - assert (T : tem_coluna (dataframe s) nome = true)
      by (apply tem_coluna_coluna; eauto).
    rewrite T. rewrite (expandir_casos _ _ _ _ Ec) in H.
    destruct (aplicar parse_puro brutos) as [dicts | |]; try discriminate.
    destruct (Processamento.mapear (nome_dict nome) mapa _) as [[[] | |] s2] eqn:Em;
      try discriminate.
    destruct (drop (dataframe s2) [nome_dict nome; nome]) as [df'' | |] eqn:Ed;
      try discriminate.
    inversion H; subst s'. cbn [com_dataframe dataframe].
    rewrite (nomes_drop _ _ _ _ Ed), (mapear_nomes _ _ _ _ Em).
    cbn [com_dataframe dataframe fold_left]. now rewrite nomes_atribuir.
  - rewrite (expandir_ausente _ _ _ Ec) in H. inversion H; subst s'.
    apply tem_coluna_ausente in Ec. now rewrite Ec.
Qed.

Lemma formatar_nomes (colunas : list string) :
  forall s s',
    Processamento._formatar_valores_brasileiros colunas s = (Retornou tt, s') ->
    nomes (dataframe s') = nomes (dataframe s).
Proof.
  induction colunas as [| c resto IH]; intros s s' H.
  - now inversion H.
  - destruct (coluna (dataframe s) c) as [vs |] eqn:Ec.
    + rewrite (formatar_cons_presente _ _ _ _ Ec) in H.
      destruct (mapR formato_brasileiro vs) as [novos | |]; try discriminate.
      rewrite (IH _ _ H). cbn [apos_formatar dataframe].
      rewrite nomes_atribuir. unfold acrescentar.
      assert (T : tem_coluna (dataframe s) c = true)
        by (apply tem_coluna_coluna; eauto).
      unfold tem_coluna in T. now rewrite T.
    + rewrite (formatar_cons_ausente _ _ _ Ec) in H. now apply IH.
Qed.

(** Appending labels that are new and distinct. *)
Lemma fold_acrescentar_novos (ks ns : list string) :
  NoDup ks -> (forall x, In x ks -> ~ In x ns) ->
  fold_left acrescentar ks ns = ns ++ ks.
Proof.
  revert ns. induction ks as [| k r IH]; intros ns Hn Hd.
  - cbn. now rewrite app_nil_r.
  - cbn [fold_left]. inversion Hn as [| ? ? Hk Hr]; subst.
    unfold acrescentar at 2.
    destruct (existsb (String.eqb k) ns) eqn:E.
    + apply existsb_eqb_In in E. exfalso. apply (Hd k); [now left | exact E].
    + rewrite IH.
      * now rewrite <- app_assoc.
      * exact Hr.
      * intros x Hx Hin. apply in_app_or in Hin. destruct Hin as [Hin | [<- | []]].
        -- apply (Hd x); [now right | exact Hin].
        -- contradiction.
Qed.

Lemma filter_fora (a : string) (l : list string) :
  ~ In a l -> filter (fun x => negb (String.eqb a x)) l = l.
Proof.
  induction l as [| y r IH]; intros H; [reflexivity |].
  cbn [filter]. destruct (String.eqb_spec a y) as [-> | Hne].
  - exfalso. apply H. now left.
  - cbn [negb]. rewrite IH; [reflexivity |]. intros Hin. apply H. now right.
Qed.

(** The expansion of a column that is present, on a table that has none
    of the columns it creates. *)
Lemma nomes_apos_expandir_tipico (nome : string) (mapa : list (string * list string))
    (ns : list string) :
  In nome ns ->
  NoDup (nome_dict nome :: map fst mapa) ->
  (forall x, In x (nome_dict nome :: map fst mapa) -> ~ In x ns) ->
  ~ In nome (map fst mapa) ->
  nomes_apos_expandir nome mapa ns
  = filter (fun x => negb (String.eqb nome x)) ns ++ map fst mapa.
Proof.
  intros Hin Hnd Hd Hnm. unfold nomes_apos_expandir.
  assert (T : esta_em ns nome = true) by now apply esta_em_In.
  rewrite T, (fold_acrescentar_novos _ _ Hnd Hd).
  rewrite !filter_app. cbn [filter]. rewrite String.eqb_refl. cbn [negb].
  inversion Hnd as [| ? ? Hk Hr]; subst.
  rewrite (filter_fora (nome_dict nome) ns) by (apply Hd; now left).
  rewrite (filter_fora (nome_dict nome) (map fst mapa)) by exact Hk.
  rewrite (filter_fora nome (map fst mapa)) by exact Hnm.
  reflexivity.
Qed.

Lemma incluso (big small : list string) :
  forallb (esta_em big) small = true -> forall x, In x small -> In x big.
Proof.
  intros H x Hx. rewrite forallb_forall in H. apply esta_em_In. now apply H.
Qed.

Lemma disjunto (l small : list string) :
  forallb (fun x => negb (esta_em l x)) small = true ->
  forall x, In x small -> ~ In x l.
Proof.
  intros H x Hx. rewrite forallb_forall in H. apply nao_esta_em.
  apply negb_true_iff. now apply H.
Qed.

Lemma sem_repeticao_NoDup (l : list string) : sem_repeticao l = true -> NoDup l.
Proof.
  induction l as [| x r IH]; cbn [sem_repeticao]; intros H; constructor.
  - apply andb_true_iff in H. destruct H as [H _].
    apply nao_esta_em. now apply negb_true_iff.
  - apply IH. apply andb_true_iff in H. now destruct H.
Qed.

(** One expansion, the labels being those of [ns] that satisfy [p],
    followed by [extra]. *)
Lemma passo_tipico (nome : string) (mapa : list (string * list string))
    (ns : list string) (p : string -> bool) (extra : list string) :
  p nome = true ->
  sem_repeticao (nome_dict nome :: map fst mapa) = true ->
  forallb (fun x => negb (esta_em extra x)) (nome_dict nome :: map fst mapa) = true ->
  negb (esta_em (extra ++ map fst mapa) nome) = true ->
  In nome ns ->
  (forall x, In x (nome_dict nome :: map fst mapa) -> ~ In x ns) ->
  nomes_apos_expandir nome mapa (filter p ns ++ extra)
  = filter (fun x => p x && negb (String.eqb nome x)) ns ++ (extra ++ map fst mapa).
Proof.
  intros Hp Hnd Hex Hnm Hin Hd.
  apply negb_true_iff in Hnm. apply nao_esta_em in Hnm.
  rewrite nomes_apos_expandir_tipico.
  - rewrite filter_app, <- app_assoc. f_equal.
    + clear. induction ns as [| y r IH]; [reflexivity |].
      cbn [filter]. destruct (p y); cbn [andb filter]; [| exact IH].
      destruct (String.eqb nome y); cbn [negb]; now rewrite IH.
    + f_equal. apply filter_fora. intros Hx. apply Hnm. apply in_or_app. now left.
  - apply in_or_app. left. apply filter_In. now split.
  - now apply sem_repeticao_NoDup.
  - intros x Hx Hin'. apply in_app_or in Hin'. destruct Hin' as [Hin' | Hin'].
    + apply filter_In in Hin'. now apply (Hd x Hx).
    + now apply (disjunto _ _ Hex x Hx).
  - intros Hx. apply Hnm. apply in_or_app. now right.
Qed.

(** X12: the labels of the processed table are a function of the labels
    of the raw one; when the raw table has the four nested columns and none
    of the columns processing creates, they are the other labels in their
    order followed by the new columns in the order of the mappings. *)
Theorem processar_nomes (s s' : estado) (df' : DataFrame) :
  Processamento.processar_dataframe s = (Retornou df', s') ->
  nomes df' = nomes_apos_processar (nomes (dataframe s))
  /\ ((forall c, In c colunas_aninhadas -> tem_coluna (dataframe s) c = true) ->
      (forall c, In c (colunas_dict ++ colunas_novas) ->
                 tem_coluna (dataframe s) c = false) ->
      nomes df'
      = filter (fun x => negb (esta_em colunas_aninhadas x)) (nomes (dataframe s))
        ++ colunas_novas).
Proof.
  intros H.
  destruct (processar_inv _ _ _ H) as (s1 & s2 & s3 & s4 & E1 & E2 & E3 & E4 & F & ->).
  assert (G : nomes (dataframe s') = nomes_apos_processar (nomes (dataframe s))).
  { rewrite (formatar_nomes _ _ _ F), (expandir_nomes _ _ _ _ E4),
      (expandir_nomes _ _ _ _ E3), (expandir_nomes _ _ _ _ E2),
      (expandir_nomes _ _ _ _ E1). reflexivity. }
  split; [exact G |].
  intros H1 H2. rewrite G. clear - H1 H2.
  set (ns := nomes (dataframe s)).
  assert (I1 : forall c, In c colunas_aninhadas -> In c ns).
  { intros c Hc. apply esta_em_In. apply (H1 c Hc). }
  assert (I2 : forall l, forallb (esta_em (colunas_dict ++ colunas_novas)) l = true ->
                         forall x, In x l -> ~ In x ns).
  { intros l Hl x Hx. apply nao_esta_em. apply (H2 x).
    apply (incluso _ _ Hl x Hx). }
  unfold nomes_apos_processar.
  assert (E0 : filter (fun _ : string => true) ns ++ [] = ns).
  { rewrite app_nil_r. clear. induction ns as [| y r IH]; [reflexivity |].
    cbn [filter]. now rewrite IH. }
  rewrite <- E0 at 1.
  rewrite (passo_tipico "compra" Processamento.mapa_compra ns
             (fun _ => true) []); try reflexivity;
    [| apply I1; cbn; tauto | apply I2; reflexivity].
  rewrite (passo_tipico "unidadeGestora" Processamento.mapa_unidadeGestora ns);
    try reflexivity; [| apply I1; cbn; tauto | apply I2; reflexivity].
  rewrite (passo_tipico "fornecedor" Processamento.mapa_fornecedor ns);
    try reflexivity; [| apply I1; cbn; tauto | apply I2; reflexivity].
  rewrite (passo_tipico "unidadeGestoraCompras"
             Processamento.mapa_unidadeGestoraCompras ns);
    try reflexivity; [| apply I1; cbn; tauto | apply I2; reflexivity].
  f_equal. apply filter_ext. intros x.
  unfold esta_em, colunas_aninhadas. cbn [existsb andb].
  rewrite !(String.eqb_sym x). rewrite orb_false_r, !negb_orb, !andb_assoc.
  reflexivity.
Qed.

Lemma processar_nomes_exemplo :
  exists df' s',
    Processamento.processar_dataframe (estado_com tabela_quatro) = (Retornou df', s')
    /\ nomes df' = "id" :: colunas_novas.
Proof.
  set (saida := Processamento.processar_dataframe (estado_com tabela_quatro)).
  assert (E : saida = (Retornou (dataframe (snd saida)), snd saida))
    by (vm_compute; reflexivity).
  destruct (processar_nomes _ _ _ E) as [_ Hn].
  exists (dataframe (snd saida)), (snd saida). split; [exact E |].
  rewrite Hn; [reflexivity | |].
  - intros c Hc. cbn in Hc.
    repeat (destruct Hc as [<- | Hc]; [reflexivity |]). contradiction.
  - intros c Hc. cbn in Hc.
    repeat (destruct Hc as [<- | Hc]; [reflexivity |]). contradiction.
Defined.

(** ** The script *)

Lemma gravacoes_app (a b : list evento_script) :
  gravacoes (a ++ b) = gravacoes a ++ gravacoes b.
Proof. apply flat_map_app. Qed.

Lemma anotacoes_app (a b : list evento_script) :
  anotacoes (a ++ b) = anotacoes a ++ anotacoes b.
Proof. apply flat_map_app. Qed.

Lemma eventos_do_nucleo_app (a b : list evento_script) :
  eventos_do_nucleo (a ++ b) = eventos_do_nucleo a ++ eventos_do_nucleo b.
Proof. apply flat_map_app. Qed.

Lemma gravacoes_nucleo (evs : list evento) : gravacoes (map Nucleo evs) = [].
Proof. induction evs as [| e r IH]; [reflexivity | exact IH]. Qed.

Lemma anotacoes_nucleo (evs : list evento) : anotacoes (map Nucleo evs) = [].
Proof. induction evs as [| e r IH]; [reflexivity | exact IH]. Qed.

Lemma eventos_do_nucleo_nucleo (evs : list evento) :
  eventos_do_nucleo (map Nucleo evs) = evs.
Proof.
  induction evs as [| e r IH]; [reflexivity |].
  cbn [map]. unfold eventos_do_nucleo. cbn [flat_map app].
  fold (eventos_do_nucleo (map Nucleo r)). now rewrite IH.
Qed.

(** The two ways the construction of a client ends. *)
Lemma init_casos (w : mundo) (url_base : string) (s : estado) :
  (exists c, ClienteAPI.__init__ w url_base s = (Retornou c, s))
  \/ (exists s', ClienteAPI.__init__ w url_base s = (Levantou ValueError, s')
                 /\ leituras s' = leituras s
                 /\ requisicoes (eventos s') = requisicoes (eventos s)
                 /\ dormidas (eventos s') = dormidas (eventos s)).
Proof.
  unfold ClienteAPI.__init__, ClienteAPI._carregar_chave_api, logging, emitir, bind,
    ret, raise.
  destruct (arquivo_chave w) as [texto |].
  - destruct (nth_error (split "=" (strip (readline texto))) 1) as [chave |].
    + destruct (String.eqb chave ""); [right | left]; eexists; eauto.
    + right. eexists. split; [reflexivity |]. split; [reflexivity |].
      cbn [eventos]. rewrite requisicoes_app, dormidas_app. cbn.
      now rewrite !app_nil_r.
  - right. eexists. split; [reflexivity |]. split; [reflexivity |].
    cbn [eventos]. rewrite requisicoes_app, dormidas_app. cbn.
    now rewrite !app_nil_r.
Qed.

Lemma NoDup_fold_acrescentar (ks vistas : list string) :
  NoDup vistas -> NoDup (fold_left acrescentar ks vistas).
Proof.
  revert vistas. induction ks as [| k r IH]; intros vistas H; [exact H |].
  cbn [fold_left]. apply IH. now apply NoDup_acrescentar.
Qed.

Lemma NoDup_nomes_colunas (regs : list (list (string * pyval))) :
  NoDup (nomes_colunas regs).
Proof.
  unfold nomes_colunas. generalize (NoDup_nil string).
  generalize (@nil string) as vistas.
  induction regs as [| r rs IH]; intros vistas H; [exact H |].
  cbn [fold_left]. apply IH. now apply NoDup_fold_acrescentar.
Qed.

Lemma montar_colunas_retangular (regs : list (list (string * pyval)))
    (ks : list string) :
  forall cs,
    montar_colunas regs ks = Retornou cs ->
    forallb (fun kv => Nat.eqb (List.length (snd kv)) (List.length regs)) cs = true.
Proof.
  induction ks as [| k r IH]; cbn [montar_colunas]; intros cs H.
  - now inversion H.
  - destruct (inferir (map (fun reg => valor_em reg k) regs)) as [vs | |] eqn:Ei;
      try discriminate.
    destruct (montar_colunas regs r) as [cs' | |]; try discriminate.
    inversion H; subst cs. cbn [forallb snd]. rewrite (IH cs' eq_refl), andb_true_r.
    destruct (inferir_nth _ _ Ei) as [Hl _].
    rewrite Hl, length_map. apply Nat.eqb_refl.
Qed.

(** The table [pd.DataFrame] builds from records is well-formed. *)
Lemma pd_DataFrame_bem_formada (dados : list pyval) (df : DataFrame) :
  pd_DataFrame dados = Retornou df -> bem_formada df.
Proof.
  unfold pd_DataFrame. destruct (como_registros dados) as [regs |]; [| discriminate].
  destruct (montar_colunas regs (nomes_colunas regs)) as [cs | |] eqn:Em;
    try discriminate.
  intros H. inversion H; subst df; clear H. split.
  - unfold nomes. cbn [colunas].
    destruct (montar_colunas_inv _ _ _ Em) as [-> _]. apply NoDup_nomes_colunas.
  - unfold retangular. cbn [colunas n_linhas].
    now apply (montar_colunas_retangular _ _ _ Em).
Qed.

Lemma buscar_contratos_bem_formada (w : mundo) (self : BuscadorContrato.t)
    (combustivel : nat) (s : estado) (df : DataFrame) :
  fst (BuscadorContrato.buscar_contratos w self combustivel s) = Retornou df ->
  bem_formada df
  /\ dataframe (snd (BuscadorContrato.buscar_contratos w self combustivel s)) = df.
Proof.
  rewrite buscar_contratos_casos.
  destruct (fst (BuscadorContrato.laco w self combustivel
                   (BuscadorContrato.pagina_inicial self) [] s)) as [todos | |];
    try discriminate.
  destruct (pd_DataFrame todos) as [df0 | |] eqn:Ep; try discriminate.
  cbn [fst snd]. intros H. inversion H; subst df0.
  split; [now apply (pd_DataFrame_bem_formada todos) | reflexivity].
Qed.

(** The script without a client. *)
Lemma principal_sem_cliente (w : mundo) (combustivel : nat) (e : excecao)
    (s0 : estado) :
  ClienteAPI.__init__ w url_da_api estado_inicial = (Levantou e, s0) ->
  principal w combustivel script_inicial = (Levantou e, juntar script_inicial s0).
Proof.
  intros H. unfold principal, bindS, executar.
  change (entrada script_inicial) with estado_inicial. rewrite H. reflexivity.
Qed.

(** The script with a client, step by step. *)
Lemma principal_com_cliente (w : mundo) (combustivel : nat) (c : ClienteAPI.t) :
  ClienteAPI.__init__ w url_da_api estado_inicial = (Retornou c, estado_inicial) ->
  principal w combustivel script_inicial
  = (let st1 := anotar script_inicial (Anotou INFO IniciandoBusca) in
     let b := BuscadorContrato.buscar_contratos w (buscador_de c) combustivel
                estado_inicial in
     let st2 := juntar st1 (snd b) in
     match fst b with
     | Retornou df =>
         if tabela_vazia df then
           (Retornou tt, anotar st2 (Anotou WARNING NenhumContrato))
         else
           let st3 := anotar st2 (Anotou INFO (ContratosEncontrados (n_linhas df))) in
           let p := Processamento.processar_dataframe (entrada st3) in
           let st4 := juntar st3 (snd p) in
           match fst p with
           | Retornou df' =>
               (Retornou tt,
                anotar (anotar (anotar (anotar st4 (GravouCSV arquivo_csv false df'))
                                  (Anotou INFO ContratosSalvos))
                          (Anotou INFO ExibindoPrimeirasLinhas))
                  (Anotou INFO (PrimeirasLinhas (head df'))))
           | Levantou e => (Levantou e, st4)
           | Indefinido m => (Indefinido m, st4)
           end
     | Levantou e => (Levantou e, st2)
     | Indefinido m => (Indefinido m, st2)
     end).
Proof.
  intros H. unfold principal, bindS, executar.
  change (entrada script_inicial) with estado_inicial. rewrite H.
  cbn [fst snd].
  change (juntar script_inicial estado_inicial) with script_inicial.
  unfold BuscadorContrato.__init__, bind, gravar_df, ret.
  cbn [fst snd entrada script_inicial lidas tabela leituras eventos dataframe].
  change {| leituras := 0; eventos := []; dataframe := DataFrame_vazio |}
    with estado_inicial.
  change (juntar script_inicial estado_inicial) with script_inicial.
  fold (buscador_de c). unfold registrar at 1.
  change (entrada (anotar script_inicial (Anotou INFO IniciandoBusca)))
    with estado_inicial.
  destruct (fst (BuscadorContrato.buscar_contratos w (buscador_de c) combustivel
                   estado_inicial)) as [df | e | m]; try reflexivity.
  destruct (tabela_vazia df); [reflexivity |].
  unfold registrar.
  destruct (fst (Processamento.processar_dataframe _)); reflexivity.
Qed.

Ltac abrir_roteiro :=
  cbn [anotar juntar roteiro script_inicial lidas tabela];
  rewrite ?gravacoes_app, ?anotacoes_app, ?eventos_do_nucleo_app,
    ?gravacoes_nucleo, ?anotacoes_nucleo, ?eventos_do_nucleo_nucleo;
  cbn [gravacoes anotacoes eventos_do_nucleo flat_map app].

(** X13: the script writes at most one file; when it does, it is
    [contratos_FULL.csv], without index, holding the table processing
    returned: processed, well-formed, with at least one row, the number of
    rows the script logged as found; the script then logs the three closing
    records and returns.  A run that raises, runs out of its bound or finds
    no contract writes nothing. *)
Theorem principal_grava_processada (w : mundo) (combustivel : nat) :
  let saida := principal w combustivel script_inicial in
  let r := roteiro (snd saida) in
  gravacoes r = []
  \/ exists df,
       gravacoes r = [(arquivo_csv, false, df)]
       /\ fst saida = Retornou tt
       /\ tabela (snd saida) = df
       /\ processada df
       /\ bem_formada df
       /\ (0 < n_linhas df)%nat
       /\ anotacoes r
          = [(INFO, IniciandoBusca);
             (INFO, ContratosEncontrados (n_linhas df));
             (INFO, ContratosSalvos);
             (INFO, ExibindoPrimeirasLinhas);
             (INFO, PrimeirasLinhas (head df))].
Proof.
  intros saida r. unfold r, saida. clear saida r.
  destruct (principal w combustivel script_inicial) as [res st] eqn:E.
  cbn [fst snd].
  destruct (init_casos w url_da_api estado_inicial) as [[c Ec] | (s0 & Ec & _)].
  2:{ left. rewrite (principal_sem_cliente _ _ _ _ Ec) in E. inversion E.
      cbn [juntar roteiro script_inicial app]. apply gravacoes_nucleo. }
  rewrite (principal_com_cliente _ _ _ Ec) in E. cbn zeta in E.
  destruct (fst (BuscadorContrato.buscar_contratos w (buscador_de c) combustivel
                   estado_inicial)) as [df | e | m] eqn:Eb.
  - destruct (buscar_contratos_bem_formada _ _ _ _ _ Eb) as [Hbf Hdf].
    destruct (tabela_vazia df) eqn:Ev.
    + left. inversion E. abrir_roteiro. reflexivity.
    + match type of E with
      | context [Processamento.processar_dataframe ?x] => set (s3 := x) in E
      end.
      assert (Hs3 : dataframe s3 = df) by exact Hdf.
      destruct (fst (Processamento.processar_dataframe s3)) as [df' | e | m] eqn:Ep.
      * right. exists df'. inversion E; subst res st; clear E.
        destruct (Processamento.processar_dataframe s3) as [rp sp] eqn:Epp.
        cbn [fst snd] in *. subst rp.
        destruct (processar_produz_processada _ _ _ Epp) as [Hproc Hsp].
        assert (Hf : bem_formada (dataframe s3)) by now rewrite Hs3.
        pose proof (processar_forma s3 Hf) as [Hbf' Hn]. rewrite Epp in Hbf', Hn.
        cbn [snd] in Hbf', Hn. rewrite Hsp in Hbf', Hn. rewrite Hs3 in Hn.
        abrir_roteiro. rewrite ?app_nil_r. cbn [app]. rewrite Hn.
        repeat split; try assumption; try reflexivity; try apply Hproc;
          try apply Hbf'.
        unfold tabela_vazia in Ev.
        destruct (colunas df); [discriminate |].
        destruct (n_linhas df); [discriminate | lia].
      * left. inversion E. abrir_roteiro. reflexivity.
      * left. inversion E. abrir_roteiro. reflexivity.
  - left. inversion E. abrir_roteiro. reflexivity.
  - left. inversion E. abrir_roteiro. reflexivity.
Qed.



(** X15: when the first page is empty or fails, the script reports that no
    contract was found and ends normally, writing no file. *)
Theorem principal_nenhum_contrato (w : mundo) (combustivel : nat) (c : ClienteAPI.t) :
  ClienteAPI.__init__ w url_da_api estado_inicial = (Retornou c, estado_inicial) ->
  truthy (pagina w (buscador_de c) 1) = false ->
  (0 < combustivel)%nat ->
  let saida := principal w combustivel script_inicial in
  let r := roteiro (snd saida) in
  fst saida = Retornou tt
  /\ anotacoes r = [(INFO, IniciandoBusca); (WARNING, NenhumContrato)]
  /\ gravacoes r = []
  /\ requisicoes (eventos_do_nucleo r) = [requisicao_pagina (buscador_de c) 1]
  /\ tabela (snd saida) = DataFrame_vazio.
Proof.
  intros Ec Hf Hc saida r. unfold r, saida. clear saida r.
  rewrite (principal_com_cliente _ _ _ Ec). cbn zeta.
  destruct combustivel as [| n]; [lia |].
  destruct (laco_fim w (buscador_de c) n 1 [] estado_inicial Hf) as (s1 & El & Rl & Dl).
  assert (Eb : BuscadorContrato.buscar_contratos w (buscador_de c) (S n) estado_inicial
               = (Retornou DataFrame_vazio, com_dataframe s1 DataFrame_vazio)).
  { rewrite buscar_contratos_casos.
    change (BuscadorContrato.pagina_inicial (buscador_de c)) with 1.
    rewrite El. reflexivity. }
  rewrite Eb. cbn [fst snd tabela_vazia DataFrame_vazio colunas].
  abrir_roteiro. cbn [com_dataframe eventos dataframe]. rewrite ?app_nil_r.
  repeat split; try reflexivity.
  rewrite Rl. reflexivity.
Qed.

Lemma principal_nenhum_contrato_exemplo :
  fst (principal mundo_fora_do_ar 10 script_inicial) = Retornou tt
  /\ anotacoes (roteiro (snd (principal mundo_fora_do_ar 10 script_inicial)))
     = [(INFO, IniciandoBusca); (WARNING, NenhumContrato)]
  /\ gravacoes (roteiro (snd (principal mundo_fora_do_ar 10 script_inicial))) = [].
Proof.
  destruct (principal_nenhum_contrato mundo_fora_do_ar 10 cliente_exemplo)
    as (H1 & H2 & H3 & _).
  - reflexivity.
  - reflexivity.
  - lia.
  - split; [exact H1 |]. split; [exact H2 | exact H3].
Defined.

(** ** The separators *)

Lemma trocar_char_volta (c : ascii) : trocar_char (trocar_char c) = c.
Proof.
  unfold trocar_char.
  destruct (Ascii.eqb_spec c ","); [subst; reflexivity |].
  destruct (Ascii.eqb_spec c "."); [subst; reflexivity |].
  destruct (Ascii.eqb_spec c ","); [contradiction |].
  destruct (Ascii.eqb_spec c "."); [contradiction | reflexivity].
Qed.

Lemma trocar_um (c : ascii) (r : string) :
  trocar_separadores (String c r)
  = String (if Ascii.eqb c "X" then "."%char else trocar_char c)
      (trocar_separadores r).
Proof.
  unfold trocar_separadores, trocar_char. cbn [replace].
  destruct (Ascii.eqb_spec c ","); [subst; reflexivity |].
  destruct (Ascii.eqb_spec c "."); [subst; reflexivity |].
  destruct (Ascii.eqb_spec c "X"); [subst; reflexivity |].
  destruct (Ascii.eqb_spec c "X"); [contradiction | reflexivity].
Qed.

Lemma trocar_sem_X (s : string) :
  todos_chars (nao_eh "X") s = true ->
  trocar_separadores s = mapear_chars trocar_char s.
Proof.
  induction s as [| c r IH]; [reflexivity |].
  cbn [todos_chars]. intros H. apply andb_true_iff in H. destruct H as [Hc Hr].
  rewrite trocar_um, (IH Hr). unfold nao_eh in Hc.
  apply negb_true_iff in Hc. rewrite Hc. reflexivity.
Qed.

Lemma mapear_sem_X (s : string) :
  todos_chars (nao_eh "X") s = true ->
  todos_chars (nao_eh "X") (mapear_chars trocar_char s) = true.
Proof.
  induction s as [| c r IH]; [reflexivity |].
  cbn [todos_chars mapear_chars]. intros H. apply andb_true_iff in H.
  destruct H as [Hc Hr]. rewrite (IH Hr), andb_true_r.
  unfold nao_eh, trocar_char in *.
  destruct (Ascii.eqb c ","); [reflexivity |].
  destruct (Ascii.eqb c "."); [reflexivity | exact Hc].
Qed.

(** X16: on a text without the letter X the three [replace] calls swap
    commas and periods, character by character, so that applying them
    twice gives the text back; an X itself comes out as a period. *)
Theorem trocar_separadores_troca (s : string) :
  todos_chars (nao_eh "X") s = true ->
  trocar_separadores s = mapear_chars trocar_char s
  /\ trocar_separadores (trocar_separadores s) = s
  /\ String.length (trocar_separadores s) = String.length s
  /\ forall t, trocar_separadores (s ++ String "X" t)
               = (trocar_separadores s ++ String "." (trocar_separadores t))%string.
Proof.
  intros H. pose proof (trocar_sem_X s H) as E.
  split; [exact E |]. split; [| split].
  - rewrite E, (trocar_sem_X _ (mapear_sem_X s H)). clear.
    induction s as [| c r IH]; [reflexivity |].
    cbn [mapear_chars]. now rewrite trocar_char_volta, IH.
  - rewrite E. clear. induction s as [| c r IH]; [reflexivity |].
    cbn [mapear_chars String.length]. now rewrite IH.
  - intros t. rewrite trocar_app, trocar_um. reflexivity.
Qed.

Lemma trocar_separadores_troca_exemplo :
  trocar_separadores "1,234,567.89" = "1.234.567,89"
  /\ trocar_separadores (trocar_separadores "1,234,567.89") = "1,234,567.89".
Proof.
  destruct (trocar_separadores_troca "1,234,567.89") as (E & V & _).
  - reflexivity.
  - split; [rewrite E; reflexivity | exact V].
Defined.

(** ** Amounts below half a hundredth *)

(** X17: an amount of magnitude below 0.005 is written with zero
    hundredths and keeps its sign: a negative one comes out as [-0,00]. *)
Theorem formato_abaixo_de_meio_centavo (x : float) (sg : bool) (m : positive) (e : Z) :
  Prim2SF x = S754_finite sg m e ->
  e < 0 ->
  200 * Zpos m < 2 ^ (- e) ->
  centavos m e = 0
  /\ formato_brasileiro (PyFloat x) = Retornou (PyStr (sinal sg ++ "0,00")).
Proof.
  intros Hx He Hm.
  assert (C : centavos m e = 0).
  { unfold centavos. destruct (0 <=? e) eqn:E0; [lia |]. cbn zeta.
    assert (Hd : 0 < 2 ^ (- e)) by (apply Z.pow_pos_nonneg; lia).
    rewrite (Z.div_small (100 * Zpos m)) by lia.
    rewrite (Z.mod_small (100 * Zpos m)) by lia.
    destruct (2 * (100 * Zpos m) <? 2 ^ (- e)) eqn:E1; [reflexivity | lia]. }
  split; [exact C |].
  unfold formato_brasileiro, formatar_2f. rewrite Hx.
  unfold formatar_float. rewrite C. destruct sg; reflexivity.
Qed.

Lemma formato_abaixo_de_meio_centavo_exemplo :
  formato_brasileiro (PyFloat (- 0.001)) = Retornou (PyStr "-0,00").
Proof.
  destruct (formato_abaixo_de_meio_centavo (- 0.001)%float true
              4611686018427388 (- 62)) as [_ E].
  - vm_compute. reflexivity.
  - lia.
  - vm_compute. reflexivity.
  - exact E.
Defined.

(** ** Tables processing accepts *)

Lemma inferir_dicts (l : list pyval) :
  (forall x, In x l -> eh_dict x = true) -> inferir l = Retornou l.
Proof.
  intros H. unfold inferir.
  assert (E1 : existsb int_enorme l = false).
  { apply not_true_is_false. intros E. apply existsb_exists in E as (v & Hv & Hi).
    specialize (H v Hv). destruct v; discriminate. }
  rewrite E1. destruct l as [| x r]; [reflexivity |].
  cbn [forallb]. specialize (H x (or_introl eq_refl)).
  destruct x; try discriminate. reflexivity.
Qed.

Lemma mapR_parse_dicts (l : list pyval) :
  (forall x, In x l -> eh_dict x = true) -> mapR parse_puro l = Retornou l.
Proof.
  induction l as [| x r IH]; intros H; [reflexivity |].
  cbn [mapR]. rewrite parse_puro_nao_texto.
  - rewrite IH; [reflexivity |]. intros y Hy. apply H. now right.
  - specialize (H x (or_introl eq_refl)). destruct x; try discriminate; reflexivity.
Qed.

Lemma avisos_de_dicts (l : list pyval) :
  (forall x, In x l -> eh_dict x = true) -> flat_map avisos l = [].
Proof.
  induction l as [| x r IH]; intros H; [reflexivity |].
  cbn [flat_map]. rewrite IH by (intros y Hy; apply H; now right).
  specialize (H x (or_introl eq_refl)). destruct x; try discriminate; reflexivity.
Qed.

Lemma avisos_dicts (l : list pyval) :
  (forall x, In x l -> eh_dict x = true) -> avisos_ate l = [].
Proof.
  intros H. rewrite (avisos_ate_total l l (mapR_parse_dicts l H)).
  now apply avisos_de_dicts.
Qed.

Lemma extraivel_dict (mapa : list (string * list string)) (x : pyval) :
  extraivel mapa x = true -> eh_dict x = true.
Proof. unfold extraivel. intros H. now apply andb_true_iff in H. Qed.

Lemma extraivel_extrai (mapa : list (string * list string)) (x : pyval)
    (nova : string) (chaves : list string) :
  extraivel mapa x = true -> In (nova, chaves) mapa ->
  exists v, Processamento.extrair chaves x = Retornou v /\ valor_simples v = true.
Proof.
  unfold extraivel. intros H Hin. apply andb_true_iff in H. destruct H as [_ H].
  rewrite forallb_forall in H. specialize (H _ Hin). cbn [snd] in H.
  destruct (Processamento.extrair chaves x) as [v | |]; try discriminate. eauto.
Qed.

Lemma mapR_In {A B} (f : A -> resultado B) (l : list A) (l' : list B) (y : B) :
  mapR f l = Retornou l' -> In y l' -> exists x, In x l /\ f x = Retornou y.
Proof.
  revert l'. induction l as [| a r IH]; cbn [mapR]; intros l' H Hy.
  - inversion H; subst. contradiction.
  - destruct (f a) as [b | |] eqn:Ea; try discriminate.
    destruct (mapR f r) as [bs | |]; try discriminate.
    inversion H; subst l'. destruct Hy as [<- | Hy].
    + exists a. split; [now left | exact Ea].
    + destruct (IH bs eq_refl Hy) as (x & Hx & Hf). exists x. split; [now right | exact Hf].
Qed.

(** The mappings all succeed on a column of cells they extract from. *)
Lemma mapear_total (nd : string) (mapa : list (string * list string)) :
  forall todos s dicts,
    (forall m, In m mapa -> In m todos) ->
    coluna (dataframe s) nd = Some dicts ->
    (forall x, In x dicts -> extraivel todos x = true) ->
    ~ In nd (map fst mapa) ->
    exists s',
      Processamento.mapear nd mapa s = (Retornou tt, s')
      /\ coluna (dataframe s') nd = Some dicts
      /\ forall c, tem_coluna (dataframe s) c = true ->
                   tem_coluna (dataframe s') c = true.
Proof.
  induction mapa as [| [nova chaves] resto IH]; intros todos s dicts Hsub Hc Hx Hnd.
  - exists s. repeat split; auto.
  - rewrite (mapear_cons _ _ _ _ _ _ Hc).
    destruct (mapR_total (Processamento.extrair chaves) dicts) as (vals & Hv).
    { intros x Hin.
      destruct (extraivel_extrai todos x nova chaves (Hx x Hin)) as (v & Hv & _);
        [apply Hsub; now left | eauto]. }
    destruct (inferir_simples vals) as (vals' & Hi).
    { intros v Hin. destruct (mapR_In _ _ _ _ Hv Hin) as (x & Hxin & Hf).
      destruct (extraivel_extrai todos x nova chaves (Hx x Hxin)) as (v' & Hv' & Hs);
        [apply Hsub; now left |]. congruence. }
    unfold aplicar. rewrite Hv, Hi.
    assert (Hne : nd <> nova) by (intros E; apply Hnd; left; now rewrite E).
    destruct (IH todos (com_dataframe s (atribuir (dataframe s) nova vals')) dicts)
      as (s' & E & Hc' & Ht).
    + intros m Hm. apply Hsub. now right.
    + cbn [com_dataframe dataframe]. rewrite coluna_atribuir_neq by exact Hne. exact Hc.
    + exact Hx.
    + intros Hin. apply Hnd. now right.
    + exists s'. split; [exact E |]. split; [exact Hc' |].
      intros c Tc. apply Ht. cbn [com_dataframe dataframe].
      apply tem_coluna_coluna in Tc. destruct Tc as [ws Hw].
      apply tem_coluna_coluna.
      destruct (String.eqb_spec c nova) as [-> | Hcn].
      * exists vals'. apply coluna_atribuir_eq.
      * exists ws. rewrite coluna_atribuir_neq by exact Hcn. exact Hw.
Qed.

(** The expansion of a column of cells the mappings extract from returns. *)
Lemma expandir_total (nome : string) (mapa : list (string * list string))
    (s : estado) :
  (forall vs x, coluna (dataframe s) nome = Some vs -> In x vs ->
                extraivel mapa x = true) ->
  ~ In (nome_dict nome) (map fst mapa) ->
  exists s', Processamento._expandir_colunas nome mapa s = (Retornou tt, s').
Proof.
  intros Hx Hnd. destruct (coluna (dataframe s) nome) as [brutos |] eqn:Ec.
  - specialize (Hx brutos).
    assert (Hd : forall x, In x brutos -> eh_dict x = true).
    { intros x Hin. apply (extraivel_dict mapa). now apply Hx. }
    rewrite (expandir_casos _ _ _ _ Ec). unfold aplicar.
    rewrite (mapR_parse_dicts _ Hd), (inferir_dicts _ Hd), (avisos_dicts _ Hd).
    rewrite com_eventos_nil.
    destruct (mapear_total (nome_dict nome) mapa mapa
                (com_dataframe s (atribuir (dataframe s) (nome_dict nome) brutos))
                brutos) as (s2 & Em & Hc2 & Ht).
    + auto.
    + apply coluna_atribuir_eq.
    + intros x Hin. now apply Hx.
    + exact Hnd.
    + rewrite Em. unfold drop.
      assert (T1 : tem_coluna (dataframe s2) (nome_dict nome) = true)
        by (apply tem_coluna_coluna; eauto).
      assert (T2 : tem_coluna (dataframe s2) nome = true).
      { apply Ht. cbn [com_dataframe dataframe]. apply tem_coluna_coluna.
        exists brutos. rewrite coluna_atribuir_neq by apply nome_dict_distinto.
        exact Ec. }
      cbn [forallb]. rewrite T1, T2. cbn [andb]. eauto.
  - rewrite (expandir_ausente _ _ _ Ec). eauto.
Qed.

(** X18: on a table whose nested cells are objects the mappings extract
    simple values from and whose value cells are numbers, processing
    returns, without a warning. *)
Theorem processar_total (s : estado) :
  tabela_regular (dataframe s) ->
  exists df' s',
    Processamento.processar_dataframe s = (Retornou df', s')
    /\ dataframe s' = df'
    /\ eventos s' = eventos s
                    ++ formatadas (dataframe s) Processamento.colunas_de_valor.
Proof.
  intros [Hn Hv].
  destruct (expandir_total "compra" Processamento.mapa_compra s) as (s1 & E1).
  { intros vs x Hc Hin. apply (Hn "compra" _ vs x); [cbn; tauto | exact Hc | exact Hin]. }
  { apply nao_esta_em. reflexivity. }
  assert (P1 : forall c, esta_em (tocadas "compra" Processamento.mapa_compra) c = false ->
                         coluna (dataframe s1) c = coluna (dataframe s) c).
  { intros c Hc. apply (expandir_frame_tocadas _ _ _ _ _ E1). now apply nao_esta_em. }
  destruct (expandir_total "unidadeGestora" Processamento.mapa_unidadeGestora s1)
    as (s2 & E2).
  { intros vs x Hc Hin. rewrite P1 in Hc by reflexivity.
    apply (Hn "unidadeGestora" _ vs x); [cbn; tauto | exact Hc | exact Hin]. }
  { apply nao_esta_em. reflexivity. }
  assert (P2 : forall c, esta_em (tocadas "unidadeGestora"
                                    Processamento.mapa_unidadeGestora) c = false ->
                         coluna (dataframe s2) c = coluna (dataframe s1) c).
  { intros c Hc. apply (expandir_frame_tocadas _ _ _ _ _ E2). now apply nao_esta_em. }
  destruct (expandir_total "fornecedor" Processamento.mapa_fornecedor s2) as (s3 & E3).
  { intros vs x Hc Hin. rewrite P2, P1 in Hc by reflexivity.
    apply (Hn "fornecedor" _ vs x); [cbn; tauto | exact Hc | exact Hin]. }
  { apply nao_esta_em. reflexivity. }
  assert (P3 : forall c, esta_em (tocadas "fornecedor"
                                    Processamento.mapa_fornecedor) c = false ->
                         coluna (dataframe s3) c = coluna (dataframe s2) c).
  { intros c Hc. apply (expandir_frame_tocadas _ _ _ _ _ E3). now apply nao_esta_em. }
  destruct (expandir_total "unidadeGestoraCompras"
              Processamento.mapa_unidadeGestoraCompras s3) as (s4 & E4).
  { intros vs x Hc Hin. rewrite P3, P2, P1 in Hc by reflexivity.
    apply (Hn "unidadeGestoraCompras" _ vs x); [cbn; tauto | exact Hc | exact Hin]. }
  { apply nao_esta_em. reflexivity. }
  assert (P4 : forall c, esta_em (tocadas "unidadeGestoraCompras"
                                    Processamento.mapa_unidadeGestoraCompras) c = false ->
                         coluna (dataframe s4) c = coluna (dataframe s3) c).
  { intros c Hc. apply (expandir_frame_tocadas _ _ _ _ _ E4). now apply nao_esta_em. }
  assert (PV : forall c, In c Processamento.colunas_de_valor ->
                         coluna (dataframe s4) c = coluna (dataframe s) c).
  { intros c Hc. cbn in Hc. destruct Hc as [<- | [<- | []]];
      rewrite P4, P3, P2, P1 by reflexivity; reflexivity. }
  destruct (formatar_total _ NoDup_colunas_de_valor s4) as (s' & F).
  { intros c vs x Hc Hcol Hin. rewrite (PV c Hc) in Hcol. now apply (Hv c vs x). }
  assert (E : Processamento.processar_dataframe s = (Retornou (dataframe s'), s')).
  { unfold Processamento.processar_dataframe.
    rewrite (bind_retornou _ _ _ _ _ E1), (bind_retornou _ _ _ _ _ E2),
      (bind_retornou _ _ _ _ _ E3), (bind_retornou _ _ _ _ _ E4),
      (bind_retornou _ _ _ _ _ F). reflexivity. }
  exists (dataframe s'), s'. split; [exact E |]. split; [reflexivity |].
  pose proof (expandir_eventos _ _ _ _ E1) as V1.
  pose proof (expandir_eventos _ _ _ _ E2) as V2.
  pose proof (expandir_eventos _ _ _ _ E3) as V3.
  pose proof (expandir_eventos _ _ _ _ E4) as V4.
  destruct (formatar_eventos _ _ _ F) as [VF _].
  assert (A : forall nome mapa df,
             In (nome, mapa) expansoes ->
             coluna df nome = coluna (dataframe s) nome ->
             flat_map avisos (coluna_ou_vazia df nome) = []).
  { intros nome mapa df Hin Hc. unfold coluna_ou_vazia. rewrite Hc.
    destruct (coluna (dataframe s) nome) as [vs |] eqn:Ec; [| reflexivity].
    apply avisos_de_dicts. intros x Hx. apply (extraivel_dict mapa).
    now apply (Hn nome mapa vs x). }
  rewrite VF, V4, V3, V2, V1.
  rewrite (A "compra" Processamento.mapa_compra) by (cbn; tauto).
  rewrite (A "unidadeGestora" Processamento.mapa_unidadeGestora)
    by (cbn; try tauto; apply P1; reflexivity).
  rewrite (A "fornecedor" Processamento.mapa_fornecedor)
    by (cbn; try tauto; rewrite P2, P1 by reflexivity; reflexivity).
  rewrite (A "unidadeGestoraCompras" Processamento.mapa_unidadeGestoraCompras)
    by (cbn; try tauto; rewrite P3, P2, P1 by reflexivity; reflexivity).
  rewrite !app_nil_r. f_equal.
  unfold formatadas. f_equal. unfold Processamento.colunas_de_valor. cbn [filter].
  destruct (colunas_iguais _ _ _ (PV "valorInicialCompra" (or_introl eq_refl)))
    as [_ ->].
  destruct (colunas_iguais _ _ _ (PV "valorFinalCompra" (or_intror (or_introl eq_refl))))
    as [_ ->].
  reflexivity.
Qed.

Lemma processar_total_exemplo :
  exists df' s',
    Processamento.processar_dataframe (estado_com tabela_api) = (Retornou df', s')
    /\ eventos s' = [Registrou INFO (ColunaFormatada "valorInicialCompra");
                     Registrou INFO (ColunaFormatada "valorFinalCompra")].
Proof.
  destruct (processar_total (estado_com tabela_api)) as (df' & s' & E & _ & Hev).
  - split.
    + intros nome mapa vs x Hin Hc Hx. cbn in Hin.
      repeat (destruct Hin as [Hin | Hin];
              [inversion Hin; subst nome mapa; clear Hin;
               try discriminate Hc;
               inversion Hc; subst vs; clear Hc;
               repeat (destruct Hx as [<- | Hx]; [reflexivity |]); contradiction |]).
      contradiction.
    + intros c vs x Hin Hc Hx. cbn in Hin.
      repeat (destruct Hin as [<- | Hin];
              [inversion Hc; subst vs; clear Hc;
               repeat (destruct Hx as [<- | Hx]; [reflexivity |]); contradiction |]).
      contradiction.
  - exists df', s'. split; [exact E | exact Hev].
Defined.

(** ** The script on contracts processing accepts *)

Lemma como_registros_In (l : list pyval) :
  forall regs reg,
    como_registros l = Some regs -> In reg regs ->
    exists v, In v l /\ como_registro v = Some reg.
Proof.
  induction l as [| v r IH]; cbn [como_registros]; intros regs reg H Hin.
  - inversion H; subst. contradiction.
  - destruct (como_registro v) as [x |] eqn:Ev; [| discriminate].
    destruct (como_registros r) as [xs |]; [| discriminate].
    inversion H; subst regs. destruct Hin as [<- | Hin].
    + exists v. split; [now left | exact Ev].
    + destruct (IH xs reg eq_refl Hin) as (v' & Hv' & Hr).
      exists v'. split; [now right | exact Hr].
Qed.

(** A column of the table built from records holds, row by row, the
    values of the records under its label after dtype inference. *)
Lemma pd_DataFrame_coluna (dados : list pyval) (df : DataFrame) :
  pd_DataFrame dados = Retornou df ->
  exists regs,
    como_registros dados = Some regs
    /\ forall k vs, coluna df k = Some vs ->
         inferir (map (fun reg => valor_em reg k) regs) = Retornou vs.
Proof.
  unfold pd_DataFrame. destruct (como_registros dados) as [regs |] eqn:E;
    [| discriminate].
  destruct (montar_colunas regs (nomes_colunas regs)) as [cs | |] eqn:Em;
    try discriminate.
  intros H. inversion H; subst df; clear H. exists regs. split; [reflexivity |].
  intros k vs Hc. unfold coluna in Hc. cbn [colunas] in Hc.
  destruct (montar_colunas_inv _ _ _ Em) as [Hf Hk].
  pose proof (assoc_In _ _ _ Hc) as Hin. rewrite Hf in Hin.
  destruct (Hk k Hin) as (vs' & Ha & Hi). congruence.
Qed.

Lemma registro_regular_inv (v : pyval) :
  registro_regular v = true ->
  exists r,
    como_registro v = Some r
    /\ (forall nome mapa, In (nome, mapa) expansoes ->
          exists x, assoc nome r = Some x /\ extraivel mapa x = true)
    /\ (forall c, In c Processamento.colunas_de_valor ->
          assoc c r = None \/ exists x, assoc c r = Some x /\ eh_numero x = true).
Proof.
  unfold registro_regular. destruct (como_registro v) as [r |]; [| discriminate].
  intros H. apply andb_true_iff in H. destruct H as [H H3].
  apply andb_true_iff in H. destruct H as [_ H2].
  rewrite forallb_forall in H2, H3. exists r. split; [reflexivity |]. split.
  - intros nome mapa Hin. specialize (H2 _ Hin). cbn [fst snd] in H2.
    destruct (assoc nome r) as [x |]; [eauto | discriminate].
  - intros c Hin. specialize (H3 _ Hin).
    destruct (assoc c r) as [x |]; [right; eauto | now left].
Qed.

Lemma registro_regular_simples (v : pyval) :
  registro_regular v = true -> registro_simples v = true.
Proof.
  unfold registro_regular, registro_simples.
  destruct (como_registro v) as [r |]; [| discriminate].
  intros H. apply andb_true_iff in H. destruct H as [H _].
  apply andb_true_iff in H. now destruct H.
Qed.

Lemma numerico_coagido (x y : pyval) :
  eh_numero x = true -> coagido x y -> numerico y = true.
Proof.
  intros H [-> | ->]; destruct x; try discriminate; cbn in *; try reflexivity.
  unfold eh_int64 in H. apply andb_true_iff in H. destruct H as [H1 H2].
  apply Z.ltb_lt. assert (2 ^ 63 < 2 ^ 1023) by (apply Z.pow_lt_mono_r; lia). lia.
Qed.

(** The table of regular contracts is one processing accepts. *)
Lemma pd_DataFrame_regular (dados : list pyval) (df : DataFrame) :
  forallb registro_regular dados = true ->
  pd_DataFrame dados = Retornou df ->
  tabela_regular df
  /\ (dados <> [] -> tabela_vazia df = false).
Proof.
  intros Hreg Hdf. rewrite forallb_forall in Hreg.
  destruct (pd_DataFrame_coluna _ _ Hdf) as (regs & Hregs & Hcol).
  assert (R : forall reg, In reg regs ->
                (forall nome mapa, In (nome, mapa) expansoes ->
                   exists x, assoc nome reg = Some x /\ extraivel mapa x = true)
                /\ (forall c, In c Processamento.colunas_de_valor ->
                      assoc c reg = None
                      \/ exists x, assoc c reg = Some x /\ eh_numero x = true)).
  { intros reg Hin. destruct (como_registros_In _ _ _ Hregs Hin) as (v & Hv & Hr).
    destruct (registro_regular_inv v (Hreg v Hv)) as (r & Hr' & H1 & H2).
    rewrite Hr in Hr'. inversion Hr'; subst r. now split. }
  split; [split |].
  - intros nome mapa vs x Hin Hc Hx.
    destruct (inferir_In _ _ _ (Hcol _ _ Hc) Hx) as (x0 & Hx0 & Hco).
    apply in_map_iff in Hx0. destruct Hx0 as (reg & <- & Hreg').
    destruct (R reg Hreg') as [H1 _].
    destruct (H1 nome mapa Hin) as (x1 & Ha & He).
    unfold valor_em in Hco. rewrite Ha in Hco.
    pose proof (extraivel_dict _ _ He) as Hd. destruct x1; try discriminate.
    apply coagido_dict in Hco. now subst x.
  - intros c vs x Hin Hc Hx.
    destruct (inferir_In _ _ _ (Hcol _ _ Hc) Hx) as (x0 & Hx0 & Hco).
    apply in_map_iff in Hx0. destruct Hx0 as (reg & <- & Hreg').
    destruct (R reg Hreg') as [_ H2].
    unfold valor_em in Hco. destruct (H2 c Hin) as [Hn | (x1 & Ha & Hnum)].
    + rewrite Hn in Hco. destruct Hco as [-> | ->]; reflexivity.
    + rewrite Ha in Hco. now apply (numerico_coagido x1).
  - intros Hne. destruct (pd_DataFrame_linha _ _ Hdf) as [Hn Hrow].
    destruct dados as [| v resto]; [contradiction |].
    destruct (registro_regular_inv v (Hreg v (or_introl eq_refl)))
      as (r & Hr & H1 & _).
    destruct (H1 "compra" Processamento.mapa_compra) as (x & Ha & _); [cbn; tauto |].
    destruct (Hrow 0%nat v r eq_refl Hr) as [Hcel _].
    destruct (Hcel "compra" x Ha) as (y & Hy & _).
    unfold celula, coluna, tabela_vazia in *.
    destruct (colunas df); [discriminate |]. rewrite Hn. reflexivity.
Qed.

(** X19: against a server whose pages hold regular contracts and end with
    an empty or failed page, the script asks for those pages and one more,
    processes the table of all the contracts and writes it, one row per
    contract, to [contratos_FULL.csv]. *)
Theorem principal_completo (w : mundo) (combustivel : nat) (c : ClienteAPI.t)
    (paginas : list (list pyval)) :
  ClienteAPI.__init__ w url_da_api estado_inicial = (Retornou c, estado_inicial) ->
  (forall j regs, nth_error paginas j = Some regs ->
     pagina w (buscador_de c) (1 + Z.of_nat j) = PyList regs /\ regs <> []) ->
  truthy (pagina w (buscador_de c) (1 + Z.of_nat (List.length paginas))) = false ->
  (List.length paginas < combustivel)%nat ->
  forallb registro_regular (List.concat paginas) = true ->
  List.concat paginas <> [] ->
  let saida := principal w combustivel script_inicial in
  let r := roteiro (snd saida) in
  exists df,
    fst saida = Retornou tt
    /\ gravacoes r = [(arquivo_csv, false, df)]
    /\ tabela (snd saida) = df
    /\ n_linhas df = List.length (List.concat paginas)
    /\ processada df
    /\ requisicoes (eventos_do_nucleo r)
       = map (requisicao_pagina (buscador_de c)) (seqZ 1 (S (List.length paginas)))
    /\ anotacoes r
       = [(INFO, IniciandoBusca);
          (INFO, ContratosEncontrados (List.length (List.concat paginas)));
          (INFO, ContratosSalvos);
          (INFO, ExibindoPrimeirasLinhas);
          (INFO, PrimeirasLinhas (head df))].
Proof.
  intros Ec Hp Hf Hc Hreg Hne saida r. unfold r, saida. clear saida r.
  destruct (pd_DataFrame_total (List.concat paginas)) as (df0 & Hdf).
  { rewrite forallb_forall in *. intros v Hv. apply registro_regular_simples.
    now apply Hreg. }
  destruct (pd_DataFrame_regular _ _ Hreg Hdf) as [Hregular Hvazia].
  specialize (Hvazia Hne).
  destruct (pd_DataFrame_linha _ _ Hdf) as [Hn0 _].
  pose proof (pd_DataFrame_bem_formada _ _ Hdf) as Hbf.
  destruct (buscar_contratos_eq w (buscador_de c) paginas estado_inicial combustivel)
    as (s1 & El & Rl & Eb); [exact Hp | exact Hf | exact Hc |].
  specialize (Eb df0 Hdf).
  rewrite (principal_com_cliente _ _ _ Ec). cbn zeta. rewrite Eb.
  cbn [fst snd]. rewrite Hvazia.
  match goal with
  | |- context [Processamento.processar_dataframe ?x] => set (s3 := x)
  end.
  destruct (processar_total s3) as (df & s' & Ep & Hs' & _); [exact Hregular |].
  destruct (processar_produz_processada _ _ _ Ep) as [Hproc _].
  destruct (processar_forma s3 Hbf) as [_ Hn]. rewrite Ep in Hn. cbn [snd] in Hn.
  destruct (processar_efeitos s3) as [_ (novos & He & Hfn)]. rewrite Ep in He.
  cbn [snd] in He.
  destruct (requisicoes_registros novos Hfn) as [Rn _].
  rewrite Ep. cbn [fst snd].
  exists df. abrir_roteiro. rewrite ?app_nil_r. cbn [app eventos dataframe leituras].
  rewrite He, Hs'. cbn [s3 entrada anotar juntar eventos lidas tabela app].
  rewrite requisicoes_app, Rn, app_nil_r, Rl.
  assert (Hnl : n_linhas df = List.length (List.concat paginas)).
  { rewrite <- Hs', Hn. exact Hn0. }
  rewrite Hn0.
  repeat split; try reflexivity; try assumption; try apply Hproc.
Qed.

Lemma principal_completo_exemplo :
  exists df,
    fst (principal mundo_regular 5 script_inicial) = Retornou tt
    /\ gravacoes (roteiro (snd (principal mundo_regular 5 script_inicial)))
       = [(arquivo_csv, false, df)]
    /\ n_linhas df = 3%nat.
Proof.
  destruct (principal_completo mundo_regular 5 cliente_exemplo
              [[contrato_regular 1 (PyFloat 1000.5); contrato_regular 2 (PyInt 3)];
               [contrato_regular 3 (PyFloat 0.5)]])
    as (df & H1 & H2 & _ & H4 & _).
  - reflexivity.
  - intros [| [| j]] regs Hj; cbn in Hj; try (destruct j; discriminate);
      inversion Hj; subst regs; (split; [reflexivity | discriminate]).
  - reflexivity.
  - cbn. lia.
  - vm_compute. reflexivity.
  - discriminate.
  - exists df. split; [exact H1 |]. split; [exact H2 | exact H4].
Defined.

(** ** The cells of the new columns *)

Lemma celula_igual (df df' : DataFrame) (c : string) (i : nat) :
  coluna df' c = coluna df c -> celula df' c i = celula df c i.
Proof. intros E. unfold celula. now rewrite E. Qed.

(** What one expansion writes stays through the steps that follow when
    they do not touch it. *)
Lemma expandir_celula_mantida (nome : string) (mapa : list (string * list string))
    (s0 s s1 sf : estado) (i : nat) (bruto : pyval) :
  Processamento._expandir_colunas nome mapa s = (Retornou tt, s1) ->
  coluna (dataframe s) nome = coluna (dataframe s0) nome ->
  celula (dataframe s0) nome i = Some bruto ->
  sem_repeticao (map fst mapa) = true ->
  esta_em (map fst mapa) nome = false ->
  esta_em (map fst mapa) (nome_dict nome) = false ->
  (forall c, In c (map fst mapa) -> coluna (dataframe sf) c = coluna (dataframe s1) c) ->
  exists d d',
    parse_puro bruto = Retornou d
    /\ coagido d d'
    /\ forall nova chaves, In (nova, chaves) mapa ->
         exists v v', Processamento.extrair chaves d' = Retornou v
                      /\ coagido v v'
                      /\ celula (dataframe sf) nova i = Some v'.
Proof.
  intros E Hc Hcel Hnd Hn1 Hn2 Hf.
  destruct (expandir_celula nome mapa s s1 i bruto E) as (d & d' & Hp & Hco & _ & Hm).
  - rewrite (celula_igual (dataframe s0) (dataframe s) nome i Hc). exact Hcel.
  - now apply sem_repeticao_NoDup.
  - now apply nao_esta_em.
  - now apply nao_esta_em.
  - exists d, d'. split; [exact Hp |]. split; [exact Hco |].
    intros nova chaves Hin. destruct (Hm nova chaves Hin) as (v & v' & Hv & Hcv & Hcl).
    exists v, v'. split; [exact Hv |]. split; [exact Hcv |].
    rewrite (celula_igual (dataframe s1) (dataframe sf) nova i); [exact Hcl |].
    apply Hf. apply (in_map fst _ _ Hin).
Qed.

(** X20: when processing returns, row [i] of every new column holds what
    its mapping extracts from the parsed cell of row [i] of the nested
    column it comes from (an int or a [None] as a float where the column is
    of floats). *)
Theorem processar_achata (s s' : estado) (df' : DataFrame) (nome : string)
    (mapa : list (string * list string)) (i : nat) (bruto : pyval) :
  Processamento.processar_dataframe s = (Retornou df', s') ->
  In (nome, mapa) expansoes ->
  celula (dataframe s) nome i = Some bruto ->
  exists d d',
    parse_puro bruto = Retornou d
    /\ coagido d d'
    /\ forall nova chaves, In (nova, chaves) mapa ->
         exists v v', Processamento.extrair chaves d' = Retornou v
                      /\ coagido v v'
                      /\ celula df' nova i = Some v'.
Proof.
  intros H Hin Hcel.
  destruct (processar_inv _ _ _ H) as (s1 & s2 & s3 & s4 & E1 & E2 & E3 & E4 & F & ->).
  assert (P1 : forall c, esta_em (tocadas "compra" Processamento.mapa_compra) c = false ->
                         coluna (dataframe s1) c = coluna (dataframe s) c).
  { intros c Hc. apply (expandir_frame_tocadas _ _ _ _ _ E1). now apply nao_esta_em. }
  assert (P2 : forall c, esta_em (tocadas "unidadeGestora"
                                    Processamento.mapa_unidadeGestora) c = false ->
                         coluna (dataframe s2) c = coluna (dataframe s1) c).
  { intros c Hc. apply (expandir_frame_tocadas _ _ _ _ _ E2). now apply nao_esta_em. }
  assert (P3 : forall c, esta_em (tocadas "fornecedor"
                                    Processamento.mapa_fornecedor) c = false ->
                         coluna (dataframe s3) c = coluna (dataframe s2) c).
  { intros c Hc. apply (expandir_frame_tocadas _ _ _ _ _ E3). now apply nao_esta_em. }
  assert (P4 : forall c, esta_em (tocadas "unidadeGestoraCompras"
                                    Processamento.mapa_unidadeGestoraCompras) c = false ->
                         coluna (dataframe s4) c = coluna (dataframe s3) c).
  { intros c Hc. apply (expandir_frame_tocadas _ _ _ _ _ E4). now apply nao_esta_em. }
  assert (PF : forall c, esta_em Processamento.colunas_de_valor c = false ->
                         coluna (dataframe s') c = coluna (dataframe s4) c).
  { intros c Hc. destruct (formatar_inv _ _ _ F) as (Ff & _). apply Ff.
    now apply nao_esta_em. }
  cbn in Hin. destruct Hin as [Hin | [Hin | [Hin | [Hin | []]]]];
    inversion Hin; subst nome mapa; clear Hin.
  - apply (expandir_celula_mantida _ _ s s s1 s' i bruto E1); try reflexivity;
      [exact Hcel |].
    intros c Hc. cbn in Hc.
    repeat (destruct Hc as [<- | Hc];
            [rewrite PF, P4, P3, P2 by reflexivity; reflexivity |]).
    contradiction.
  - apply (expandir_celula_mantida _ _ s s1 s2 s' i bruto E2); try reflexivity;
      [apply P1; reflexivity | exact Hcel |].
    intros c Hc. cbn in Hc.
    repeat (destruct Hc as [<- | Hc];
            [rewrite PF, P4, P3 by reflexivity; reflexivity |]).
    contradiction.
  - apply (expandir_celula_mantida _ _ s s2 s3 s' i bruto E3); try reflexivity;
      [rewrite P2, P1 by reflexivity; reflexivity | exact Hcel |].
    intros c Hc. cbn in Hc.
    repeat (destruct Hc as [<- | Hc];
            [rewrite PF, P4 by reflexivity; reflexivity |]).
    contradiction.
  - apply (expandir_celula_mantida _ _ s s3 s4 s' i bruto E4); try reflexivity;
      [rewrite P3, P2, P1 by reflexivity; reflexivity | exact Hcel |].
    intros c Hc. cbn in Hc.
    repeat (destruct Hc as [<- | Hc]; [rewrite PF by reflexivity; reflexivity |]).
    contradiction.
Qed.

Lemma processar_achata_exemplo :
  exists df' s',
    Processamento.processar_dataframe (estado_com tabela_api) = (Retornou df', s')
    /\ celula df' "orgaoVinculado_sigla" 0 = Some (PyStr "IBAMA")
    /\ celula df' "codUnidadeGestora" 0 = Some (PyStr "1").
Proof.
  set (saida := Processamento.processar_dataframe (estado_com tabela_api)).
  assert (E : saida = (Retornou (dataframe (snd saida)), snd saida))
    by (vm_compute; reflexivity).
  destruct (processar_achata _ _ _ "unidadeGestora" Processamento.mapa_unidadeGestora
              0%nat
              (objeto [("codigo", PyStr "1");
                       ("orgaoVinculado", objeto [("sigla", PyStr "IBAMA")])]) E)
    as (d & d' & Hp & Hco & Hm).
  - cbn. tauto.
  - reflexivity.
  - exists (dataframe (snd saida)), (snd saida). split; [exact E |].
    split; vm_compute; reflexivity.
Defined.

(** X21: when processing returns, row [i] of a value column holds the
    text [f'{x:,.2f}'] of the cell [x] the raw table had there, commas and
    periods swapped. *)
Theorem processar_formata (s s' : estado) (df' : DataFrame) (c : string) (i : nat)
    (x : pyval) :
  Processamento.processar_dataframe s = (Retornou df', s') ->
  In c Processamento.colunas_de_valor ->
  celula (dataframe s) c i = Some x ->
  exists t,
    formatar_2f x = Retornou t
    /\ celula df' c i = Some (PyStr (trocar_separadores t))
    /\ In (Registrou INFO (ColunaFormatada c)) (eventos s').
Proof.
  intros H Hin Hcel.
  destruct (processar_inv _ _ _ H) as (s1 & s2 & s3 & s4 & E1 & E2 & E3 & E4 & F & ->).
  assert (P : coluna (dataframe s4) c = coluna (dataframe s) c).
  { rewrite (expandir_frame_tocadas _ _ _ _ c E4),
      (expandir_frame_tocadas _ _ _ _ c E3),
      (expandir_frame_tocadas _ _ _ _ c E2),
      (expandir_frame_tocadas _ _ _ _ c E1); [reflexivity | | | |];
      apply nao_esta_em; cbn in Hin; destruct Hin as [<- | [<- | []]]; reflexivity. }
  destruct (celula_formatada _ _ _ NoDup_colunas_de_valor F c i x Hin) as (t & Hc & Ht).
  { rewrite (celula_igual (dataframe s) (dataframe s4) c i P). exact Hcel. }
  exists t. split; [exact Ht |]. split; [exact Hc |].
  destruct (formatar_eventos _ _ _ F) as [VF _]. rewrite VF.
  apply in_or_app. right. unfold formatadas.
  apply (in_map (fun c0 => Registrou INFO (ColunaFormatada c0))). apply filter_In.
  split; [exact Hin |].
  destruct (colunas_iguais _ _ _ P) as [_ ->].
  apply tem_coluna_coluna. unfold celula in Hcel.
  destruct (coluna (dataframe s) c) as [vs |]; [eauto | discriminate].
Qed.

Lemma processar_formata_exemplo :
  exists df' s',
    Processamento.processar_dataframe (estado_com tabela_api) = (Retornou df', s')
    /\ celula df' "valorInicialCompra" 0 = Some (PyStr "1.000,50").
Proof.
  set (saida := Processamento.processar_dataframe (estado_com tabela_api)).
  assert (E : saida = (Retornou (dataframe (snd saida)), snd saida))
    by (vm_compute; reflexivity).
  destruct (processar_formata _ _ _ "valorInicialCompra" 0%nat (PyFloat 1000.5) E)
    as (t & Ht & Hc & _).
  - cbn. tauto.
  - reflexivity.
  - exists (dataframe (snd saida)), (snd saida). split; [exact E |].
    rewrite Hc. inversion Ht. reflexivity.
Defined.

(** ** The texts the model calls malformed *)

Lemma malformado_inv (ts : list token) :
  malformado ts = Levantou LiteralMalformado ->
  (List.length ts <= limite_de_tokens)%nat.
Proof.
  unfold malformado.
  destruct (Nat.ltb limite_de_tokens (List.length ts)) eqn:E; [discriminate |].
  intros _. apply Nat.ltb_ge in E. exact E.
Qed.

(** The model answers [LiteralMalformado] only on the empty text and on a
    text that nests at most 50 deep and either has at most
    [limite_de_tokens] tokens or is, as a whole, a literal form that
    [_convert] rejects. *)
Lemma literal_eval_malformado (s : string) :
  literal_eval s = Levantou LiteralMalformado ->
  s = ""
  \/ exists ts,
       (lexer s Livre [] = Tokens ts \/ lexer s Livre [] = LexFalhou ts)
       /\ (profundidade ts 0 0 <= 50)%nat
       /\ ((List.length ts <= limite_de_tokens)%nat
           \/ exists e, p_expr (S (List.length ts)) 50 ts = Achou e []
                        /\ converter e = Levantou LiteralMalformado).
Proof.
  unfold literal_eval. destruct s as [| c r]; [now left |].
  destruct ((cod c =? 32) || (cod c =? 9)); [discriminate |].
  destruct (lexer (String c r) Livre []) as [ts | ts |]; [| | discriminate].
  - destruct (existsb eh_set ts); [discriminate |]. cbn [orb].
    destruct (Nat.ltb 50 (profundidade ts 0 0)) eqn:Ep; [discriminate |].
    apply Nat.ltb_ge in Ep. intros H. right. exists ts.
    split; [now left |]. split; [exact Ep |].
    destruct (existsb eh_nome_livre ts).
    + destruct (existsb eh_abre_chave ts); [discriminate |].
      left. now apply malformado_inv.
    + destruct (p_expr (S (List.length ts)) 50 ts) as [e resto | |] eqn:Ea;
        [| | discriminate].
      * destruct resto as [| t resto'].
        -- right. exists e. now split.
        -- destruct t; try discriminate;
             (destruct (existsb eh_abre_chave ts); [discriminate |];
              left; now apply malformado_inv).
      * destruct (existsb eh_abre_chave ts); [discriminate |].
        left. now apply malformado_inv.
  - destruct (Nat.ltb 50 (profundidade ts 0 0)) eqn:Ep; [discriminate |].
    apply Nat.ltb_ge in Ep. intros H. right. exists ts.
    split; [now right |]. split; [exact Ep |]. left. now apply malformado_inv.
Qed.

(** Short chains of operators are malformed; on long ones, where the
    parser may fail otherwise, the model does not answer. *)
Lemma literal_eval_cadeias :
  literal_eval (cadeia 3) = Levantou LiteralMalformado
  /\ literal_eval (negacoes 3) = Levantou LiteralMalformado
  /\ literal_eval (cadeia 60) = Indefinido ForaDoModelo
  /\ literal_eval (cadeia 400) = Indefinido ForaDoModelo
  /\ literal_eval (negacoes 400) = Indefinido ForaDoModelo
  /\ fst (Processamento._parse_dict (PyStr (cadeia 400)) estado_inicial)
     = Indefinido ForaDoModelo.
Proof.
  split; [vm_compute; reflexivity |].
  split; [vm_compute; reflexivity |].
  split; [vm_compute; reflexivity |].
  split; [vm_compute; reflexivity |].
  split; vm_compute; reflexivity.
Qed.
